(** * liza_codex_pdf: the OCR quality-ensemble and coverage pipeline

    A shallow embedding of the pure core of [src/liza_codex_pdf/web.py]:
    candidate scoring, best-candidate tracking, rescue and review decisions,
    word-box geometry, deduplication and the invisible-text overlay
    preparation, followed by the properties stated for them.

    Conventions
    - a Python [int] is a [Z]; [//] is [Z.div] (floor division);
    - a Python [float] is an IEEE 754 binary64 value, [PyFloat.float],
      computed with the round-to-nearest-even operations of [SpecFloat];
    - a Python [str] is the list of its Unicode code points ([str]);
    - a function that can raise returns an [option] or a [result];
    - a [dict] whose iteration order is observable is an association list
      in insertion order. *)

From Stdlib Require Import ZArith NArith List Bool Lia String Ascii Permutation.
From Stdlib Require Import Floats.SpecFloat.
From Stdlib Require Import Sorting.Sorted.
Import ListNotations.

Local Open Scope Z_scope.

(** ** Python floats *)

Module PyFloat.

Definition float : Type := spec_float.

Definition prec : Z := 53.
Definition emax : Z := 1024.

Definition mul : float -> float -> float := SFmul prec emax.
Definition div : float -> float -> float := SFdiv prec emax.
Definition add : float -> float -> float := SFadd prec emax.
Definition sub : float -> float -> float := SFsub prec emax.

(** [a < b], [a <= b]; [a > b] is written [ltb b a], [a >= b] is
    [leb b a].  Every comparison with a NaN is false. *)
Definition ltb : float -> float -> bool := SFltb.
Definition leb : float -> float -> bool := SFleb.

(** The float nearest to an integer (ties to even). *)
Definition of_Z (z : Z) : float := binary_normalize prec emax z 0 false.

(** The first magnitude that rounds to [2^1024]. *)
Definition overflow_threshold : Z := 2 ^ 1024 - 2 ^ 970.

(** The implicit conversion of an [int] operand of a float operation:
    [OverflowError] (here [None]) when the integer is out of range. *)
Definition of_int (z : Z) : option float :=
  if overflow_threshold <=? Z.abs z then None else Some (of_Z z).

(** [int(x)]: truncation toward zero; raises on infinities and NaN. *)
Definition to_int (x : float) : option Z :=
  match x with
  | S754_zero _ => Some 0
  | S754_finite s m e =>
      let magnitude :=
        match e with
        | Z0 => Zpos m
        | Zpos p => Zpos m * 2 ^ Zpos p
        | Zneg p => Zpos m / 2 ^ Zpos p
        end in
      Some (if s then - magnitude else magnitude)
  | S754_infinity _ | S754_nan => None
  end.

(** A decimal literal [num/den] of the source, e.g. [1.15] as
    [lit 115 100]: numerator and denominator are exact floats and the
    division rounds once, as the parser of the literal does. *)
Definition lit (num den : Z) : float := div (of_Z num) (of_Z den).

(** The builtins [max(a, b)] and [min(a, b)] on two floats: the first
    argument is kept unless the second is strictly better. *)
Definition max (a b : float) : float := if ltb a b then b else a.
Definition min (a b : float) : float := if ltb b a then b else a.

End PyFloat.

(** ** Python strings *)

(** A string is the list of its code points. *)
Definition str : Type := list N.

(** The code points of an ASCII literal. *)
Definition cps (s : string) : str :=
  List.map N_of_ascii (list_ascii_of_string s).

Definition in_range (lo hi c : N) : bool := ((lo <=? c) && (c <=? hi))%N.

(** The character classes of the regular expressions. *)
Definition is_AZ (c : N) : bool := in_range 65 90 c.       (* A-Z *)
Definition is_az (c : N) : bool := in_range 97 122 c.      (* a-z *)
Definition is_09 (c : N) : bool := in_range 48 57 c.       (* 0-9 *)
Definition is_cyr_upper (c : N) : bool := in_range 1040 1071 c. (* А-Я *)
Definition is_cyr_lower (c : N) : bool := in_range 1072 1103 c. (* а-я *)

(** ** Word boxes *)

(** [WordBox = tuple[int, int, int, int, str, float]]:
    [(left, top, width, height, text, conf)]; [left] is spelled [left_]
    below, the plain name being taken by a constructor. *)
Definition WordBox : Type := (Z * Z * Z * Z * str * PyFloat.float)%type.

(** [box[2]] and [box[3]] *)
Definition width_of (box : WordBox) : Z :=
  let '(_, _, width, _, _, _) := box in width.

Definition height_of (box : WordBox) : Z :=
  let '(_, _, _, height, _, _) := box in height.

(** [box[4]] and [box[5]] *)
Definition text_of (box : WordBox) : str :=
  let '(_, _, _, _, text, _) := box in text.

Definition conf_of (box : WordBox) : PyFloat.float :=
  let '(_, _, _, _, _, conf) := box in conf.

(** ** Rotation mapping *)

Definition _map_rotated_box_to_original
    (left_ top width height : Z) (text : str) (conf : PyFloat.float)
    (original_width original_height : Z) (angle : Z) : option WordBox :=
  let mapped :=
    if angle =? 90 then Some (original_width - (top + height), left_)
    else if angle =? 270 then Some (top, original_height - (left_ + width))
    else None in
  match mapped with
  | None => None
  | Some (mapped_left, mapped_top) =>
      let mapped_width := height in
      let mapped_height := width in
      let mapped_left := Z.max 0 (Z.min (original_width - 1) mapped_left) in
      let mapped_top := Z.max 0 (Z.min (original_height - 1) mapped_top) in
      let mapped_width :=
        Z.max 1 (Z.min mapped_width (original_width - mapped_left)) in
      let mapped_height :=
        Z.max 1 (Z.min mapped_height (original_height - mapped_top)) in
      Some (mapped_left, mapped_top, mapped_width, mapped_height, text, conf)
  end.

(** The mapping applied to a box given as a tuple, as the callers do. *)
Definition map_box (original_width original_height angle : Z) (box : WordBox)
    : option WordBox :=
  let '(left_, top, width, height, text, conf) := box in
  _map_rotated_box_to_original left_ top width height text conf
    original_width original_height angle.

(** Two mappings in a row; [None] as soon as one of them returns [None]. *)
Definition map_twice (w1 h1 angle1 w2 h2 angle2 : Z) (box : WordBox)
    : option WordBox :=
  match map_box w1 h1 angle1 box with
  | Some mapped => map_box w2 h2 angle2 mapped
  | None => None
  end.

(** A box detected on the rotated rendering of a
    [original_width x original_height] image lies inside that rendering,
    which is [original_height] wide and [original_width] high. *)
Definition within_rotated_bounds (original_width original_height : Z)
    (box : WordBox) : Prop :=
  let '(left_, top, width, height, _, _) := box in
  0 <= left_ /\ 0 <= top /\ 1 <= width /\ 1 <= height /\
  left_ + width <= original_height /\ top + height <= original_width.

(** Equal within rounding: every coordinate differs by at most one pixel,
    the text and the confidence are kept. *)
Definition within_rounding (a b : WordBox) : Prop :=
  let '(la, ta, wa, ha, texta, confa) := a in
  let '(lb, tb, wb, hb, textb, confb) := b in
  Z.abs (la - lb) <= 1 /\ Z.abs (ta - tb) <= 1 /\
  Z.abs (wa - wb) <= 1 /\ Z.abs (ha - hb) <= 1 /\
  texta = textb /\ confa = confb.

(** ** Regular expressions

    The fragment of Python's [re] that the scoring patterns use, with the
    semantics of a backtracking matcher: alternatives are tried from left
    to right, repetitions are greedy, and the first way to match wins. *)

Inductive regex : Type :=
| Cls (p : N -> bool)                              (* [...] *)
| Rep (p : N -> bool) (lo : nat) (hi : option nat) (* [...]{lo,hi}, + and * *)
| Seq (r1 r2 : regex)
| Alt (r1 r2 : regex)                              (* r1|r2 *)
| Opt (r : regex).                                 (* (?:r)? *)

(** Greedy repetition of a class: one more character is taken first, and
    the continuation [k] is tried on shorter runs only after that fails. *)
Fixpoint rep_match (p : N -> bool) (lo : nat) (hi : option nat) (s : str)
    (k : str -> option str) : option str :=
  let stop := match lo with O => k s | S _ => None end in
  let more := match hi with None => Some None | Some O => None
                       | Some (S h) => Some (Some h) end in
  match s, more with
  | c :: s', Some hi' =>
      if p c then
        match rep_match p (Nat.pred lo) hi' s' k with
        | Some rest => Some rest
        | None => stop
        end
      else stop
  | _, _ => stop
  end.

(** [match_re r s k]: match [r] at the head of [s] and pass the rest of the
    input to [k]; the result is what is left after the whole match. *)
Fixpoint match_re (r : regex) (s : str) (k : str -> option str) : option str :=
  match r with
  | Cls p =>
      match s with
      | c :: s' => if p c then k s' else None
      | [] => None
      end
  | Rep p lo hi => rep_match p lo hi s k
  | Seq r1 r2 => match_re r1 s (fun s1 => match_re r2 s1 k)
  | Alt r1 r2 =>
      match match_re r1 s k with
      | Some rest => Some rest
      | None => match_re r2 s k
      end
  | Opt r1 =>
      match match_re r1 s k with
      | Some rest => Some rest
      | None => k s
      end
  end.

Definition match_here (r : regex) (s : str) : option str := match_re r s Some.

(** [re.findall(r, s)] for a pattern without capturing groups: the
    non-overlapping matches from left to right.  [skip] counts the
    characters of the current match that are still to be passed over. *)
Fixpoint findall_from (r : regex) (s : str) (skip : nat) : list str :=
  match s with
  | [] =>
      match skip, match_here r [] with
      | O, Some _ => [[]]
      | _, _ => []
      end
  | _ :: s' =>
      match skip with
      | S n => findall_from r s' n
      | O =>
          match match_here r s with
          | Some rest =>
              let len := (List.length s - List.length rest)%nat in
              firstn len s :: findall_from r s' (len - 1)%nat
          | None => findall_from r s' 0%nat
          end
      end
  end.

Definition findall (r : regex) (s : str) : list str := findall_from r s 0%nat.

Definition one_of (chars : string) (c : N) : bool :=
  existsb (N.eqb c) (cps chars).

(** ** Scoring an OCR candidate *)

Record Analysis : Type := mkAnalysis {
  score : Z;
  alnum_chars : Z;
  token_count : Z;
  eng_token_count : Z;
  numeric_token_count : Z
}.

(** A candidate file, named after the attempt that wrote it:
    [ocr_page_<page>_try_<attempt_idx>.pdf] in the page's directory. *)
Inductive Path : Type :=
| ocr_page_try (attempt_idx : Z).

Section Scoring.

(** The Unicode tables behind [str.isalnum] and behind [\d] of a [str]
    pattern (the decimal digits of every script). *)
Variable isalnum : N -> bool.
Variable isdecimal : N -> bool.

(** [pdfminer.high_level.extract_text], already completed by [or ""]. *)
Variable extract_text : Path -> str.

(** [A-Za-z] *)
Definition latin (c : N) : bool := is_AZ c || is_az c.

(** [A-Za-zА-Яа-я0-9] *)
Definition word_char (c : N) : bool :=
  is_AZ c || is_az c || is_cyr_upper c || is_cyr_lower c || is_09 c.

(** [A-Za-z0-9._/-] *)
Definition code_tail (c : N) : bool := latin c || is_09 c || one_of "._/-" c.

(** One character of [A-Za-zА-Яа-я0-9], then any number of characters of
    [A-Za-zА-Яа-я0-9._/-]. *)
Definition token_pattern : regex :=
  Seq (Cls word_char) (Rep (fun c => word_char c || one_of "._/-" c) 0 None).

(** Either one to six Latin letters, an optional character of [-_/], one
    to eight digits and a tail of [A-Za-z0-9._/-]; or one to eight digits,
    one to six Latin letters and the same tail. *)
Definition eng_pattern : regex :=
  Alt (Seq (Rep latin 1 (Some 6%nat))
        (Seq (Rep (one_of "-_/") 0 (Some 1%nat))
          (Seq (Rep isdecimal 1 (Some 8%nat)) (Rep code_tail 0 None))))
      (Seq (Rep isdecimal 1 (Some 8%nat))
        (Seq (Rep latin 1 (Some 6%nat)) (Rep code_tail 0 None))).

(** Digits, then optionally one of [.,] followed by digits. *)
Definition numeric_pattern : regex :=
  Seq (Rep isdecimal 1 None)
      (Opt (Seq (Cls (one_of ".,")) (Rep isdecimal 1 None))).

Definition count_alnum (text : str) : nat :=
  List.length (filter isalnum text).

Definition find_tokens (text : str) : list str :=
  filter (fun token => (2 <=? List.length token)%nat)
         (findall token_pattern text).

Definition _analyze_ocr_pdf (pdf_path : Path) : Analysis :=
  let text := extract_text pdf_path in
  let alnum_chars := Z.of_nat (count_alnum text) in
  let tokens := find_tokens text in
  let eng_tokens := findall eng_pattern text in
  let numeric_tokens := findall numeric_pattern text in
  let score :=
    alnum_chars + 2 * Z.of_nat (List.length tokens)
    + 5 * Z.of_nat (List.length eng_tokens) in
  {| score := score;
     alnum_chars := alnum_chars;
     token_count := Z.of_nat (List.length tokens);
     eng_token_count := Z.of_nat (List.length eng_tokens);
     numeric_token_count := Z.of_nat (List.length numeric_tokens) |}.

End Scoring.

Definition _candidate_selection_score (analysis : Analysis)
    (drawing_mode : bool) : Z :=
  let base := score analysis in
  let eng := eng_token_count analysis in
  let numeric := numeric_token_count analysis in
  let tokens := token_count analysis in
  if drawing_mode
  then base + 65 * eng + 30 * numeric + 2 * tokens
  else base + 20 * eng + 8 * numeric.

(** ** Settings, profiles and exceptions *)

(** The settings dictionary that [_build_job_settings] builds. *)
Record Settings : Type := mkSettings {
  lang : string;
  optimize : Z;
  jobs : Z;
  rotate_pages : bool;
  deskew : bool;
  quiet : bool;
  drawing_mode : bool;
  deep_verify : bool
}.

(** One OCR profile; [None] is Python's [None]. *)
Record Profile : Type := mkProfile {
  name : string;
  psm : option Z;
  oversample : option Z;
  remove_background : bool;
  clean : bool;
  clean_final : bool;
  remove_vectors : bool;
  thresholding : option string
}.

Inductive exn : Type :=
| ExternalToolError   (* the OCR primitive failed *)
| RuntimeError        (* "No OCR result produced for page ..." *)
| ValueError
| OverflowError.

Inductive result (A : Type) : Type :=
| Ok (a : A)
| Raise (e : exn).

Arguments Ok {A} a.
Arguments Raise {A} e.

Definition bind {A B : Type} (r : result A) (f : A -> result B) : result B :=
  match r with
  | Ok a => f a
  | Raise e => Raise e
  end.

Notation "x <- r ;; k" := (bind r (fun x => k))
  (at level 61, r at next level, right associativity).

Definition lift {A : Type} (e : exn) (o : option A) : result A :=
  match o with
  | Some a => Ok a
  | None => Raise e
  end.

(** ** Running the profiles of a page and tracking the best candidate *)

(** The entries of [attempt_info]. *)
Record AttemptInfo : Type := mkAttemptInfo {
  info_attempt : Z;
  info_profile : string;
  info_score : Z;
  info_tokens : Z;
  info_eng_tokens : Z;
  info_num_tokens : Z;
  info_selection_score : Z
}.

(** The local variables of [_run_ocr_attempts_for_page]. *)
Record AttemptsState : Type := mkAttemptsState {
  attempts : list AttemptInfo;
  best_candidate : option Path;
  best_profile : option Profile;
  best_analysis : Analysis;
  best_selection_score : Z
}.

(** The state before the first attempt.  The placeholder analysis of the
    source has no ["alnum_chars"] entry; nothing ever reads that entry, and
    the field is [0] here. *)
Definition initial_attempts_state : AttemptsState :=
  {| attempts := [];
     best_candidate := None;
     best_profile := None;
     best_analysis :=
       {| score := -1; alnum_chars := 0; token_count := 0;
          eng_token_count := 0; numeric_token_count := 0 |};
     best_selection_score := -1 |}.

Section Attempts.

Variable isalnum : N -> bool.
Variable isdecimal : N -> bool.
Variable extract_text : Path -> str.

(** Whether [run_ocr] succeeds in writing the candidate of an attempt;
    its exception is not caught and ends the call. *)
Variable run_ocr : Path -> Profile -> bool.

(** The analysis and the selection score of the candidate that attempt
    [attempt_idx] writes. *)
Definition analysis_of (attempt_idx : Z) : Analysis :=
  _analyze_ocr_pdf isalnum isdecimal extract_text (ocr_page_try attempt_idx).

Definition selection_of (settings : Settings) (attempt_idx : Z) : Z :=
  _candidate_selection_score (analysis_of attempt_idx) (drawing_mode settings).

(** The [attempt_info] of an attempt. *)
Definition attempt_info_of (settings : Settings) (attempt_idx : Z)
    (profile : Profile) : AttemptInfo :=
  let analysis := analysis_of attempt_idx in
  {| info_attempt := attempt_idx;
     info_profile := name profile;
     info_score := score analysis;
     info_tokens := token_count analysis;
     info_eng_tokens := eng_token_count analysis;
     info_num_tokens := numeric_token_count analysis;
     info_selection_score := selection_of settings attempt_idx |}.

(** One iteration of the loop over [enumerate(profiles, start=1)].  The
    progress records written to the job registry are left out: they do
    not flow back into the loop. *)
Definition attempt_step (settings : Settings) (st : AttemptsState)
    (attempt_idx : Z) (profile : Profile) : result AttemptsState :=
  let candidate := ocr_page_try attempt_idx in
  if run_ocr candidate profile then
    let analysis := _analyze_ocr_pdf isalnum isdecimal extract_text candidate in
    let selection_score :=
      _candidate_selection_score analysis (drawing_mode settings) in
    let attempt_info :=
      {| info_attempt := attempt_idx;
         info_profile := name profile;
         info_score := score analysis;
         info_tokens := token_count analysis;
         info_eng_tokens := eng_token_count analysis;
         info_num_tokens := numeric_token_count analysis;
         info_selection_score := selection_score |} in
    let attempts' := attempts st ++ [attempt_info] in
    if best_selection_score st <? selection_score then
      Ok {| attempts := attempts';
            best_candidate := Some candidate;
            best_profile := Some profile;
            best_analysis := analysis;
            best_selection_score := selection_score |}
    else
      Ok {| attempts := attempts';
            best_candidate := best_candidate st;
            best_profile := best_profile st;
            best_analysis := best_analysis st;
            best_selection_score := best_selection_score st |}
  else Raise ExternalToolError.

Fixpoint attempts_loop (settings : Settings) (profiles : list Profile)
    (attempt_idx : Z) (st : AttemptsState) : result AttemptsState :=
  match profiles with
  | [] => Ok st
  | profile :: rest =>
      st' <- attempt_step settings st attempt_idx profile ;;
      attempts_loop settings rest (attempt_idx + 1) st'
  end.

Definition _run_ocr_attempts_for_page (settings : Settings)
    (profiles : list Profile)
    : result (Path * Profile * Analysis * list AttemptInfo) :=
  st <- attempts_loop settings profiles 1 initial_attempts_state ;;
  match best_candidate st, best_profile st with
  | Some candidate, Some profile =>
      Ok (candidate, profile, best_analysis st, attempts st)
  | _, _ => Raise RuntimeError
  end.

(** The attempt history of a run in which every attempt succeeds. *)
Fixpoint attempt_infos (settings : Settings) (profiles : list Profile)
    (attempt_idx : Z) : list AttemptInfo :=
  match profiles with
  | [] => []
  | profile :: rest =>
      attempt_info_of settings attempt_idx profile
      :: attempt_infos settings rest (attempt_idx + 1)
  end.

(** Every attempt of [profiles], numbered from [attempt_idx], succeeds. *)
Definition all_succeed (profiles : list Profile) (attempt_idx : Z) : Prop :=
  forall (j : nat) (profile : Profile),
    nth_error profiles j = Some profile ->
    run_ocr (ocr_page_try (attempt_idx + Z.of_nat j)) profile = true.

(** What a run of the loop over [profiles] does to the best candidate:
    it is kept when no attempt is strictly better than it, and otherwise
    replaced by the first attempt of maximal selection score. *)
Definition best_after (settings : Settings) (profiles : list Profile)
    (attempt_idx : Z) (st st' : AttemptsState) : Prop :=
  (best_candidate st' = best_candidate st
   /\ best_profile st' = best_profile st
   /\ best_analysis st' = best_analysis st
   /\ best_selection_score st' = best_selection_score st
   /\ forall j, (j < List.length profiles)%nat ->
        selection_of settings (attempt_idx + Z.of_nat j)
        <= best_selection_score st)
  \/
  (exists (k : nat) (profile : Profile),
     let best_idx := attempt_idx + Z.of_nat k in
     nth_error profiles k = Some profile
     /\ best_candidate st' = Some (ocr_page_try best_idx)
     /\ best_profile st' = Some profile
     /\ best_analysis st' = analysis_of best_idx
     /\ best_selection_score st' = selection_of settings best_idx
     /\ best_selection_score st < selection_of settings best_idx
     /\ (forall j, (j < List.length profiles)%nat ->
           selection_of settings (attempt_idx + Z.of_nat j)
           <= selection_of settings best_idx)
     /\ (forall j, (j < k)%nat ->
           selection_of settings (attempt_idx + Z.of_nat j)
           < selection_of settings best_idx)).

End Attempts.

Definition _build_page_profiles (settings : Settings) : list Profile :=
  if negb (drawing_mode settings) then
    [ {| name := "standard"; psm := None; oversample := None;
         remove_background := false; clean := false; clean_final := false;
         remove_vectors := false; thresholding := None |} ]
  else
    [ {| name := "draw-sparse-a"; psm := Some 11; oversample := Some 450;
         remove_background := true; clean := false; clean_final := false;
         remove_vectors := false; thresholding := Some "adaptive-otsu"%string |};
      {| name := "draw-lines-b"; psm := Some 6; oversample := Some 650;
         remove_background := false; clean := false; clean_final := false;
         remove_vectors := true; thresholding := Some "sauvola"%string |};
      {| name := "draw-grid-c"; psm := Some 4; oversample := Some 550;
         remove_background := true; clean := false; clean_final := false;
         remove_vectors := false; thresholding := Some "otsu"%string |} ].

(** ** Rescue and manual-review decisions *)

(** The entries of the coverage dictionary that the decisions read, each
    with [.get]: an absent key is [None]. *)
Record Coverage : Type := mkCoverage {
  full_words : option Z;
  tile_words : option Z;
  combined_words : option Z;
  gain_ratio : option PyFloat.float
}.

(** [d.get(key, default)] *)
Definition get {A : Type} (entry : option A) (default : A) : A :=
  match entry with
  | Some v => v
  | None => default
  end.

Definition _should_run_rescue_pass (analysis : Analysis) (coverage : Coverage)
    (settings : Settings) : bool :=
  if negb (deep_verify settings) then false
  else if drawing_mode settings then
    let full_words := get (full_words coverage) 0 in
    let tile_words := get (tile_words coverage) 0 in
    let combined_words := get (combined_words coverage) tile_words in
    let gain_ratio := get (gain_ratio coverage) (PyFloat.of_Z 0) in
    let tile_bonus := tile_words - full_words in
    if score analysis <? 420 then true
    else if (eng_token_count analysis <? 8) && (25 <=? tile_words) then true
    else if combined_words <? 55 then true
    else if (30 <=? tile_bonus) && PyFloat.leb (PyFloat.lit 35 100) gain_ratio
            && (score analysis <? 700) then true
    else false
  else score analysis <? 120.

Definition _needs_manual_review (analysis : Analysis) (coverage : Coverage)
    (settings : Settings) : bool :=
  if drawing_mode settings then
    let tile_words := get (tile_words coverage) 0 in
    let combined_words := get (combined_words coverage) tile_words in
    let gain_ratio := get (gain_ratio coverage) (PyFloat.of_Z 0) in
    if score analysis <? 260 then true
    else if (eng_token_count analysis <? 6) && (tile_words <? 20) then true
    else if combined_words <? 40 then true
    else if PyFloat.ltb (PyFloat.lit 12 10) gain_ratio
            && (combined_words <? 120) then true
    else false
  else score analysis <? 120.

(** ** The vertical-text scan *)

(** [int(x)] of a float. *)
Definition int_of_float (x : PyFloat.float) : result Z :=
  match x with
  | S754_nan => Raise ValueError
  | _ => lift OverflowError (PyFloat.to_int x)
  end.

(** [int(mapped_width * 1.15)] *)
Definition vertical_threshold (mapped_width : Z) : result Z :=
  w <- lift OverflowError (PyFloat.of_int mapped_width) ;;
  int_of_float (PyFloat.mul w (PyFloat.lit 115 100)).

(** The loop of [_extract_word_boxes_rotated] over the boxes found on the
    rotated rendering; [mapped_boxes] is the list built so far. *)
Fixpoint map_rotated_boxes (keep_vertical_only : bool)
    (original_width original_height angle : Z)
    (rotated_boxes mapped_boxes : list WordBox) : result (list WordBox) :=
  match rotated_boxes with
  | [] => Ok mapped_boxes
  | (left_, top, width, height, text, conf) :: rest =>
      let continue := map_rotated_boxes keep_vertical_only
                        original_width original_height angle rest in
      match _map_rotated_box_to_original left_ top width height text conf
              original_width original_height angle with
      | Some mapped_box =>
          if keep_vertical_only then
            let '(_, _, mapped_width, mapped_height, _, _) := mapped_box in
            threshold <- vertical_threshold mapped_width ;;
            if mapped_height <? threshold then continue mapped_boxes
            else continue (mapped_boxes ++ [mapped_box])
          else continue (mapped_boxes ++ [mapped_box])
      | None => continue mapped_boxes
      end
  end.

(** [image_size] is the size of the rendering, [rotated_boxes] what word
    detection ([_extract_word_boxes] with the given language, segmentation
    mode and minimum confidence) returns on the rendering rotated by
    [angle]. *)
Definition _extract_word_boxes_rotated (image_size : Z * Z)
    (rotated_boxes : list WordBox) (angle : Z) (keep_vertical_only : bool)
    : result (list WordBox) :=
  if negb ((angle =? 90) || (angle =? 270)) then Raise ValueError
  else
    let '(original_width, original_height) := image_size in
    map_rotated_boxes keep_vertical_only original_width original_height angle
      rotated_boxes [].

(** The threshold of every box that the mapping lets through can be
    computed: no conversion overflows. *)
Definition thresholds_computable (original_width original_height angle : Z)
    (rotated_boxes : list WordBox) : Prop :=
  forall box mapped_box,
    In box rotated_boxes ->
    map_box original_width original_height angle box = Some mapped_box ->
    exists threshold, vertical_threshold (width_of mapped_box) = Ok threshold.

(** [mapped_box] is the image of a detected box and reaches the threshold
    of its width. *)
Definition kept_as_vertical (original_width original_height angle : Z)
    (rotated_boxes : list WordBox) (mapped_box : WordBox) : Prop :=
  exists box threshold,
    In box rotated_boxes
    /\ map_box original_width original_height angle box = Some mapped_box
    /\ vertical_threshold (width_of mapped_box) = Ok threshold
    /\ threshold <= height_of mapped_box.

(** ** Deduplication of word boxes *)

(** A [dict] in insertion order: assigning to a present key keeps its
    place, a new key goes to the end. *)
Section Dict.

Variables K V : Type.
Variable eqb : K -> K -> bool.

Definition dict : Type := list (K * V).

Fixpoint dict_get (d : dict) (k : K) : option V :=
  match d with
  | [] => None
  | (k', v) :: d' => if eqb k k' then Some v else dict_get d' k
  end.

Fixpoint dict_set (d : dict) (k : K) (v : V) : dict :=
  match d with
  | [] => [(k, v)]
  | (k', v') :: d' =>
      if eqb k k' then (k', v) :: d' else (k', v') :: dict_set d' k v
  end.

Definition dict_values (d : dict) : list V := List.map snd d.

End Dict.

Arguments dict_get {K V} eqb d k.
Arguments dict_set {K V} eqb d k v.
Arguments dict_values {K V} d.

Fixpoint str_eqb (a b : str) : bool :=
  match a, b with
  | [], [] => true
  | x :: a', y :: b' => N.eqb x y && str_eqb a' b'
  | _, _ => false
  end.

(** The keys [(normalized, left // n, top // n)]. *)
Definition box_key : Type := (str * Z * Z)%type.

Definition box_key_eqb (a b : box_key) : bool :=
  let '(sa, xa, ya) := a in
  let '(sb, xb, yb) := b in
  str_eqb sa sb && (xa =? xb) && (ya =? yb).

(** [str.upper] on the characters that [re.sub] leaves: the lower-case
    Latin and Cyrillic letters move down by 32, the others stay. *)
Definition upper_char (c : N) : N :=
  if is_az c || is_cyr_lower c then (c - 32)%N else c.

(** [re.sub(r"[^A-Za-zА-Яа-я0-9]", "", text).upper()] *)
Definition normalized_text (text : str) : str :=
  List.map upper_char (filter word_char text).

Definition dedupe_step (dedup : dict box_key WordBox) (box : WordBox)
    : dict box_key WordBox :=
  let '(left_, top, width, height, text, conf) := box in
  let normalized := normalized_text text in
  match normalized with
  | [] => dedup
  | _ :: _ =>
      let key := (normalized, left_ / 6, top / 6) in
      match dict_get box_key_eqb dedup key with
      | None => dict_set box_key_eqb dedup key box
      | Some (_, _, _, _, _, existing_conf) =>
          if PyFloat.ltb existing_conf conf
          then dict_set box_key_eqb dedup key box
          else dedup
      end
  end.

Definition _dedupe_word_boxes (boxes : list WordBox) : list WordBox :=
  dict_values (fold_left dedupe_step boxes []).

(** The key under which a box is stored, if it is stored at all. *)
Definition key_of (box : WordBox) : option box_key :=
  let '(left_, top, _, _, text, _) := box in
  match normalized_text text with
  | [] => None
  | _ :: _ => Some (normalized_text text, left_ / 6, top / 6)
  end.

(** A dictionary as [_dedupe_word_boxes] builds it: no key twice, and
    every box under its own key. *)
Definition well_keyed (dedup : dict box_key WordBox) : Prop :=
  NoDup (List.map fst dedup)
  /\ forall key box, In (key, box) dedup -> key_of box = Some key.

(** A text without any character of [A-Za-zА-Яа-я0-9]. *)
Definition no_word_char (text : str) : Prop :=
  forall c, In c text -> word_char c = false.

(** ** Preparing the invisible overlay *)

Definition _ENGINEERING_TOKEN_SPLITS : list (string * string) :=
  [ ("DESIGNCODE", "DESIGN CODE");
    ("DESIGNTEMP", "DESIGN TEMP");
    ("DESIGNPRESS", "DESIGN PRESS");
    ("OPERATINGPRESS", "OPERATING PRESS");
    ("OPERATINGTEMP", "OPERATING TEMP");
    ("HYDROTESTPRESS", "HYDRO TEST PRESS");
    ("PNEUMTESTPRESS", "PNEUM TEST PRESS");
    ("RADIOGRAPHICEXAM", "RADIOGRAPHIC EXAM");
    ("JOINTEFFICIENCY", "JOINT EFFICIENCY");
    ("CORROSIONALLOW", "CORROSION ALLOW");
    ("INTERNALCOATING", "INTERNAL COATING");
    ("EXTERNALPAINT", "EXTERNAL PAINT");
    ("FIREPROOFING", "FIRE PROOFING");
    ("ACIDPICKLING", "ACID PICKLING");
    ("FLOWRATE", "FLOW RATE");
    ("EMPTYWEIGHT", "EMPTY WEIGHT");
    ("FULLWATERWEIGHT", "FULL WATER WEIGHT") ]%string.

(** The [replacements] of [_normalize_overlay_token], by code point:
    the three dashes, the multiplication and division signs, superscript
    three and two, and the degree sign. *)
Definition overlay_replacements : list (N * str) :=
  [ (8212%N, cps "-"); (8211%N, cps "-"); (8722%N, cps "-");
    (215%N, cps "x"); (247%N, cps "/"); (179%N, cps "3");
    (178%N, cps "2"); (176%N, []) ].

(** [s.replace(src, dst)] for a one-character [src]. *)
Definition replace_char (src : N) (dst : str) (s : str) : str :=
  flat_map (fun c => if N.eqb c src then dst else [c]) s.

Fixpoint drop_while (p : N -> bool) (s : str) : str :=
  match s with
  | c :: s' => if p c then drop_while p s' else s
  | [] => []
  end.

Fixpoint starts_with (prefix s : str) : bool :=
  match prefix, s with
  | [], _ => true
  | x :: prefix', y :: s' => N.eqb x y && starts_with prefix' s'
  | _ :: _, [] => false
  end.

(** [sub in s] *)
Fixpoint contains (sub s : str) : bool :=
  starts_with sub s ||
  match s with
  | [] => false
  | _ :: s' => contains sub s'
  end.

(** [A-Za-z0-9] *)
Definition ascii_alnum (c : N) : bool := is_AZ c || is_az c || is_09 c.

(** [A-Za-z0-9./:_+\\\-#%()] *)
Definition overlay_char (c : N) : bool :=
  ascii_alnum c || one_of "./:_+\-#%()" c.

(** An overlay word [(x, y, box_width, box_height, text)]. *)
Definition OverlayWord : Type :=
  (PyFloat.float * PyFloat.float * PyFloat.float * PyFloat.float * str)%type.

(** The text of an overlay word. *)
Definition line_of (word : OverlayWord) : str :=
  let '(_, _, _, _, line) := word in line.

Section Overlay.

(** The Unicode table behind [str.strip] and [\s]. *)
Variable isspace : N -> bool.

(** [text.strip()] *)
Definition strip (text : str) : str :=
  rev (drop_while isspace (rev (drop_while isspace text))).

Definition _normalize_overlay_token (text : str) : str :=
  let cleaned := strip text in
  match cleaned with
  | [] => []
  | _ :: _ =>
      let cleaned :=
        fold_left (fun acc '(src, dst) => replace_char src dst acc)
                  overlay_replacements cleaned in
      let cleaned := filter (fun c => negb (isspace c)) cleaned in
      let cleaned := filter overlay_char cleaned in
      if negb (existsb ascii_alnum cleaned) then []
      else
        let compact := List.map upper_char (filter ascii_alnum cleaned) in
        match find (fun '(source, _) => contains (cps source) compact)
                   _ENGINEERING_TOKEN_SPLITS with
        | Some (_, replacement) => cps replacement
        | None => firstn 96 cleaned
        end
  end.

(** [sorted(boxes, key=lambda item: item[5], reverse=True)]: a stable
    sort by decreasing confidence.  A box moves behind the boxes of the
    sorted rest that are strictly more confident.  This is the order of
    [sorted] when the confidences are ordered by [<]; when one of them
    is NaN, [<] is no order, the place of the boxes then depends on the
    merge strategy of [sorted], and the two orders can differ.  The
    properties below use no more of the ranking than that it permutes
    its input, which [sorted] does for all confidences. *)
Fixpoint insert_ranked (box : WordBox) (ranked : list WordBox)
    : list WordBox :=
  match ranked with
  | [] => [box]
  | other :: ranked' =>
      if PyFloat.ltb (conf_of box) (conf_of other)
      then other :: insert_ranked box ranked'
      else box :: ranked
  end.

Definition ranked_by_conf (boxes : list WordBox) : list WordBox :=
  fold_right insert_ranked [] boxes.

Definition int_times (n : Z) (x : PyFloat.float) : result PyFloat.float :=
  n' <- lift OverflowError (PyFloat.of_int n) ;;
  Ok (PyFloat.mul n' x).

(** The overlay word of one box: the coordinates of the PDF page, whose
    vertical axis points up. *)
Definition overlay_word (page_height scale_x scale_y : PyFloat.float)
    (box : WordBox) (normalized : str) : result OverlayWord :=
  let '(left_, top, width, height, _, _) := box in
  x <- int_times left_ scale_x ;;
  below <- int_times (top + height) scale_y ;;
  let y := PyFloat.sub page_height below in
  w <- int_times width scale_x ;;
  let box_width := PyFloat.max (PyFloat.of_Z 2) w in
  h <- int_times height scale_y ;;
  let box_height := PyFloat.max (PyFloat.of_Z 2) h in
  Ok (x, y, box_width, box_height, normalized).

(** The loop over [ranked_boxes], with [selected] and [seen] as built
    so far. *)
Fixpoint select_words (page_height scale_x scale_y : PyFloat.float)
    (ranked_boxes : list WordBox) (selected : list OverlayWord)
    (seen : list box_key) : result (list OverlayWord) :=
  match ranked_boxes with
  | [] => Ok selected
  | box :: rest =>
      let '(left_, top, width, height, text, conf) := box in
      let continue := select_words page_height scale_x scale_y rest in
      if PyFloat.ltb conf (PyFloat.of_Z 15) then continue selected seen
      else
        let normalized := _normalize_overlay_token text in
        match normalized with
        | [] => continue selected seen
        | _ :: _ =>
            let key := (normalized, left_ / 5, top / 5) in
            if existsb (box_key_eqb key) seen then continue selected seen
            else
              let seen := key :: seen in
              word <- overlay_word page_height scale_x scale_y
                        box normalized ;;
              let selected := selected ++ [word] in
              if (3500 <=? List.length selected)%nat then Ok selected
              else continue selected seen
        end
  end.

Definition _prepare_overlay_words (boxes : list WordBox)
    (page_width page_height : PyFloat.float)
    (image_width image_height : Z) : result (list OverlayWord) :=
  if (image_width <=? 0) || (image_height <=? 0)
     || PyFloat.leb page_width (PyFloat.of_Z 0)
     || PyFloat.leb page_height (PyFloat.of_Z 0)
  then Ok []
  else
    iw <- lift OverflowError (PyFloat.of_int image_width) ;;
    let scale_x := PyFloat.div page_width iw in
    ih <- lift OverflowError (PyFloat.of_int image_height) ;;
    let scale_y := PyFloat.div page_height ih in
    select_words page_height scale_x scale_y (ranked_by_conf boxes) [] [].

(** The integers of a box that are multiplied by a float are within the
    range of the floats. *)
Definition box_in_range (box : WordBox) : Prop :=
  let '(left_, top, width, height, _, _) := box in
  Z.abs left_ < PyFloat.overflow_threshold
  /\ Z.abs (top + height) < PyFloat.overflow_threshold
  /\ Z.abs width < PyFloat.overflow_threshold
  /\ Z.abs height < PyFloat.overflow_threshold.

(** [word] is the overlay word of [box], for some scale factors, and
    [box] passes the confidence test. *)
Definition originates_from (page_height : PyFloat.float) (box : WordBox)
    (word : OverlayWord) : Prop :=
  PyFloat.ltb (conf_of box) (PyFloat.of_Z 15) = false
  /\ exists scale_x scale_y,
       overlay_word page_height scale_x scale_y box
         (_normalize_overlay_token (text_of box)) = Ok word.

End Overlay.

(** ** Injecting the plain-text rescue lines *)

(** What the injection touches of a page: its media box
    [(x0, y0, x1, y1)] and the invisible text operations laid over it, one
    per overlay word, in the order they are added. *)
Record Page : Type := mkPage {
  mediabox : PyFloat.float * PyFloat.float * PyFloat.float * PyFloat.float;
  hidden_text : list OverlayWord
}.

(** A PDF file is the list of its pages. *)
Definition Pdf : Type := list Page.

(** The loop over [lines] that lays them out from the bottom of the page,
    5.8 points apart. *)
Fixpoint layout_lines (page_width page_height : PyFloat.float)
    (lines : list str) (y : PyFloat.float) (overlay_words : list OverlayWord)
    : list OverlayWord :=
  match lines with
  | [] => overlay_words
  | line :: rest =>
      if PyFloat.ltb
           (PyFloat.max (PyFloat.of_Z 8) (PyFloat.sub page_height (PyFloat.of_Z 8)))
           y
      then overlay_words
      else
        let overlay_words :=
          overlay_words ++
          [(PyFloat.of_Z 8, y,
            PyFloat.max (PyFloat.of_Z 20) (PyFloat.sub page_width (PyFloat.of_Z 16)),
            PyFloat.of_Z 6, line)] in
        let y := PyFloat.add y (PyFloat.lit 58 10) in
        if (180 <=? List.length overlay_words)%nat then overlay_words
        else layout_lines page_width page_height rest y overlay_words
  end.

(** The width and the height of a page, from its media box. *)
Definition page_size (page : Page) : PyFloat.float * PyFloat.float :=
  let '(x0, y0, x1, y1) := mediabox page in
  (PyFloat.sub x1 x0, PyFloat.sub y1 y0).

(** [3 <= dim <= 14400], which is false of NaN. *)
Definition dimension_allowed (dim : PyFloat.float) : bool :=
  PyFloat.leb (PyFloat.of_Z 3) dim && PyFloat.leb dim (PyFloat.of_Z 14400).

Definition page_size_allowed (size : PyFloat.float * PyFloat.float) : bool :=
  dimension_allowed (fst size) && dimension_allowed (snd size).

(** [pdf.add_blank_page(page_size=(page_width, page_height))], the first
    call of [_write_invisible_overlay_pdf]: pikepdf raises [ValueError]
    unless both dimensions are between 3 and 14400 points. *)
Definition add_blank_page (page_width page_height : PyFloat.float)
    : result unit :=
  if page_size_allowed (page_width, page_height) then Ok tt
  else Raise ValueError.

(** The page file after the call, and the returned count.  The overlay
    is written by [_write_invisible_overlay_pdf], which raises for a page
    size that pikepdf refuses, before anything is laid over the page;
    every overlay word becomes one text operation of the overlay: its
    text, followed by a space, is never empty.  Failures of the file
    system are left out. *)
Definition _inject_hidden_text_lines (page_pdf : Pdf) (lines : list str)
    : result (Pdf * Z) :=
  match lines with
  | [] => Ok (page_pdf, 0)
  | _ :: _ =>
      match page_pdf with
      | [] => Ok (page_pdf, 0)
      | page :: other_pages =>
          let '(x0, y0, x1, y1) := mediabox page in
          let page_width := PyFloat.sub x1 x0 in
          let page_height := PyFloat.sub y1 y0 in
          let overlay_words :=
            layout_lines page_width page_height lines (PyFloat.of_Z 8) [] in
          match overlay_words with
          | [] => Ok (page_pdf, 0)
          | _ :: _ =>
              _ <- add_blank_page page_width page_height ;;
              Ok ({| mediabox := mediabox page;
                     hidden_text := hidden_text page ++ overlay_words |}
                  :: other_pages,
                  Z.of_nat (List.length overlay_words))
          end
      end
  end.

(** ** Further predicates on boxes *)

(** A box that lies inside a [W x H] image and is at least one pixel wide
    and high. *)
Definition inside_image (W H : Z) (box : WordBox) : Prop :=
  let '(left_, top, width, height, _, _) := box in
  0 <= left_ /\ 0 <= top /\ 1 <= width /\ 1 <= height
  /\ left_ + width <= W /\ top + height <= H.

(** The state of the deduplication loop after the boxes [done]: every
    stored box is one of them, and every one of them that has a key is
    represented under its key by a box that is not less confident. *)
Definition represents (done : list WordBox) (dedup : dict box_key WordBox)
    : Prop :=
  (forall key box, In (key, box) dedup -> In box done)
  /\ (forall box key,
        In box done -> key_of box = Some key ->
        exists kept,
          In (key, kept) dedup
          /\ PyFloat.ltb (conf_of kept) (conf_of box) = false).

(** ** Finding a free port *)

Section Ports.

(** Whether a socket can be bound to the port of the host; the answer is
    taken to stay the same during one scan. *)
Variable _is_port_free : string -> Z -> bool.

(** The loop [for port in range(start_port, end_port + 1)], [count] ports
    from [port] on. *)
Fixpoint first_free_port (host : string) (port : Z) (count : nat) : option Z :=
  match count with
  | O => None
  | S count' =>
      if _is_port_free host port then Some port
      else first_free_port host (port + 1) count'
  end.

Definition _find_free_port (host : string) (start_port end_port : Z)
    : result Z :=
  if negb ((1 <=? start_port) && (start_port <=? 65535)) then Raise ValueError
  else if negb ((1 <=? end_port) && (end_port <=? 65535)) then Raise ValueError
  else if end_port <? start_port then Raise ValueError
  else
    match first_free_port host start_port
            (Z.to_nat (end_port + 1 - start_port)) with
    | Some port => Ok port
    | None => Raise RuntimeError
    end.

End Ports.

(** ** Writing the overlay: escaping and text operations *)

(** [text.replace("\\", "\\\\").replace("(", "\\(").replace(")", "\\)")]:
    code point 92 is the backslash, 40 and 41 the parentheses. *)
Definition _escape_pdf_text (text : str) : str :=
  replace_char 41 [92%N; 41%N]
    (replace_char 40 [92%N; 40%N]
       (replace_char 92 [92%N; 92%N] text)).

(** [.encode("ascii", errors="ignore")]: the code points below 128 are
    kept, the others are dropped. *)
Definition encode_ascii (text : str) : str :=
  filter (fun c => (c <? 128)%N) text.

(** How a PDF reader reads the body of a literal string: a backslash
    gives the character after it, and the first parenthesis that is not
    escaped ends the string.  The result is the text read and the input
    left after the closing parenthesis. *)
Fixpoint read_pdf_literal (s : str) : option (str * str) :=
  match s with
  | [] => None
  | c :: rest =>
      if N.eqb c 41 then Some ([], rest)
      else if N.eqb c 92 then
        match rest with
        | [] => None
        | escaped :: rest' =>
            match read_pdf_literal rest' with
            | Some (text, left_over) => Some (escaped :: text, left_over)
            | None => None
            end
        end
      else
        match read_pdf_literal rest with
        | Some (text, left_over) => Some (c :: text, left_over)
        | None => None
        end
  end.

(** One text operation of the overlay stream,
    [BT 3 Tr /F1 font_size Tf horizontal_scale Tz 1 0 0 1 x y Tm (text) Tj ET],
    with its operands as they are computed; the source prints the four
    numbers with two decimals and encodes the line as ASCII, which drops
    the characters of the text that are not ASCII and nothing else of the
    line. *)
Record TextOperation : Type := mkTextOperation {
  op_font_size : PyFloat.float;
  op_horizontal_scale : PyFloat.float;
  op_x : PyFloat.float;
  op_y : PyFloat.float;
  op_text : str
}.

(** The body of the loop of [_write_invisible_overlay_pdf] for one word;
    [None] when the word is skipped. *)
Definition text_operation (word : OverlayWord)
    : result (option TextOperation) :=
  let '(x, y, box_width, box_height, text) := word in
  let text_with_gap := text ++ cps " " in
  let escaped := _escape_pdf_text text_with_gap in
  match escaped with
  | [] => Ok None
  | _ :: _ =>
      let font_size :=
        PyFloat.max (PyFloat.of_Z 4)
          (PyFloat.min (PyFloat.of_Z 30)
             (PyFloat.mul box_height (PyFloat.lit 9 10))) in
      scaled <- int_times (Z.of_nat (List.length text_with_gap)) font_size ;;
      let estimated_width :=
        PyFloat.max (PyFloat.of_Z 1) (PyFloat.mul scaled (PyFloat.lit 55 100)) in
      let horizontal_scale :=
        PyFloat.mul (PyFloat.div box_width estimated_width) (PyFloat.of_Z 100) in
      let horizontal_scale :=
        PyFloat.max (PyFloat.of_Z 35)
          (PyFloat.min (PyFloat.of_Z 280) horizontal_scale) in
      Ok (Some {| op_font_size := font_size;
                  op_horizontal_scale := horizontal_scale;
                  op_x := x; op_y := y; op_text := encode_ascii escaped |})
  end.

(** [stream_lines] of [_write_invisible_overlay_pdf]. *)
Fixpoint stream_operations (words : list OverlayWord)
    : result (list TextOperation) :=
  match words with
  | [] => Ok []
  | word :: rest =>
      operation <- text_operation word ;;
      later <- stream_operations rest ;;
      Ok match operation with
         | Some op => op :: later
         | None => later
         end
  end.

(** [a <= x <= b] on floats. *)
Definition float_between (a b x : PyFloat.float) : Prop :=
  PyFloat.leb a x = true /\ PyFloat.leb x b = true.

(** ** Word detection: reading the table of words *)

(** [line.split("\t")]: the fields between the tabs (code point 9), at
    least one. *)
Fixpoint split_tab (line : str) : list str :=
  match line with
  | [] => [[]]
  | c :: rest =>
      if N.eqb c 9 then [] :: split_tab rest
      else
        match split_tab rest with
        | field :: fields => (c :: field) :: fields
        | [] => [[c]]
        end
  end.

Section WordDetection.

Variable isspace : N -> bool.

(** [float(s)] and [int(s)] of a field; [None] for [ValueError]. *)
Variable parse_float : str -> option PyFloat.float.
Variable parse_int : str -> option Z.

(** The body of the loop of [_extract_word_boxes] for one line of the
    table; [None] when the line is passed over. *)
Definition word_of_line (min_conf : PyFloat.float) (line : str)
    : option WordBox :=
  let parts := split_tab line in
  if (List.length parts <? 12)%nat then None
  else
    let text := strip isspace (nth 11 parts []) in
    match text with
    | [] => None
    | _ :: _ =>
        match parse_float (nth 10 parts []), parse_int (nth 6 parts []),
              parse_int (nth 7 parts []), parse_int (nth 8 parts []),
              parse_int (nth 9 parts []) with
        | Some conf, Some left_, Some top, Some width, Some height =>
            if PyFloat.ltb conf min_conf || (width <=? 0) || (height <=? 0)
            then None
            else Some (left_, top, width, height, text, conf)
        | _, _, _, _, _ => None
        end
    end.

(** [lines] is [proc.stdout.splitlines()], the table that the detector
    prints: a header line, then one line per element found. *)
Definition _extract_word_boxes (lines : list str) (min_conf : PyFloat.float)
    : list WordBox :=
  if (List.length lines <=? 1)%nat then []
  else
    flat_map (fun line => match word_of_line min_conf line with
                          | Some box => [box]
                          | None => []
                          end)
             (tl lines).

End WordDetection.

(** ** Tiles *)

(** A tile [(left, top, right, bottom)]. *)
Definition Tile : Type := (Z * Z * Z * Z)%type.

(** Exceptions of the arithmetic besides those of [exn]. *)
Inductive failure : Type :=
| ZeroDivisionError
| Builtin (e : exn).

Inductive outcome (A : Type) : Type :=
| Return (a : A)
| Fail (f : failure).

Arguments Return {A} a.
Arguments Fail {A} f.

Definition and_then {A B : Type} (o : outcome A) (f : A -> outcome B)
    : outcome B :=
  match o with
  | Return a => f a
  | Fail e => Fail e
  end.

Definition of_result {A : Type} (r : result A) : outcome A :=
  match r with
  | Ok a => Return a
  | Raise e => Fail (Builtin e)
  end.

(** [a // b] *)
Definition floordiv (a b : Z) : outcome Z :=
  if b =? 0 then Fail ZeroDivisionError else Return (a / b).

(** [int(n * x)] for an integer [n] and a float [x]. *)
Definition int_scaled (n : Z) (x : PyFloat.float) : result Z :=
  n' <- lift OverflowError (PyFloat.of_int n) ;;
  int_of_float (PyFloat.mul n' x).

(** [range(n)] *)
Definition range (n : Z) : list Z := List.map Z.of_nat (seq 0 (Z.to_nat n)).

(** The tile of one cell of the grid, unless it is under 8 pixels wide
    or high. *)
Definition tile_at (width height step_x step_y overlap_x overlap_y
                    shift_x shift_y row col : Z) : option Tile :=
  let left_ := Z.max 0 (shift_x + col * step_x - overlap_x) in
  let top := Z.max 0 (shift_y + row * step_y - overlap_y) in
  let right_ := Z.min width (shift_x + (col + 1) * step_x + overlap_x) in
  let bottom := Z.min height (shift_y + (row + 1) * step_y + overlap_y) in
  if (right_ - left_ <? 8) || (bottom - top <? 8) then None
  else Some (left_, top, right_, bottom).

Definition _build_tiles (width height rows cols : Z)
    (overlap_ratio offset_x_frac offset_y_frac : PyFloat.float)
    : outcome (list Tile) :=
  and_then (floordiv width cols) (fun quot_x =>
  let step_x := Z.max 1 quot_x in
  and_then (floordiv height rows) (fun quot_y =>
  let step_y := Z.max 1 quot_y in
  and_then (of_result (int_scaled step_x overlap_ratio)) (fun scaled_x =>
  let overlap_x := Z.max 1 scaled_x in
  and_then (of_result (int_scaled step_y overlap_ratio)) (fun scaled_y =>
  let overlap_y := Z.max 1 scaled_y in
  and_then (of_result (int_scaled step_x offset_x_frac)) (fun shift_x =>
  and_then (of_result (int_scaled step_y offset_y_frac)) (fun shift_y =>
  Return
    (flat_map
       (fun row =>
          flat_map
            (fun col =>
               match tile_at width height step_x step_y overlap_x overlap_y
                       shift_x shift_y row col with
               | Some tile => [tile]
               | None => []
               end)
            (range cols))
       (range rows)))))))).

(** The default [overlap_ratio=0.12] and the offsets [0.0] and [0.5]. *)
Definition default_overlap_ratio : PyFloat.float := PyFloat.lit 12 100.

Definition tile_eqb (a b : Tile) : bool :=
  let '(la, ta, ra, ba) := a in
  let '(lb, tb, rb, bb) := b in
  (la =? lb) && (ta =? tb) && (ra =? rb) && (ba =? bb).

(** The loop that merges the tile sets, keeping the first of equal
    tiles. *)
Fixpoint merge_tiles (tiles merged_tiles : list Tile) : list Tile :=
  match tiles with
  | [] => merged_tiles
  | tile :: rest =>
      if existsb (tile_eqb tile) merged_tiles then merge_tiles rest merged_tiles
      else merge_tiles rest (merged_tiles ++ [tile])
  end.

(** A box found in a tile, moved to the coordinates of the image. *)
Definition shift_box (tile : Tile) (box : WordBox) : WordBox :=
  let '(left_, top, _, _) := tile in
  let '(box_left, box_top, bw, bh, text, conf) := box in
  (box_left + left_, box_top + top, bw, bh, text, conf).

Section Tiled.

(** What word detection finds in the crop of the image to a tile, for
    the language, segmentation mode and minimum confidence of the call;
    a failure of the detector ends the call. *)
Variable detect_in_tile : Tile -> result (list WordBox).

Fixpoint scan_tiles (merged_tiles : list Tile) (boxes : list WordBox)
    : outcome (list WordBox) :=
  match merged_tiles with
  | [] => Return boxes
  | tile :: rest =>
      and_then (of_result (detect_in_tile tile)) (fun tile_boxes =>
      scan_tiles rest (boxes ++ List.map (shift_box tile) tile_boxes))
  end.

Definition _extract_word_boxes_tiled (image_size : Z * Z) (dense : bool)
    : outcome (list WordBox) :=
  let '(width, height) := image_size in
  and_then (_build_tiles width height 3 3 default_overlap_ratio
              (PyFloat.of_Z 0) (PyFloat.of_Z 0)) (fun coarse =>
  and_then
    (if dense then
       and_then (_build_tiles width height 4 4 default_overlap_ratio
                   (PyFloat.of_Z 0) (PyFloat.of_Z 0)) (fun fine =>
       and_then (_build_tiles width height 4 4 default_overlap_ratio
                   (PyFloat.lit 5 10) (PyFloat.lit 5 10)) (fun shifted =>
       Return [coarse; fine; shifted]))
     else Return [coarse]) (fun tile_sets =>
  scan_tiles (merge_tiles (List.concat tile_sets) []) [])).

End Tiled.

(** A tile that lies inside a [width x height] image and is at least 8
    pixels wide and high. *)
Definition tile_inside (width height : Z) (tile : Tile) : Prop :=
  let '(left_, top, right_, bottom) := tile in
  0 <= left_ /\ 0 <= top /\ right_ <= width /\ bottom <= height
  /\ 8 <= right_ - left_ /\ 8 <= bottom - top.

(** The detector finds its boxes inside the crop it is given. *)
Definition detects_inside_crop (detect_in_tile : Tile -> result (list WordBox))
    : Prop :=
  forall tile boxes box,
    detect_in_tile tile = Ok boxes -> In box boxes ->
    let '(left_, top, right_, bottom) := tile in
    inside_image (right_ - left_) (bottom - top) box.

(** ** Plain-text rescue lines *)

Definition _RESCUE_PHRASE_REPLACEMENTS : list (string * string) :=
  [ ("RADIOGRAPHIC EAM", "RADIOGRAPHIC EXAM");
    ("JOINTEFFICIENCY", "JOINT EFFICIENCY");
    ("FIOINT EFFICIENCY", "JOINT EFFICIENCY");
    ("FIREPROOFING", "FIRE PROOFING");
    ("ACIDPICKLING", "ACID PICKLING");
    ("PLCKLING", "PICKLING");
    ("DESIGNTEMP", "DESIGN TEMP");
    ("DESIGNCODE", "DESIGN CODE") ]%string.

(** [A-Z0-9] *)
Definition upper_alnum (c : N) : bool := is_AZ c || is_09 c.

(** [A-Z0-9./:%()\- +] *)
Definition rescue_char (c : N) : bool := upper_alnum c || one_of "./:%()- +" c.

(** [s.replace(src, dst)] for a non-empty [src]: the occurrences of [src]
    from left to right, none overlapping another; [skip] counts the
    characters of the current occurrence that are still to be passed. *)
Fixpoint replace_from (src dst s : str) (skip : nat) : str :=
  match s with
  | [] => []
  | c :: rest =>
      match skip with
      | S n => replace_from src dst rest n
      | O =>
          if starts_with src s
          then dst ++ replace_from src dst rest (List.length src - 1)
          else c :: replace_from src dst rest 0
      end
  end.

(** [s.replace(src, dst)]; an empty [src] matches before every character
    and at the end. *)
Definition str_replace (src dst s : str) : str :=
  match src with
  | [] => dst ++ flat_map (fun c => c :: dst) s
  | _ :: _ => replace_from src dst s 0
  end.

(** [sep.join(parts)] *)
Fixpoint join (sep : str) (parts : list str) : str :=
  match parts with
  | [] => []
  | [part] => part
  | part :: rest => part ++ sep ++ join sep rest
  end.

Section RescueLines.

Variable isspace : N -> bool.

(** The Unicode table behind [str.upper]. *)
Variable upper : str -> str.

(** [re.sub(r"\s+", " ", s)]: every run of whitespace becomes one space;
    [in_run] tells that the character before was whitespace. *)
Fixpoint collapse_whitespace (s : str) (in_run : bool) : str :=
  match s with
  | [] => []
  | c :: rest =>
      if isspace c then
        if in_run then collapse_whitespace rest true
        else 32%N :: collapse_whitespace rest true
      else c :: collapse_whitespace rest false
  end.

Definition _normalize_rescue_line (raw_line : str) : str :=
  let cleaned := upper (strip isspace raw_line) in
  if (List.length cleaned <? 4)%nat then []
  else
    let cleaned := collapse_whitespace cleaned false in
    let cleaned := filter rescue_char cleaned in
    if negb (existsb upper_alnum cleaned) then []
    else firstn 120 cleaned.

(** [re.sub(r"[^A-Z0-9]", "", line.upper())] *)
Definition rescue_key (line : str) : str := filter upper_alnum (upper line).

(** The loop of [_dedupe_rescue_lines], with [deduped] and [seen] as
    built so far. *)
Fixpoint dedupe_rescue_loop (lines : list str) (limit : Z)
    (deduped : list str) (seen : list str) : list str :=
  match lines with
  | [] => deduped
  | line :: rest =>
      let normalized := rescue_key line in
      if (List.length normalized <? 4)%nat
      then dedupe_rescue_loop rest limit deduped seen
      else if existsb (str_eqb normalized) seen
      then dedupe_rescue_loop rest limit deduped seen
      else
        let seen := normalized :: seen in
        let deduped := deduped ++ [line] in
        if limit <=? Z.of_nat (List.length deduped) then deduped
        else dedupe_rescue_loop rest limit deduped seen
  end.

Definition _dedupe_rescue_lines (lines : list str) (limit : Z) : list str :=
  dedupe_rescue_loop lines limit [] [].

(** The keys seen are the keys of the lines kept. *)
Definition seen_agrees (deduped seen : list str) : Prop :=
  forall key, In key seen <-> In key (List.map rescue_key deduped).

(** The lines that the text recognition prints for a language and a
    segmentation mode, [proc.stdout.splitlines()]; its failure ends the
    call. *)
Variable recognize_lines : str -> Z -> result (list str).

(** The languages to scan: the given one, and English alone when the
    given one mixes English with another. *)
Definition rescue_scan_langs (lang : str) : list str :=
  if contains (cps "eng") lang && negb (str_eqb lang (cps "eng"))
  then [lang; cps "eng"]
  else [lang].

(** The loop over the languages and the segmentation modes 6 and 11. *)
Fixpoint collect_rescue_lines (scans : list (str * Z))
    (collected_lines : list str) : result (list str) :=
  match scans with
  | [] => Ok collected_lines
  | (scan_lang, psm) :: rest =>
      raw_lines <- recognize_lines scan_lang psm ;;
      collect_rescue_lines rest
        (collected_lines
         ++ filter (fun normalized => negb (Nat.eqb (List.length normalized) 0))
              (List.map _normalize_rescue_line raw_lines))
  end.

(** A line with the known misreadings put right, one after the other. *)
Definition corrected_line (line : str) : str :=
  fold_left (fun fixed '(source, replacement) =>
               str_replace (cps source) (cps replacement) fixed)
            _RESCUE_PHRASE_REPLACEMENTS line.

(** The phrases that are put before the recognized lines. *)
Definition priority_lines_of (corrected : list str) : list str :=
  let compact_joined := filter upper_alnum (upper (join (cps " ") corrected)) in
  let from_table :=
    flat_map
      (fun '(_, phrase) =>
         let compact_phrase := filter upper_alnum (cps phrase) in
         match compact_phrase with
         | [] => []
         | _ :: _ =>
             if contains compact_phrase compact_joined then [cps phrase]
             else []
         end)
      _ENGINEERING_TOKEN_SPLITS in
  let joined_upper := upper (join (cps " ") corrected) in
  let has (word : str) := contains word joined_upper in
  let when (condition : bool) (phrase : str) : list str :=
    if condition then [phrase] else [] in
  from_table
  ++ when (has (cps "DESIGN") && has (cps "CODE")) (cps "DESIGN CODE")
  ++ when (has (cps "DESIGN") && has (cps "TEMP")) (cps "DESIGN TEMP")
  ++ when (has (cps "RADIOGRAPHIC")
           || (has (cps "RADIO") && has (cps "EXAM")))
       (cps "RADIOGRAPHIC EXAM")
  ++ when ((has (cps "JOINT") || has (cps "FIOINT"))
           && has (cps "EFFICIENC"))
       (cps "JOINT EFFICIENCY")
  ++ when (has (cps "INSULATION")) (cps "INSULATION")
  ++ when (has (cps "FIRE") && has (cps "PROOFING")) (cps "FIRE PROOFING")
  ++ when (has (cps "ACID")
           && (has (cps "PICKLING") || has (cps "PLCKLING")
               || has (cps "PICKL")))
       (cps "ACID PICKLING")
  ++ (if contains (cps "DESIGNCODE") compact_joined
      then [ cps "DESIGN TEMP"; cps "RADIOGRAPHIC EXAM";
             cps "JOINT EFFICIENCY"; cps "INSULATION";
             cps "FIRE PROOFING"; cps "ACID PICKLING" ]
      else []).

Definition _extract_plain_text_rescue (lang : str) : result (list str) :=
  let scans :=
    flat_map (fun scan_lang => [(scan_lang, 6); (scan_lang, 11)])
             (rescue_scan_langs lang) in
  collected_lines <- collect_rescue_lines scans [] ;;
  let corrected := List.map corrected_line collected_lines in
  Ok (_dedupe_rescue_lines (priority_lines_of corrected ++ corrected) 180).

End RescueLines.

(** A line made of the characters of [A-Z0-9./:%()\- +] alone. *)
Definition all_rescue_chars (line : str) : Prop :=
  forall c, In c line -> rescue_char c = true.

(** ** The job registry *)

(** The fields of [JobState] other than [page_details], which
    [_mark_page_completed] does not read. *)
Record JobState : Type := mkJobState {
  job_id : string;
  status : string;
  total_pages : Z;
  completed_pages : list Z;
  output_pdf : string;
  error : string
}.

(** [_JOBS]: the calls run under [_JOBS_LOCK], one after the other, each
    taking the registry to the next one. *)
Definition Jobs : Type := dict string JobState.

(** [list.sort()] on integers. *)
Fixpoint insort (x : Z) (sorted : list Z) : list Z :=
  match sorted with
  | [] => [x]
  | y :: rest => if x <? y then x :: sorted else y :: insort x rest
  end.

Fixpoint list_sort (l : list Z) : list Z :=
  match l with
  | [] => []
  | x :: rest => insort x (list_sort rest)
  end.

Definition with_completed_pages (job : JobState) (pages : list Z) : JobState :=
  {| job_id := job_id job; status := status job;
     total_pages := total_pages job; completed_pages := pages;
     output_pdf := output_pdf job; error := error job |}.

Definition _mark_page_completed (jobs : Jobs) (id : string) (page_number : Z)
    : Jobs :=
  match dict_get String.eqb jobs id with
  | None => jobs
  | Some job =>
      if negb (existsb (Z.eqb page_number) (completed_pages job))
      then dict_set String.eqb jobs id
             (with_completed_pages job
                (list_sort (completed_pages job ++ [page_number])))
      else jobs
  end.

(** The registry after the pages of [page_numbers] were marked, in that
    order. *)
Definition mark_pages_completed (jobs : Jobs) (id : string)
    (page_numbers : list Z) : Jobs :=
  fold_left (fun registry page_number =>
               _mark_page_completed registry id page_number)
            page_numbers jobs.

(** ** The coverage scan of a page *)

(** The dictionary that [_scan_page_coverage] returns. *)
Record Scan : Type := mkScan {
  scan_full_words : Z;
  scan_tile_words : Z;
  scan_combined_words : Z;
  scan_gain_ratio : PyFloat.float;
  scan_vertical_words : Z;
  scan_table_words : Z;
  scan_boxes : list WordBox
}.

(** [len(boxes)] *)
Definition len {A : Type} (l : list A) : Z := Z.of_nat (List.length l).

(** [gain_ratio]: a quotient of two list lengths, which are far below
    2^53, where the quotient of two integers is the quotient of the two
    floats. *)
Definition gain_ratio_of (full_words tile_words : Z) : PyFloat.float :=
  if full_words <? tile_words
  then PyFloat.div (PyFloat.of_Z (tile_words - full_words))
                   (PyFloat.of_Z (Z.max full_words 1))
  else PyFloat.of_Z 0.

Section CoverageScan.

(** The detector runs on the rendered page, by language, segmentation
    mode and least confidence: on the whole page, on the page turned by
    an angle, and on its tiles.  Each of them can raise. *)
Variable extract_word_boxes : str -> Z -> Z -> result (list WordBox).
Variable extract_word_boxes_rotated : str -> Z -> Z -> Z -> result (list WordBox).
Variable extract_word_boxes_tiled : str -> Z -> Z -> bool -> result (list WordBox).

(** [_extract_design_table_value_boxes] on the combined boxes. *)
Variable extract_design_table_value_boxes
  : list WordBox -> str -> result (list WordBox).

(** A scan that is made under a condition only. *)
Definition scan_when (condition : bool) (scan : result (list WordBox))
    : result (list WordBox) :=
  if condition then scan else Ok [].

(** [for angle in (90, 270)] *)
Definition both_angles (scan_lang : str) (psm min_conf : Z)
    : result (list WordBox) :=
  first <- extract_word_boxes_rotated scan_lang psm min_conf 90 ;;
  second <- extract_word_boxes_rotated scan_lang psm min_conf 270 ;;
  Ok (first ++ second).

Definition _scan_page_coverage (lang : str) (drawing_mode : bool)
    : result Scan :=
  scanned <-
    (if drawing_mode then
       let has_mixed_english :=
         contains (cps "eng") lang && negb (str_eqb lang (cps "eng")) in
       full_11 <- extract_word_boxes lang 11 30 ;;
       full_6 <- extract_word_boxes lang 6 32 ;;
       full_4 <- extract_word_boxes lang 4 34 ;;
       full_eng <- scan_when has_mixed_english
                     (extract_word_boxes (cps "eng") 6 28) ;;
       let full_boxes :=
         _dedupe_word_boxes (full_11 ++ full_6 ++ full_4 ++ full_eng) in
       vertical_6 <- both_angles lang 6 16 ;;
       vertical_eng <- scan_when has_mixed_english
                         (both_angles (cps "eng") 6 14) ;;
       vertical_11 <- scan_when (len (vertical_6 ++ vertical_eng) <? 20)
                        (both_angles lang 11 14) ;;
       let vertical_boxes :=
         _dedupe_word_boxes (vertical_6 ++ vertical_eng ++ vertical_11) in
       quick_11 <- extract_word_boxes_tiled lang 11 24 false ;;
       quick_6 <- extract_word_boxes_tiled lang 6 24 false ;;
       quick_eng <- scan_when has_mixed_english
                      (extract_word_boxes_tiled (cps "eng") 6 22 false) ;;
       let quick_tile_raw := quick_11 ++ quick_6 ++ quick_eng in
       let tile_boxes := _dedupe_word_boxes quick_tile_raw in
       let combined_boxes :=
         _dedupe_word_boxes (full_boxes ++ tile_boxes ++ vertical_boxes) in
       let run_dense_scan :=
         (len combined_boxes <? 85)
         || (len tile_boxes <? 30)
         || ((8 <=? len tile_boxes - len full_boxes)
             && (len full_boxes <? 180)) in
       tile_boxes <-
         (if run_dense_scan then
            dense_4 <- extract_word_boxes_tiled lang 4 22 true ;;
            dense_eng <- scan_when has_mixed_english
                           (extract_word_boxes_tiled (cps "eng") 4 20 true) ;;
            dense_11 <- scan_when (len combined_boxes <? 55)
                          (extract_word_boxes_tiled lang 11 22 true) ;;
            Ok (_dedupe_word_boxes
                  (quick_tile_raw ++ (dense_4 ++ dense_eng ++ dense_11)))
          else Ok tile_boxes) ;;
       Ok (full_boxes, tile_boxes, vertical_boxes)
     else
       full_6 <- extract_word_boxes lang 6 40 ;;
       Ok (_dedupe_word_boxes full_6, [], [])) ;;
  let '(full_boxes, tile_boxes, vertical_boxes) := scanned in
  let combined_boxes :=
    _dedupe_word_boxes (full_boxes ++ tile_boxes ++ vertical_boxes) in
  with_table <-
    (if drawing_mode then
       table_boxes <- extract_design_table_value_boxes combined_boxes lang ;;
       Ok (table_boxes, _dedupe_word_boxes (combined_boxes ++ table_boxes))
     else Ok ([], combined_boxes)) ;;
  let '(table_boxes, combined_boxes) := with_table in
  let full_words := len full_boxes in
  let tile_words := len tile_boxes in
  Ok {| scan_full_words := full_words;
        scan_tile_words := tile_words;
        scan_combined_words := len combined_boxes;
        scan_gain_ratio := gain_ratio_of full_words tile_words;
        scan_vertical_words := len vertical_boxes;
        scan_table_words := len table_boxes;
        scan_boxes := combined_boxes |}.

End CoverageScan.

(** A list of boxes as a deduplication leaves it: every box has a key,
    and no two boxes have the same one. *)
Definition distinct_keys (boxes : list WordBox) : Prop :=
  NoDup (List.map key_of boxes)
  /\ forall box, In box boxes -> key_of box <> None.

(** ** Verifying a page *)

Definition _build_rescue_profile (settings : Settings) : Profile :=
  if drawing_mode settings then
    {| name := "draw-rescue"; psm := Some 11; oversample := Some 750;
       remove_background := false; clean := false; clean_final := false;
       remove_vectors := true; thresholding := Some "sauvola"%string |}
  else
    {| name := "standard-rescue"; psm := Some 6; oversample := Some 450;
       remove_background := false; clean := false; clean_final := false;
       remove_vectors := false; thresholding := Some "adaptive-otsu"%string |}.

Definition _build_secondary_rescue_profile (settings : Settings) : Profile :=
  if drawing_mode settings then
    {| name := "draw-rescue-2"; psm := Some 6; oversample := Some 900;
       remove_background := true; clean := false; clean_final := false;
       remove_vectors := true; thresholding := Some "adaptive-otsu"%string |}
  else
    {| name := "standard-rescue-2"; psm := Some 4; oversample := Some 550;
       remove_background := false; clean := false; clean_final := false;
       remove_vectors := false; thresholding := Some "adaptive-otsu"%string |}.

(** The exception classes that [_verify_page_worker] tells apart in its
    [except] clauses; [OtherException] is any class that none of them
    catches. *)
Module Py.
Inductive exception : Type :=
| OSError
| CalledProcessError
| ImportError
| ValueError
| RuntimeError
| OtherException.
End Py.

(** A call that returns or raises. *)
Inductive effect (A : Type) : Type :=
| Done (a : A)
| Raised (e : Py.exception).

Arguments Done {A} a.
Arguments Raised {A} e.

Definition effect_bind {A B : Type} (r : effect A) (f : A -> effect B)
    : effect B :=
  match r with
  | Done a => f a
  | Raised e => Raised e
  end.

Notation "x <~ r ;; k" := (effect_bind r (fun x => k))
  (at level 61, r at next level, right associativity).

(** [try: x = call() / except classes: x = default] *)
Definition try_except {A : Type} (call : effect A)
    (caught : Py.exception -> bool) (default : A) : effect A :=
  match call with
  | Done a => Done a
  | Raised e => if caught e then Done default else Raised e
  end.

Definition os_or_process_error (e : Py.exception) : bool :=
  match e with
  | Py.OSError | Py.CalledProcessError => true
  | _ => false
  end.

Definition os_or_import_error (e : Py.exception) : bool :=
  match e with
  | Py.OSError | Py.ImportError => true
  | _ => false
  end.

Definition os_value_or_runtime_error (e : Py.exception) : bool :=
  match e with
  | Py.OSError | Py.ValueError | Py.RuntimeError => true
  | _ => false
  end.

(** The files that hold a candidate of the page: the one that the
    attempts chose, [ocr_page_<n>_rescue.pdf] and [ocr_page_<n>_rescue2.pdf]. *)
Inductive Candidate : Type :=
| attempt_candidate (path : Path)
| rescue_candidate
| secondary_candidate.

(** The best candidate so far and the attempts made: the local variables
    that the two rescue passes update. *)
Record Best : Type := mkBest {
  attempts_local : list AttemptInfo;
  best_selection : Z;
  best_candidate_local : Candidate;
  best_profile_local : Profile;
  best_analysis_local : Analysis
}.

(** The dictionary that [_verify_page_worker] returns, without
    ["final_page_output"], the name of the file of the page. *)
Record PageReport : Type := mkPageReport {
  page_attempts_done : Z;
  page_attempts_total : Z;
  page_best_score : Z;
  page_best_selection_score : Z;
  page_best_profile : string;
  page_attempt_history : list AttemptInfo;
  page_scan_full_words : Z;
  page_scan_tile_words : Z;
  page_scan_gain_ratio : PyFloat.float;
  page_scan_vertical_words : Z;
  page_table_rescue_words : Z;
  page_augmented_words : Z;
  page_fallback_lines : Z;
  page_needs_review : bool;
  page_review_image_path : string;
  page_message : string
}.

(** The coverage before any scan, and the entries of a scan that the
    decisions read. *)
Definition no_scan : Scan :=
  {| scan_full_words := 0; scan_tile_words := 0; scan_combined_words := 0;
     scan_gain_ratio := PyFloat.of_Z 0; scan_vertical_words := 0;
     scan_table_words := 0; scan_boxes := [] |}.

Definition coverage_of (scan : Scan) : Coverage :=
  {| full_words := Some (scan_full_words scan);
     tile_words := Some (scan_tile_words scan);
     combined_words := Some (scan_combined_words scan);
     gain_ratio := Some (scan_gain_ratio scan) |}.

(** [bool(a_list)] *)
Definition nonempty {A : Type} (l : list A) : bool :=
  match l with
  | [] => false
  | _ :: _ => true
  end.

Section VerifyPage.

(** The calls that leave the process or touch the files: creating the
    scan directory, rendering the page at a resolution, scanning it,
    reading its rescue lines, running OCR into a candidate file, copying
    a candidate to the output of the page, drawing the review image and
    injecting the hidden text.  Each is made at most once with the same
    arguments. *)
Variable scan_directory : effect unit.
Variable render_pdf_to_png : Z -> effect unit.
Variable scan_page_coverage : string -> bool -> effect Scan.
Variable extract_plain_text_rescue : string -> effect (list str).
Variable run_ocr : Candidate -> Profile -> effect unit.
Variable analyze_ocr_pdf : Candidate -> Analysis.
Variable write_review_overlay : list WordBox -> effect string.
Variable copyfile : Candidate -> effect unit.
Variable inject_invisible_text_from_boxes : list WordBox -> effect Z.
Variable inject_hidden_text_lines : list str -> effect Z.

(** A rescue pass: the OCR run with the profile, its analysis, its
    entry in the attempt history, and the candidate taken as the best
    one when its selection score is greater. *)
Definition rescue_pass (settings : Settings) (st : Best)
    (candidate : Candidate) (profile : Profile) : effect Best :=
  _ <~ run_ocr candidate profile ;;
  let analysis := analyze_ocr_pdf candidate in
  let attempt := len (attempts_local st) + 1 in
  let selection :=
    _candidate_selection_score analysis (drawing_mode settings) in
  let attempts' :=
    attempts_local st
    ++ [ {| info_attempt := attempt;
            info_profile := name profile;
            info_score := score analysis;
            info_tokens := token_count analysis;
            info_eng_tokens := eng_token_count analysis;
            info_num_tokens := numeric_token_count analysis;
            info_selection_score := selection |} ] in
  if best_selection st <? selection then
    Done {| attempts_local := attempts';
            best_selection := selection;
            best_candidate_local := candidate;
            best_profile_local := profile;
            best_analysis_local := analysis |}
  else
    Done {| attempts_local := attempts';
            best_selection := best_selection st;
            best_candidate_local := best_candidate_local st;
            best_profile_local := best_profile_local st;
            best_analysis_local := best_analysis_local st |}.

(** The selection score to beat: that of the best analysis, or a greater
    one recorded in the attempts. *)
Definition initial_selection (best_analysis : Analysis)
    (attempts : list AttemptInfo) (settings : Settings) : Z :=
  fold_left
    (fun best item =>
       if best <? info_selection_score item
       then info_selection_score item else best)
    attempts
    (_candidate_selection_score best_analysis (drawing_mode settings)).

Definition _verify_page_worker (best_candidate : Path) (best_profile : Profile)
    (best_analysis : Analysis) (attempts : list AttemptInfo)
    (settings : Settings) : effect PageReport :=
  let st :=
    {| attempts_local := attempts;
       best_selection := initial_selection best_analysis attempts settings;
       best_candidate_local := attempt_candidate best_candidate;
       best_profile_local := best_profile;
       best_analysis_local := best_analysis |} in
  _ <~ scan_directory ;;
  _ <~ render_pdf_to_png (if drawing_mode settings then 320 else 260) ;;
  _ <~ (if drawing_mode settings then render_pdf_to_png 420 else Done tt) ;;
  verified <~
    (if deep_verify settings then
       coverage <~ scan_page_coverage (lang settings) (drawing_mode settings) ;;
       rescue_lines <~
         (if drawing_mode settings
          then try_except (extract_plain_text_rescue (lang settings))
                 os_or_process_error []
          else Done []) ;;
       st <~
         (if _should_run_rescue_pass (best_analysis_local st)
               (coverage_of coverage) settings
          then rescue_pass settings st rescue_candidate
                 (_build_rescue_profile settings)
          else Done st) ;;
       Done (coverage, rescue_lines, st)
     else Done (no_scan, [], st)) ;;
  let '(coverage, rescue_lines, st) := verified in
  let interim_review :=
    _needs_manual_review (best_analysis_local st) (coverage_of coverage)
      settings in
  let run_secondary_rescue := deep_verify settings && interim_review in
  let run_secondary_rescue :=
    if run_secondary_rescue && drawing_mode settings then
      (score (best_analysis_local st) <? 300)
      || (eng_token_count (best_analysis_local st) <? 6)
      || (scan_combined_words coverage <? 45)
    else run_secondary_rescue in
  st <~
    (if run_secondary_rescue
     then rescue_pass settings st secondary_candidate
            (_build_secondary_rescue_profile settings)
     else Done st) ;;
  review_path <~
    try_except (write_review_overlay (scan_boxes coverage))
      os_or_import_error EmptyString ;;
  _ <~ copyfile (best_candidate_local st) ;;
  augmented_words <~
    (if deep_verify settings && drawing_mode settings
        && nonempty (scan_boxes coverage)
     then try_except (inject_invisible_text_from_boxes (scan_boxes coverage))
            os_value_or_runtime_error 0
     else Done 0) ;;
  fallback_lines <~
    (if deep_verify settings && drawing_mode settings && nonempty rescue_lines
     then try_except (inject_hidden_text_lines rescue_lines)
            os_value_or_runtime_error 0
     else Done 0) ;;
  let needs_review :=
    _needs_manual_review (best_analysis_local st) (coverage_of coverage)
      settings in
  let needs_review :=
    if drawing_mode settings then
      let combined_words := scan_combined_words coverage in
      let needs_review :=
        if (120 <=? augmented_words) && (120 <=? combined_words)
        then false else needs_review in
      if (20 <=? fallback_lines) && (80 <=? combined_words)
      then false else needs_review
    else needs_review in
  Done {| page_attempts_done := len (attempts_local st);
          page_attempts_total := len (attempts_local st);
          page_best_score := score (best_analysis_local st);
          page_best_selection_score := best_selection st;
          page_best_profile := name (best_profile_local st);
          page_attempt_history := attempts_local st;
          page_scan_full_words := scan_full_words coverage;
          page_scan_tile_words := scan_tile_words coverage;
          page_scan_gain_ratio := scan_gain_ratio coverage;
          page_scan_vertical_words := scan_vertical_words coverage;
          page_table_rescue_words := scan_table_words coverage;
          page_augmented_words := augmented_words;
          page_fallback_lines := fallback_lines;
          page_needs_review := needs_review;
          page_review_image_path := review_path;
          page_message :=
            if needs_review then "manual review recommended"%string
            else "ok"%string |}.

End VerifyPage.

(** After at most [passes] rescue passes the best candidate of [later]
    is that of [earlier], or a candidate that a pass added and whose
    selection score is greater than what it had to beat. *)
Definition kept_or_improved (passes : nat) (earlier later : Best) : Prop :=
  exists added,
    attempts_local later = attempts_local earlier ++ added
    /\ (List.length added <= passes)%nat
    /\ best_selection earlier <= best_selection later
    /\ (forall item, In item added ->
          info_selection_score item <= best_selection later)
    /\ ((best_candidate_local later = best_candidate_local earlier
         /\ best_profile_local later = best_profile_local earlier
         /\ best_analysis_local later = best_analysis_local earlier
         /\ best_selection later = best_selection earlier)
        \/ (exists item,
              In item added
              /\ info_profile item = name (best_profile_local later)
              /\ info_score item = score (best_analysis_local later)
              /\ info_selection_score item = best_selection later
              /\ best_selection earlier < best_selection later)).

(** What the worker leaves of its local variables in its report. *)
Definition reports (st : Best) (report : PageReport) : Prop :=
  page_attempts_done report = len (attempts_local st)
  /\ page_attempts_total report = len (attempts_local st)
  /\ page_best_score report = score (best_analysis_local st)
  /\ page_best_selection_score report = best_selection st
  /\ page_best_profile report = name (best_profile_local st)
  /\ page_attempt_history report = attempts_local st.

(** The review flag of a page, from the best analysis, the coverage and
    the numbers of words and lines that were injected. *)
Definition review_flag (settings : Settings) (analysis : Analysis)
    (coverage : Scan) (augmented_words fallback_lines : Z) : bool :=
  if drawing_mode settings then
    if (20 <=? fallback_lines) && (80 <=? scan_combined_words coverage)
    then false
    else if (120 <=? augmented_words)
            && (120 <=? scan_combined_words coverage)
    then false
    else _needs_manual_review analysis (coverage_of coverage) settings
  else _needs_manual_review analysis (coverage_of coverage) settings.

(** The local variables of [_run_ocr_attempts_for_page] agree: no
    attempt of the history has a selection score above the best one,
    and the best one is that of the best analysis once there is a best
    candidate. *)
Definition attempts_agree (settings : Settings) (st : AttemptsState) : Prop :=
  (forall item, In item (attempts st) ->
     info_selection_score item <= best_selection_score st)
  /\ (best_candidate st <> None ->
      best_selection_score st
      = _candidate_selection_score (best_analysis st) (drawing_mode settings)).

(** ** Sample inputs *)

(** A detector that finds one small word at the origin of every crop that
    has room for it. *)
Definition sample_detect_in_tile (tile : Tile) : result (list WordBox) :=
  let '(left_, top, right_, bottom) := tile in
  if (2 <=? right_ - left_) && (2 <=? bottom - top)
  then Ok [ (0, 0, 2, 2, cps "A", PyFloat.of_Z 90) ]
  else Ok [].


(** The box of the repository's rotation test and of the specification's
    scenario, on a 200 x 100 image. *)
Definition sample_rotated_box : WordBox :=
  (10, 20, 30, 40, cps "TXT", PyFloat.of_Z 88).

(** A page on which the first two drawing profiles read the same text and
    the third reads less. *)
Definition sample_extract_text (pdf_path : Path) : str :=
  match pdf_path with
  | ocr_page_try 1 => cps "TAG-101 DN50 12.5"
  | ocr_page_try 2 => cps "TAG-101 DN50 12.5"
  | ocr_page_try _ => cps "TAG"
  end.

Definition sample_run_ocr (candidate : Path) (profile : Profile) : bool := true.

(** The punctuation-only box of the repository's overlay test. *)
Definition sample_punctuation_box : WordBox :=
  (30, 20, 10, 8, cps "###", PyFloat.of_Z 95).

(** The boxes of the repository's overlay test, and the ASCII part of
    the whitespace table. *)
Definition sample_overlay_boxes : list WordBox :=
  [ (10, 10, 20, 10, cps "TAG-101", PyFloat.of_Z 90);
    (11, 10, 20, 10, cps "TAG-101", PyFloat.of_Z 80);
    sample_punctuation_box ].

Definition sample_isspace (c : N) : bool :=
  in_range 9 13 c || in_range 28 32 c.

(** Boxes found on the rotation by 90 degrees of a 200 x 100 image: the
    box of the rotation test, and a box that maps to width 10 and
    height 11. *)
Definition sample_rotated_boxes : list WordBox :=
  [ sample_rotated_box; (0, 0, 11, 10, cps "A", PyFloat.of_Z 50) ].

Definition sample_drawing_settings : Settings :=
  {| lang := "rus+eng"; optimize := 1; jobs := 2; rotate_pages := true;
     deskew := false; quiet := false; drawing_mode := true;
     deep_verify := true |}.

Definition sample_coverage : Coverage :=
  {| full_words := Some 50; tile_words := Some 90;
     combined_words := Some 130; gain_ratio := Some (PyFloat.lit 8 10) |}.

(** The ASCII part of the upper-casing table, and a recognizer that reads
    the same three lines of a design table in every mode. *)
Definition sample_upper (text : str) : str := List.map upper_char text.

Definition sample_recognize_lines (scan_lang : str) (psm : Z)
    : result (list str) :=
  Ok [ cps "Design c0de: ASME B31.3"; cps "ab"; cps "Joint efficiency 0.85" ].

(** A job as [_create_job] registers it: no page completed yet. *)
Definition sample_job : JobState :=
  {| job_id := "a"; status := "queued"; total_pages := 0;
     completed_pages := []; output_pdf := "out.pdf"; error := EmptyString |}.

(** Detector runs for a page on which the whole-page scan reads the two
    overlapping tags, the tiles read one word more, and the vertical and
    table scans read nothing. *)
Definition sample_extract_word_boxes (scan_lang : str) (psm min_conf : Z)
    : result (list WordBox) :=
  Ok sample_overlay_boxes.

Definition sample_extract_word_boxes_rotated (scan_lang : str)
    (psm min_conf angle : Z) : result (list WordBox) :=
  Ok [].

Definition sample_extract_word_boxes_tiled (scan_lang : str)
    (psm min_conf : Z) (dense : bool) : result (list WordBox) :=
  Ok ((200, 40, 30, 12, cps "DN50", PyFloat.of_Z 70) :: sample_overlay_boxes).

Definition sample_extract_design_table_value_boxes
    (base_boxes : list WordBox) (scan_lang : str) : result (list WordBox) :=
  Ok [].

(** The verification of a drawing page whose only attempt scored 200:
    every call succeeds but the drawing of the review image, the scan is
    that of the sample detectors, and the first rescue pass reads more. *)
Definition sample_best_analysis : Analysis :=
  {| score := 200; alnum_chars := 40; token_count := 10;
     eng_token_count := 3; numeric_token_count := 2 |}.

Definition sample_attempts : list AttemptInfo :=
  [ {| info_attempt := 1; info_profile := "draw-sparse-a"; info_score := 200;
       info_tokens := 10; info_eng_tokens := 3; info_num_tokens := 2;
       info_selection_score := 475 |} ].

Definition sample_best_profile : Profile :=
  {| name := "draw-sparse-a"; psm := Some 11; oversample := Some 450;
     remove_background := true; clean := false; clean_final := false;
     remove_vectors := false; thresholding := Some "adaptive-otsu"%string |}.

Definition sample_scan_page_coverage (scan_lang : string)
    (drawing : bool) : effect Scan :=
  match _scan_page_coverage sample_extract_word_boxes
          sample_extract_word_boxes_rotated sample_extract_word_boxes_tiled
          sample_extract_design_table_value_boxes (cps scan_lang) drawing with
  | Ok scan => Done scan
  | Raise _ => Raised Py.CalledProcessError
  end.

Definition sample_analyze_ocr_pdf (candidate : Candidate) : Analysis :=
  match candidate with
  | rescue_candidate =>
      {| score := 500; alnum_chars := 90; token_count := 20;
         eng_token_count := 9; numeric_token_count := 4 |}
  | _ => sample_best_analysis
  end.

Definition sample_verify_page (settings : Settings) : effect PageReport :=
  _verify_page_worker (Done tt) (fun dpi => Done tt)
    sample_scan_page_coverage
    (fun scan_lang => Done [cps "DESIGN CODE"])
    (fun candidate profile => Done tt)
    sample_analyze_ocr_pdf
    (fun boxes => Raised Py.OSError)
    (fun candidate => Done tt)
    (fun boxes => Done (len boxes))
    (fun lines => Done (len lines))
    (ocr_page_try 1) sample_best_profile
    sample_best_analysis sample_attempts settings.

(** * Properties *)

(** ** Scoring *)

Section ScoringFacts.

Variable isalnum : N -> bool.
Variable isdecimal : N -> bool.
Variable extract_text : Path -> str.

(** C1.  The analysis of a candidate has
    [score = alnum_chars + 2 * token_count + 5 * eng_token_count], where
    [alnum_chars] counts the alphanumeric characters of the extracted
    text, [token_count] the matches of the token pattern that are at
    least two characters long, and [eng_token_count] the matches of the
    engineering pattern. *)
Theorem analyze_score_formula (pdf_path : Path) :
  let analysis := _analyze_ocr_pdf isalnum isdecimal extract_text pdf_path in
  let text := extract_text pdf_path in
  score analysis
    = alnum_chars analysis + 2 * token_count analysis
      + 5 * eng_token_count analysis
  /\ alnum_chars analysis = Z.of_nat (List.length (filter isalnum text))
  /\ token_count analysis
     = Z.of_nat (List.length
                   (filter (fun token => (2 <=? List.length token)%nat)
                           (findall token_pattern text)))
  /\ eng_token_count analysis
     = Z.of_nat (List.length (findall (eng_pattern isdecimal) text)).
Proof.
  cbv zeta. unfold _analyze_ocr_pdf, find_tokens, count_alnum. simpl.
  repeat split; reflexivity.
Qed.

(** Every count of an analysis is a length, so no entry is negative. *)
Lemma analyze_nonneg (pdf_path : Path) :
  let analysis := _analyze_ocr_pdf isalnum isdecimal extract_text pdf_path in
  0 <= score analysis /\ 0 <= token_count analysis
  /\ 0 <= eng_token_count analysis /\ 0 <= numeric_token_count analysis.
Proof.
  cbv zeta. unfold _analyze_ocr_pdf.
  cbn [score token_count eng_token_count numeric_token_count].
  repeat split; try apply Nat2Z.is_nonneg.
  repeat apply Z.add_nonneg_nonneg;
    try apply Z.mul_nonneg_nonneg; try apply Nat2Z.is_nonneg; lia.
Qed.

Lemma selection_score_nonneg (pdf_path : Path) (drawing : bool) :
  0 <= _candidate_selection_score
         (_analyze_ocr_pdf isalnum isdecimal extract_text pdf_path) drawing.
Proof.
  pose proof (analyze_nonneg pdf_path) as H. cbv zeta in H.
  unfold _candidate_selection_score. destruct drawing; lia.
Qed.

End ScoringFacts.

(** ** Rescue and review decisions *)

(** C2.  With deep verification on, in drawing and in standard mode, a
    rescue pass that runs at some score also runs at every lower score,
    the token counts and the coverage being the same. *)
Theorem rescue_monotone_in_score
    (analysis analysis' : Analysis) (coverage : Coverage) (settings : Settings) :
  deep_verify settings = true ->
  score analysis' < score analysis ->
  token_count analysis' = token_count analysis ->
  eng_token_count analysis' = eng_token_count analysis ->
  numeric_token_count analysis' = numeric_token_count analysis ->
  _should_run_rescue_pass analysis coverage settings = true ->
  _should_run_rescue_pass analysis' coverage settings = true.
Proof.
  intros Hdeep Hlt _ Heng _.
  unfold _should_run_rescue_pass. rewrite Hdeep, Heng. simpl.
  destruct (drawing_mode settings).
  - destruct (Z.ltb_spec (score analysis') 420) as [|Hs']; [reflexivity|].
    destruct (Z.ltb_spec (score analysis) 420) as [|Hs]; [lia|].
    destruct ((eng_token_count analysis <? 8)
              && (25 <=? get (tile_words coverage) 0)); [reflexivity|].
    destruct (get (combined_words coverage) (get (tile_words coverage) 0) <? 55);
      [reflexivity|].
    destruct (30 <=? get (tile_words coverage) 0 - get (full_words coverage) 0);
      simpl; [|discriminate].
    destruct (PyFloat.leb _ _); simpl; [|discriminate].
    destruct (Z.ltb_spec (score analysis) 700); [|discriminate].
    destruct (Z.ltb_spec (score analysis') 700); [reflexivity|lia].
  - intros H. apply Z.ltb_lt in H. apply Z.ltb_lt. lia.
Qed.

Lemma rescue_monotone_in_score_witness :
  _should_run_rescue_pass
    {| score := 500; alnum_chars := 400; token_count := 20;
       eng_token_count := 12; numeric_token_count := 7 |}
    sample_coverage sample_drawing_settings = true.
Proof.
  apply (rescue_monotone_in_score
           {| score := 650; alnum_chars := 550; token_count := 20;
              eng_token_count := 12; numeric_token_count := 7 |}).
  - reflexivity.
  - simpl. lia.
  - reflexivity.
  - reflexivity.
  - reflexivity.
  - vm_compute. reflexivity.
Defined.

(** C5.  In drawing mode a page whose combined word count is below 40 is
    flagged for manual review, whatever the score, the token counts, the
    tile words and the gain ratio are.  The combined word count is the
    ["combined_words"] entry of the coverage, or the tile words when the
    entry is absent. *)
Theorem review_when_few_combined_words
    (analysis : Analysis) (coverage : Coverage) (settings : Settings) :
  drawing_mode settings = true ->
  get (combined_words coverage) (get (tile_words coverage) 0) < 40 ->
  _needs_manual_review analysis coverage settings = true.
Proof.
  intros Hdraw Hfew. unfold _needs_manual_review. rewrite Hdraw.
  apply Z.ltb_lt in Hfew. simpl. rewrite Hfew.
  destruct (score analysis <? 260); [reflexivity|].
  destruct ((eng_token_count analysis <? 6) && _); reflexivity.
Qed.

Lemma review_when_few_combined_words_witness :
  _needs_manual_review
    {| score := 5000; alnum_chars := 4000; token_count := 300;
       eng_token_count := 80; numeric_token_count := 40 |}
    {| full_words := Some 28; tile_words := Some 29;
       combined_words := Some 30; gain_ratio := Some (PyFloat.lit 1 10) |}
    sample_drawing_settings = true.
Proof.
  apply review_when_few_combined_words.
  - reflexivity.
  - simpl. lia.
Defined.

(** ** Rotation mapping *)

(** Equality of two boxes, coordinate by coordinate. *)
Ltac box_eq :=
  repeat match goal with
         | |- Some _ = Some _ => apply f_equal
         | |- (_, _) = (_, _) => apply f_equal2
         end;
  try reflexivity; try lia.

(** Inside the rotated frame no coordinate is clamped. *)
Lemma map_box_90_in_bounds (W H : Z) (left_ top width height : Z)
    (text : str) (conf : PyFloat.float) :
  within_rotated_bounds W H (left_, top, width, height, text, conf) ->
  map_box W H 90 (left_, top, width, height, text, conf)
  = Some (W - (top + height), left_, height, width, text, conf).
Proof.
  unfold within_rotated_bounds, map_box, _map_rotated_box_to_original.
  intros (Hl & Ht & Hw & Hh & Hlw & Hth). simpl.
  box_eq.
Qed.

Lemma map_box_270_in_bounds (W H : Z) (left_ top width height : Z)
    (text : str) (conf : PyFloat.float) :
  within_rotated_bounds W H (left_, top, width, height, text, conf) ->
  map_box W H 270 (left_, top, width, height, text, conf)
  = Some (top, H - (left_ + width), height, width, text, conf).
Proof.
  unfold within_rotated_bounds, map_box, _map_rotated_box_to_original.
  intros (Hl & Ht & Hw & Hh & Hlw & Hth). simpl.
  box_eq.
Qed.

(** The image of a box of the rotated frame lies in the original frame,
    which is the rotated frame of the transposed dimensions. *)
Lemma mapped_90_within_transposed (W H : Z) (left_ top width height : Z)
    (text : str) (conf : PyFloat.float) :
  within_rotated_bounds W H (left_, top, width, height, text, conf) ->
  within_rotated_bounds H W
    (W - (top + height), left_, height, width, text, conf).
Proof. unfold within_rotated_bounds. lia. Qed.

Lemma mapped_270_within_transposed (W H : Z) (left_ top width height : Z)
    (text : str) (conf : PyFloat.float) :
  within_rotated_bounds W H (left_, top, width, height, text, conf) ->
  within_rotated_bounds H W
    (top, H - (left_ + width), height, width, text, conf).
Proof. unfold within_rotated_bounds. lia. Qed.

Lemma roundtrip_90_270 (W H : Z) (box : WordBox) :
  within_rotated_bounds W H box ->
  map_twice W H 90 H W 270 box = Some box.
Proof.
  destruct box as [[[[[left_ top] width] height] text] conf]. intros Hin.
  unfold map_twice. rewrite (map_box_90_in_bounds _ _ _ _ _ _ _ _ Hin).
  rewrite (map_box_270_in_bounds _ _ _ _ _ _ _ _
             (mapped_90_within_transposed _ _ _ _ _ _ _ _ Hin)).
  box_eq.
Qed.

Lemma roundtrip_270_90 (W H : Z) (box : WordBox) :
  within_rotated_bounds W H box ->
  map_twice W H 270 H W 90 box = Some box.
Proof.
  destruct box as [[[[[left_ top] width] height] text] conf]. intros Hin.
  unfold map_twice. rewrite (map_box_270_in_bounds _ _ _ _ _ _ _ _ Hin).
  rewrite (map_box_90_in_bounds _ _ _ _ _ _ _ _
             (mapped_270_within_transposed _ _ _ _ _ _ _ _ Hin)).
  box_eq.
Qed.

(** C4, as amended.  A box inside the rotated frame comes back exactly
    when it is mapped with angle 90 on the dimensions [(W, H)] and then
    with angle 270 on the transposed dimensions [(H, W)], and likewise
    with 270 first and 90 second.  On a square image, [W = H], these are
    the same dimensions. *)
Theorem rotation_roundtrip_transposed (W H : Z) (box : WordBox) :
  within_rotated_bounds W H box ->
  map_twice W H 90 H W 270 box = Some box
  /\ map_twice W H 270 H W 90 box = Some box.
Proof.
  intros Hin. split.
  - apply roundtrip_90_270, Hin.
  - apply roundtrip_270_90, Hin.
Qed.

Lemma rotation_roundtrip_transposed_witness :
  map_twice 200 100 90 100 200 270 sample_rotated_box = Some sample_rotated_box
  /\ map_twice 200 100 270 100 200 90 sample_rotated_box
     = Some sample_rotated_box.
Proof.
  apply rotation_roundtrip_transposed.
  unfold within_rotated_bounds, sample_rotated_box. lia.
Defined.

(** On the same dimensions the round trip of a square image is exact. *)
Lemma rotation_roundtrip_square (W : Z) (box : WordBox) :
  within_rotated_bounds W W box ->
  map_twice W W 90 W W 270 box = Some box
  /\ map_twice W W 270 W W 90 box = Some box.
Proof.
  intros Hin. split.
  - apply roundtrip_90_270, Hin.
  - apply roundtrip_270_90, Hin.
Qed.

(** On the same dimensions of an image that is not square the box comes
    back shifted by the difference of the two dimensions, before
    clamping: the box [(10, 20, 30, 40)] of a 200 x 100 image, which lies
    inside the image and inside its rotation, returns with its top at 0
    instead of 20 through 90 then 270, and with its left at 110 instead
    of 10 through 270 then 90. *)
Lemma rotation_roundtrip_same_dims_counterexample :
  within_rotated_bounds 200 100 sample_rotated_box
  /\ within_rotated_bounds 100 200 sample_rotated_box
  /\ map_twice 200 100 90 200 100 270 sample_rotated_box
     = Some (10, 0, 30, 40, cps "TXT", PyFloat.of_Z 88)
  /\ ~ within_rounding (10, 0, 30, 40, cps "TXT", PyFloat.of_Z 88)
                       sample_rotated_box
  /\ map_twice 200 100 270 200 100 90 sample_rotated_box
     = Some (110, 20, 30, 40, cps "TXT", PyFloat.of_Z 88)
  /\ ~ within_rounding (110, 20, 30, 40, cps "TXT", PyFloat.of_Z 88)
                       sample_rotated_box.
Proof.
  unfold sample_rotated_box.
  split; [unfold within_rotated_bounds; lia|].
  split; [unfold within_rotated_bounds; lia|].
  split; [reflexivity|].
  split; [unfold within_rounding; intros (_ & H & _); revert H; simpl; lia|].
  split; [reflexivity|].
  unfold within_rounding; intros (H & _); revert H; simpl; lia.
Qed.

(** ** Best-candidate tracking *)

Section AttemptsFacts.

Variable isalnum : N -> bool.
Variable isdecimal : N -> bool.
Variable extract_text : Path -> str.
Variable run_ocr : Path -> Profile -> bool.
Variable settings : Settings.


Lemma all_succeed_tail (profile : Profile) (rest : list Profile) (idx : Z) :
  all_succeed run_ocr (profile :: rest) idx ->
  all_succeed run_ocr rest (idx + 1).
Proof.
  intros Hall j p Hj. specialize (Hall (S j) p Hj).
  rewrite <- Hall. do 2 f_equal. lia.
Qed.

(** Bounds on the attempts after the first carry over to all of them. *)
Lemma bound_from_tail (f : Z -> Z) (idx bound : Z) (n : nat) :
  f idx <= bound ->
  (forall j, (j < n)%nat -> f (idx + 1 + Z.of_nat j) <= bound) ->
  forall j, (j < S n)%nat -> f (idx + Z.of_nat j) <= bound.
Proof.
  intros H0 Htail [|j] Hj.
  - rewrite Z.add_0_r. exact H0.
  - replace (idx + Z.of_nat (S j)) with (idx + 1 + Z.of_nat j) by lia.
    apply Htail. lia.
Qed.

Lemma strict_bound_from_tail (f : Z -> Z) (idx bound : Z) (n : nat) :
  f idx < bound ->
  (forall j, (j < n)%nat -> f (idx + 1 + Z.of_nat j) < bound) ->
  forall j, (j < S n)%nat -> f (idx + Z.of_nat j) < bound.
Proof.
  intros H0 Htail [|j] Hj.
  - rewrite Z.add_0_r. exact H0.
  - replace (idx + Z.of_nat (S j)) with (idx + 1 + Z.of_nat j) by lia.
    apply Htail. lia.
Qed.

(** The loop over a list is the loop over a prefix followed by the loop
    over the rest: the state after [n] attempts is the result of the loop
    over the first [n] profiles. *)
Lemma attempts_loop_app (first rest : list Profile) :
  forall (idx : Z) (st : AttemptsState),
    attempts_loop isalnum isdecimal extract_text run_ocr settings
      (first ++ rest) idx st
    = bind (attempts_loop isalnum isdecimal extract_text run_ocr settings
              first idx st)
           (attempts_loop isalnum isdecimal extract_text run_ocr settings
              rest (idx + Z.of_nat (List.length first))).
Proof.
  induction first as [|profile first IH]; intros idx st.
  - simpl. now rewrite Z.add_0_r.
  - cbn [app attempts_loop List.length].
    destruct (attempt_step _ _ _ _ _ _ _ _) as [st'|e]; cbn [bind].
    + rewrite IH. do 2 f_equal. lia.
    + reflexivity.
Qed.

Lemma attempts_loop_spec (profiles : list Profile) :
  forall (idx : Z) (st : AttemptsState),
    all_succeed run_ocr profiles idx ->
    exists st',
      attempts_loop isalnum isdecimal extract_text run_ocr settings
        profiles idx st = Ok st'
      /\ attempts st'
         = attempts st
           ++ attempt_infos isalnum isdecimal extract_text settings profiles idx
      /\ best_after isalnum isdecimal extract_text settings profiles idx st st'.
Proof.
  induction profiles as [|profile rest IH]; intros idx st Hall.
  - exists st. simpl. rewrite app_nil_r. repeat split.
    left. repeat split. intros j Hj. inversion Hj.
  - pose proof (Hall 0%nat profile eq_refl) as Hrun.
    rewrite Z.add_0_r in Hrun.
    pose proof (all_succeed_tail _ _ _ Hall) as Hrest.
    cbn [attempts_loop]. unfold attempt_step. rewrite Hrun.
    fold (analysis_of isalnum isdecimal extract_text idx).
    fold (selection_of isalnum isdecimal extract_text settings idx).
    destruct (Z.ltb_spec (best_selection_score st)
                (selection_of isalnum isdecimal extract_text settings idx))
      as [Hbetter|Hworse];
      cbn [bind];
      match goal with |- context [attempts_loop _ _ _ _ _ rest (idx + 1) ?s] =>
        destruct (IH (idx + 1) s Hrest) as (st' & Hloop & Hatt & Hbest)
      end;
      exists st'; (split; [exact Hloop|]);
      (split; [rewrite Hatt; cbn [attempts attempt_infos];
               rewrite <- app_assoc; reflexivity|]);
      unfold best_after in Hbest |- *;
      cbn [best_candidate best_profile best_analysis best_selection_score]
        in Hbest;
      destruct Hbest as [(Hc & Hp & Ha & Hs & Hle)
                        |(k & p & Hk & Hc & Hp & Ha & Hs & Hlt & Hle & Hfirst)].
    + (* the attempt becomes the best candidate and stays it *)
      right. exists 0%nat, profile. rewrite Z.add_0_r.
      repeat split; try assumption.
      * apply bound_from_tail; [lia|exact Hle].
      * intros j Hj. lia.
    + (* the attempt becomes the best candidate and is replaced later *)
      right. exists (S k), p.
      replace (idx + Z.of_nat (S k)) with (idx + 1 + Z.of_nat k) by lia.
      repeat split; try assumption; try lia.
      * apply bound_from_tail; [lia|exact Hle].
      * apply strict_bound_from_tail; [lia|exact Hfirst].
    + (* the best candidate stays throughout *)
      left. repeat split; try assumption.
      apply bound_from_tail; [lia|exact Hle].
    + (* the best candidate stays now and is replaced later *)
      right. exists (S k), p.
      replace (idx + Z.of_nat (S k)) with (idx + 1 + Z.of_nat k) by lia.
      repeat split; try assumption; try lia.
      * apply bound_from_tail; [lia|exact Hle].
      * apply strict_bound_from_tail; [lia|exact Hfirst].
Qed.

(** C6.  When every attempt of a non-empty list of profiles succeeds, the
    call returns the candidate, the profile and the analysis of one
    attempt [k], together with the history of all attempts; the selection
    score of attempt [k] is the highest of all, and every earlier attempt
    has a strictly lower one, so that of several attempts with the highest
    score the earliest is returned. *)
Theorem best_attempt_is_first_maximum (profiles : list Profile) :
  profiles <> [] ->
  all_succeed run_ocr profiles 1 ->
  exists (k : nat) (profile : Profile),
    nth_error profiles k = Some profile
    /\ _run_ocr_attempts_for_page isalnum isdecimal extract_text run_ocr
         settings profiles
       = Ok (ocr_page_try (1 + Z.of_nat k), profile,
             analysis_of isalnum isdecimal extract_text (1 + Z.of_nat k),
             attempt_infos isalnum isdecimal extract_text settings profiles 1)
    /\ (forall j, (j < List.length profiles)%nat ->
          selection_of isalnum isdecimal extract_text settings (1 + Z.of_nat j)
          <= selection_of isalnum isdecimal extract_text settings
               (1 + Z.of_nat k))
    /\ (forall j, (j < k)%nat ->
          selection_of isalnum isdecimal extract_text settings (1 + Z.of_nat j)
          < selection_of isalnum isdecimal extract_text settings
              (1 + Z.of_nat k)).
Proof.
  intros Hne Hall.
  destruct (attempts_loop_spec profiles 1 initial_attempts_state Hall)
    as (st' & Hloop & Hatt & Hbest).
  unfold _run_ocr_attempts_for_page. rewrite Hloop. cbn [bind].
  destruct Hbest as [(_ & _ & _ & _ & Hle)
                    |(k & p & Hk & Hc & Hp & Ha & Hs & Hlt & Hle & Hfirst)].
  - (* no attempt above the initial -1: excluded, scores are not negative *)
    exfalso. destruct profiles as [|profile rest]; [contradiction|].
    specialize (Hle 0%nat ltac:(simpl; lia)).
    pose proof (selection_score_nonneg isalnum isdecimal extract_text
                  (ocr_page_try (1 + Z.of_nat 0)) (drawing_mode settings)) as H0.
    unfold selection_of, analysis_of in Hle.
    cbn [best_selection_score initial_attempts_state] in Hle. lia.
  - exists k, p. rewrite Hc, Hp, Ha, Hatt. repeat split; assumption.
Qed.

End AttemptsFacts.

Lemma best_attempt_is_first_maximum_witness :
  exists (k : nat) (profile : Profile),
    nth_error (_build_page_profiles sample_drawing_settings) k = Some profile
    /\ _run_ocr_attempts_for_page ascii_alnum is_09 sample_extract_text
         sample_run_ocr sample_drawing_settings
         (_build_page_profiles sample_drawing_settings)
       = Ok (ocr_page_try (1 + Z.of_nat k), profile,
             analysis_of ascii_alnum is_09 sample_extract_text (1 + Z.of_nat k),
             attempt_infos ascii_alnum is_09 sample_extract_text
               sample_drawing_settings
               (_build_page_profiles sample_drawing_settings) 1)
    /\ (forall j,
          (j < List.length (_build_page_profiles sample_drawing_settings))%nat ->
          selection_of ascii_alnum is_09 sample_extract_text
            sample_drawing_settings (1 + Z.of_nat j)
          <= selection_of ascii_alnum is_09 sample_extract_text
               sample_drawing_settings (1 + Z.of_nat k))
    /\ (forall j, (j < k)%nat ->
          selection_of ascii_alnum is_09 sample_extract_text
            sample_drawing_settings (1 + Z.of_nat j)
          < selection_of ascii_alnum is_09 sample_extract_text
              sample_drawing_settings (1 + Z.of_nat k)).
Proof.
  apply (best_attempt_is_first_maximum ascii_alnum is_09 sample_extract_text
           sample_run_ocr sample_drawing_settings).
  - discriminate.
  - intros j profile _. reflexivity.
Defined.

(** The first two attempts of the sample page tie at the highest selection
    score, and the first of them is returned. *)
Example tie_keeps_the_earlier_attempt :
  selection_of ascii_alnum is_09 sample_extract_text sample_drawing_settings 1
  = selection_of ascii_alnum is_09 sample_extract_text sample_drawing_settings 2
  /\ match _run_ocr_attempts_for_page ascii_alnum is_09 sample_extract_text
             sample_run_ocr sample_drawing_settings
             (_build_page_profiles sample_drawing_settings) with
     | Ok (candidate, profile, _, _) =>
         candidate = ocr_page_try 1 /\ name profile = "draw-sparse-a"%string
     | Raise _ => False
     end.
Proof. vm_compute. repeat split. Qed.

(** ** Deduplication *)

Section DictFacts.

Variables K V : Type.
Variable eqb : K -> K -> bool.
Hypothesis eqb_eq : forall a b, eqb a b = true <-> a = b.

Lemma dict_get_None (d : dict K V) (k : K) :
  dict_get eqb d k = None <-> ~ In k (List.map fst d).
Proof.
  induction d as [|[k' v] d IH]; simpl.
  - tauto.
  - destruct (eqb k k') eqn:E.
    + apply eqb_eq in E. subst. split; [discriminate|]. intros H. elim H. now left.
    + rewrite IH. split.
      * intros Hn [Heq|Hin]; [|tauto].
        subst. assert (eqb k k = true) by now apply eqb_eq. congruence.
      * tauto.
Qed.

Lemma dict_get_Some (d : dict K V) (k : K) (v : V) :
  dict_get eqb d k = Some v -> In (k, v) d.
Proof.
  induction d as [|[k' v'] d IH]; simpl; [discriminate|].
  destruct (eqb k k') eqn:E.
  - apply eqb_eq in E. intros [= ->]. subst. now left.
  - intros H. right. now apply IH.
Qed.

Lemma dict_set_fresh (d : dict K V) (k : K) (v : V) :
  ~ In k (List.map fst d) -> dict_set eqb d k v = d ++ [(k, v)].
Proof.
  induction d as [|[k' v'] d IH]; simpl; intros Hn; [reflexivity|].
  destruct (eqb k k') eqn:E.
  - apply eqb_eq in E. subst. elim Hn. now left.
  - rewrite IH; [reflexivity|tauto].
Qed.

Lemma dict_set_keys (d : dict K V) (k : K) (v : V) :
  In k (List.map fst d) ->
  List.map fst (dict_set eqb d k v) = List.map fst d.
Proof.
  induction d as [|[k' v'] d IH]; simpl; intros Hin; [contradiction|].
  destruct (eqb k k') eqn:E; simpl; [reflexivity|].
  f_equal. apply IH. destruct Hin as [->|Hin]; [|exact Hin].
  assert (eqb k k = true) by now apply eqb_eq. congruence.
Qed.

Lemma dict_set_In (d : dict K V) (k : K) (v : V) (k' : K) (v' : V) :
  In (k', v') (dict_set eqb d k v) -> (k', v') = (k, v) \/ In (k', v') d.
Proof.
  induction d as [|[k0 v0] d IH]; simpl.
  - intros [H|[]]. left. now symmetry.
  - destruct (eqb k k0) eqn:E; simpl.
    + apply eqb_eq in E. subst. intros [H|H]; [left; now symmetry|tauto].
    + intros [H|H]; [tauto|]. destruct (IH H); tauto.
Qed.

End DictFacts.

Lemma str_eqb_eq (a b : str) : str_eqb a b = true <-> a = b.
Proof.
  revert b. induction a as [|x a IH]; intros [|y b]; simpl;
    try (split; [discriminate|discriminate]); try tauto.
  rewrite andb_true_iff, N.eqb_eq, IH. split.
  - intros [-> ->]. reflexivity.
  - intros [= -> ->]. tauto.
Qed.

Lemma box_key_eqb_eq (a b : box_key) : box_key_eqb a b = true <-> a = b.
Proof.
  destruct a as [[sa xa] ya], b as [[sb xb] yb]. unfold box_key_eqb.
  rewrite !andb_true_iff, str_eqb_eq, !Z.eqb_eq. split.
  - intros [[-> ->] ->]. reflexivity.
  - intros [= -> -> ->]. tauto.
Qed.

Lemma box_key_eq_dec (a b : box_key) : {a = b} + {a <> b}.
Proof.
  destruct (box_key_eqb a b) eqn:E.
  - left. now apply box_key_eqb_eq.
  - right. intros Heq. apply box_key_eqb_eq in Heq. congruence.
Qed.

(** The step of the loop, by the key of the box. *)
Lemma dedupe_step_by_key (dedup : dict box_key WordBox) (box : WordBox) :
  dedupe_step dedup box =
  match key_of box with
  | None => dedup
  | Some key =>
      match dict_get box_key_eqb dedup key with
      | None => dict_set box_key_eqb dedup key box
      | Some existing =>
          if PyFloat.ltb (conf_of existing) (conf_of box)
          then dict_set box_key_eqb dedup key box
          else dedup
      end
  end.
Proof.
  destruct box as [[[[[left_ top] width] height] text] conf].
  unfold dedupe_step, key_of, conf_of.
  destruct (normalized_text text); [reflexivity|].
  destruct (dict_get _ _ _) as [[[[[[? ?] ?] ?] ?] ?]|]; reflexivity.
Qed.

Lemma well_keyed_set (dedup : dict box_key WordBox) (key : box_key)
    (box : WordBox) :
  well_keyed dedup -> key_of box = Some key ->
  well_keyed (dict_set box_key_eqb dedup key box).
Proof.
  intros [Hnd Hkeys] Hkey. split.
  - destruct (in_dec box_key_eq_dec key (List.map fst dedup)) as [Hin|Hout].
    + rewrite (dict_set_keys _ _ _ box_key_eqb_eq _ _ _ Hin). exact Hnd.
    + rewrite (dict_set_fresh _ _ _ box_key_eqb_eq _ _ _ Hout).
      rewrite map_app. simpl. apply NoDup_app.
      * exact Hnd.
      * constructor; [intros []|constructor].
      * intros k Hk [<-|[]]. contradiction.
  - intros k b Hin.
    destruct (dict_set_In _ _ _ box_key_eqb_eq _ _ _ _ _ Hin) as [[= -> ->]|Hold].
    + exact Hkey.
    + now apply Hkeys.
Qed.

Lemma well_keyed_step (dedup : dict box_key WordBox) (box : WordBox) :
  well_keyed dedup -> well_keyed (dedupe_step dedup box).
Proof.
  intros Hwf. rewrite dedupe_step_by_key.
  destruct (key_of box) as [key|] eqn:Hkey; [|exact Hwf].
  destruct (dict_get _ _ _) as [existing|].
  - destruct (PyFloat.ltb _ _); [now apply well_keyed_set|exact Hwf].
  - now apply well_keyed_set.
Qed.

Lemma well_keyed_fold (boxes : list WordBox) :
  forall dedup, well_keyed dedup -> well_keyed (fold_left dedupe_step boxes dedup).
Proof.
  induction boxes as [|box boxes IH]; intros dedup Hwf; simpl.
  - exact Hwf.
  - apply IH, well_keyed_step, Hwf.
Qed.

Lemma well_keyed_nil : well_keyed [].
Proof. split; [constructor|intros ? ? []]. Qed.

(** Running the loop over the values of a well-keyed dictionary rebuilds
    it entry by entry. *)
Lemma dedupe_rebuilds (later : dict box_key WordBox) :
  forall earlier,
    well_keyed (earlier ++ later) ->
    fold_left dedupe_step (dict_values later) earlier = earlier ++ later.
Proof.
  induction later as [|[key box] later IH]; intros earlier Hwf; simpl.
  - now rewrite app_nil_r.
  - assert (Hkey : key_of box = Some key).
    { apply (proj2 Hwf). apply in_or_app. right. now left. }
    assert (Hfresh : ~ In key (List.map fst earlier)).
    { destruct Hwf as [Hnd _]. rewrite map_app in Hnd. simpl in Hnd.
      apply NoDup_remove_2 in Hnd. intros Hin. apply Hnd.
      apply in_or_app. now left. }
    rewrite dedupe_step_by_key, Hkey.
    rewrite (proj2 (dict_get_None _ _ _ box_key_eqb_eq _ _) Hfresh).
    rewrite (dict_set_fresh _ _ _ box_key_eqb_eq _ _ _ Hfresh).
    unfold dict_values in IH. rewrite IH.
    + now rewrite <- app_assoc.
    + now rewrite <- app_assoc.
Qed.

(** C3.  Deduplicating a deduplicated list returns it unchanged, boxes
    and order alike; in particular it returns the same set of boxes. *)
Theorem dedupe_idempotent (boxes : list WordBox) :
  _dedupe_word_boxes (_dedupe_word_boxes boxes) = _dedupe_word_boxes boxes
  /\ Permutation (_dedupe_word_boxes (_dedupe_word_boxes boxes))
                 (_dedupe_word_boxes boxes).
Proof.
  assert (Heq : _dedupe_word_boxes (_dedupe_word_boxes boxes)
                = _dedupe_word_boxes boxes).
  { unfold _dedupe_word_boxes.
    rewrite (dedupe_rebuilds (fold_left dedupe_step boxes []) []).
    - reflexivity.
    - apply well_keyed_fold, well_keyed_nil. }
  split; [exact Heq|]. rewrite Heq. apply Permutation_refl.
Qed.

(** The two overlapping [TAG-101] boxes of the specification's scenario
    deduplicate to the more confident one. *)
Example dedupe_keeps_the_more_confident_box :
  _dedupe_word_boxes
    [ (10, 10, 20, 10, cps "TAG-101", PyFloat.of_Z 90);
      (11, 10, 20, 10, cps "TAG-101", PyFloat.of_Z 80) ]
  = [ (10, 10, 20, 10, cps "TAG-101", PyFloat.of_Z 90) ].
Proof. reflexivity. Qed.

Lemma filter_none (p : N -> bool) (text : str) :
  (forall c, In c text -> p c = false) -> filter p text = [].
Proof.
  induction text as [|c text IH]; simpl; intros H; [reflexivity|].
  rewrite (H c (or_introl eq_refl)). apply IH. intros c' Hc'. apply H. now right.
Qed.

Lemma key_of_no_word_char (box : WordBox) :
  no_word_char (text_of box) -> key_of box = None.
Proof.
  destruct box as [[[[[left_ top] width] height] text] conf].
  unfold no_word_char, key_of, normalized_text. simpl. intros H.
  now rewrite (filter_none _ _ H).
Qed.

Lemma dedupe_members_keyed (boxes : list WordBox) (box : WordBox) :
  In box (_dedupe_word_boxes boxes) -> exists key, key_of box = Some key.
Proof.
  unfold _dedupe_word_boxes, dict_values. intros Hin.
  apply in_map_iff in Hin. destruct Hin as ([key box'] & Heq & Hin).
  simpl in Heq. subst box'. exists key.
  exact (proj2 (well_keyed_fold boxes [] well_keyed_nil) key box Hin).
Qed.

(** C9.  A box whose text has no character of [A-Za-zА-Яа-я0-9], the
    Latin letters, Cyrillic letters and digits that the normalization
    keeps, is in no deduplicated list, and alone it deduplicates to the
    empty list. *)
Theorem dedupe_drops_boxes_without_word_chars
    (boxes : list WordBox) (box : WordBox) :
  no_word_char (text_of box) ->
  ~ In box (_dedupe_word_boxes boxes) /\ _dedupe_word_boxes [box] = [].
Proof.
  intros Hnone. pose proof (key_of_no_word_char box Hnone) as Hkey. split.
  - intros Hin. destruct (dedupe_members_keyed boxes box Hin) as [key Hsome].
    congruence.
  - unfold _dedupe_word_boxes. simpl. now rewrite dedupe_step_by_key, Hkey.
Qed.

Lemma dedupe_drops_boxes_without_word_chars_witness :
  ~ In sample_punctuation_box
       (_dedupe_word_boxes
          [ (10, 10, 20, 10, cps "TAG-101", PyFloat.of_Z 90);
            sample_punctuation_box ])
  /\ _dedupe_word_boxes [sample_punctuation_box] = [].
Proof.
  apply dedupe_drops_boxes_without_word_chars.
  unfold no_word_char, sample_punctuation_box. simpl.
  intros c [<-|[<-|[<-|[]]]]; reflexivity.
Defined.

(** ** Order of floats *)

(** [<] on floats is transitive, NaN and both zeros included. *)
Lemma float_ltb_trans (a b c : PyFloat.float) :
  PyFloat.ltb a b = true -> PyFloat.ltb b c = true -> PyFloat.ltb a c = true.
Proof.
  unfold PyFloat.ltb, SFltb.
  destruct a as [sa|sa| |sa ma ea], b as [sb|sb| |sb mb eb],
           c as [sc|sc| |sc mc ec];
    cbn [SFcompare]; try discriminate;
    try (destruct sa; discriminate); try (destruct sb; discriminate);
    try (destruct sa, sb; discriminate); try (destruct sb, sc; discriminate);
    try (destruct sa, sb, sc; (discriminate || reflexivity)).
  change (Pos.compare_cont Eq ma mb) with (Pos.compare ma mb).
  change (Pos.compare_cont Eq mb mc) with (Pos.compare mb mc).
  change (Pos.compare_cont Eq ma mc) with (Pos.compare ma mc).
  destruct sa, sb, sc; try discriminate; try reflexivity;
    destruct (Z.compare_spec ea eb), (Z.compare_spec eb ec),
             (Z.compare_spec ea ec);
    try discriminate; try reflexivity; try lia; subst;
    destruct (Pos.compare_spec ma mb), (Pos.compare_spec mb mc),
             (Pos.compare_spec ma mc);
    cbn [CompOpp]; try discriminate; try reflexivity; try lia.
Qed.

(** A float is not below itself. *)
Lemma float_ltb_irrefl (a : PyFloat.float) : PyFloat.ltb a a = false.
Proof.
  unfold PyFloat.ltb, SFltb.
  destruct a as [s|s| |s m e]; cbn [SFcompare]; try reflexivity.
  - destruct s; reflexivity.
  - change (Pos.compare_cont Eq m m) with (Pos.compare m m).
    rewrite Z.compare_refl, Pos.compare_refl. destruct s; reflexivity.
Qed.

(** ** Injecting rescue lines *)

(** The layout loop only appends, one word per line and in the order of
    the lines, and stops at 180 words. *)
Lemma layout_lines_spec (page_width page_height : PyFloat.float)
    (lines : list str) :
  forall (y : PyFloat.float) (overlay_words : list OverlayWord),
    exists placed,
      layout_lines page_width page_height lines y overlay_words
      = overlay_words ++ placed
      /\ (List.length placed <= List.length lines)%nat
      /\ List.map line_of placed = firstn (List.length placed) lines
      /\ ((List.length overlay_words < 180)%nat ->
          (List.length (overlay_words ++ placed) <= 180)%nat).
Proof.
  induction lines as [|line rest IH]; intros y overlay_words;
    cbn [layout_lines].
  - exists []. rewrite app_nil_r. repeat split; simpl; lia.
  - destruct (PyFloat.ltb _ y).
    + exists []. rewrite app_nil_r. repeat split; simpl; lia.
    + match goal with |- context [overlay_words ++ [?w]] => set (word := w) end.
      destruct (Nat.leb_spec 180 (List.length (overlay_words ++ [word])))
        as [Hfull|Hroom].
      * exists [word]. repeat split; simpl; try lia.
        rewrite length_app. simpl. lia.
      * destruct (IH (PyFloat.add y (PyFloat.lit 58 10)) (overlay_words ++ [word]))
          as (placed & Heq & Hlen & Hlines & Hcap).
        exists (word :: placed). rewrite Heq, <- app_assoc. simpl.
        repeat split; try lia.
        -- now rewrite Hlines.
        -- intros _. specialize (Hcap Hroom).
           rewrite <- app_assoc in Hcap. exact Hcap.
Qed.

(** The first line always fits: [y] starts at 8.0, which is not above
    [max(8.0, page_height - 8.0)] whatever the height of the page is. *)
Lemma first_line_fits (page_height : PyFloat.float) :
  PyFloat.ltb
    (PyFloat.max (PyFloat.of_Z 8) (PyFloat.sub page_height (PyFloat.of_Z 8)))
    (PyFloat.of_Z 8)
  = false.
Proof.
  unfold PyFloat.max.
  destruct (PyFloat.ltb (PyFloat.of_Z 8) _) eqn:Habove;
    [|apply float_ltb_irrefl].
  destruct (PyFloat.ltb _ (PyFloat.of_Z 8)) eqn:Hbelow; [|reflexivity].
  pose proof (float_ltb_trans _ _ _ Habove Hbelow) as Hcycle.
  now rewrite float_ltb_irrefl in Hcycle.
Qed.

Lemma layout_lines_first (page_width page_height : PyFloat.float)
    (line : str) (rest : list str) :
  layout_lines page_width page_height (line :: rest) (PyFloat.of_Z 8) [] <> [].
Proof.
  cbn [layout_lines]. rewrite first_line_fits. cbn [app].
  destruct (180 <=? _)%nat; [discriminate|].
  match goal with |- layout_lines _ _ _ ?y ?words <> [] =>
    destruct (layout_lines_spec page_width page_height rest y words)
      as (placed & -> & _)
  end.
  discriminate.
Qed.

(** C10.  On a file with at least one page, whenever the call returns it
    has laid at most 180 lines over the first page, one invisible text
    operation per line, in the order of the input and behind the text
    that is already there; the returned count is the number of these
    operations, and it is at most 180 and at most the number of input
    lines.  The call returns for every page whose width and height are
    between 3 and 14400 points, and when there is no line; for a page of
    another size and at least one line it raises [ValueError], and
    nothing is laid over the page. *)
Theorem inject_hidden_text_lines_bounded
    (page : Page) (other_pages : list Page) (lines : list str) :
  let page_pdf := page :: other_pages in
  (forall after count,
     _inject_hidden_text_lines page_pdf lines = Ok (after, count) ->
     0 <= count <= 180
     /\ count <= Z.of_nat (List.length lines)
     /\ exists placed,
          after = {| mediabox := mediabox page;
                     hidden_text := hidden_text page ++ placed |}
                  :: other_pages
          /\ Z.of_nat (List.length placed) = count
          /\ List.map line_of placed = firstn (List.length placed) lines)
  /\ (page_size_allowed (page_size page) = true \/ lines = [] ->
      exists after count,
        _inject_hidden_text_lines page_pdf lines = Ok (after, count))
  /\ (page_size_allowed (page_size page) = false -> lines <> [] ->
      _inject_hidden_text_lines page_pdf lines = Raise ValueError)
  /\ (forall e,
        _inject_hidden_text_lines page_pdf lines = Raise e ->
        e = ValueError /\ lines <> []
        /\ page_size_allowed (page_size page) = false).
Proof.
  cbv zeta. unfold _inject_hidden_text_lines, page_size, add_blank_page.
  destruct lines as [|line rest].
  - split; [|split; [|split]].
    + intros after count [= <- <-]. simpl. repeat split; try lia.
      exists []. rewrite app_nil_r. destruct page; repeat split.
    + intros _. eauto.
    + intros _ Hlines. now elim Hlines.
    + intros e. discriminate.
  - destruct (mediabox page) as [[[x0 y0] x1] y1] eqn:Hbox.
    pose proof (layout_lines_first (PyFloat.sub x1 x0) (PyFloat.sub y1 y0)
                  line rest) as Hfirst.
    destruct (layout_lines_spec (PyFloat.sub x1 x0) (PyFloat.sub y1 y0)
                (line :: rest) (PyFloat.of_Z 8) [])
      as (placed & Heq & Hlen & Hlines & Hcap).
    cbn [app] in Heq, Hcap. rewrite Heq in Hfirst |- *.
    specialize (Hcap ltac:(simpl; lia)).
    destruct placed as [|word placed]; [now elim Hfirst|].
    destruct (page_size_allowed (PyFloat.sub x1 x0, PyFloat.sub y1 y0));
      cbn [bind]; (split; [|split; [|split]]).
    + intros after count [= <- <-].
      change (Z.pos (Pos.of_succ_nat (List.length placed)))
        with (Z.of_nat (List.length (word :: placed))).
      repeat split; try lia.
      exists (word :: placed). repeat split. exact Hlines.
    + intros _. eauto.
    + discriminate.
    + intros e. discriminate.
    + intros after count. discriminate.
    + intros [Hallowed|Hnone]; discriminate.
    + intros _ _. reflexivity.
    + intros e [= <-]. repeat split. discriminate.
Qed.

(** A tall page takes the full 180 lines, a short one what fits, and a
    page that is higher than 14400 points takes none: the call raises. *)
Example inject_stops_at_180_lines :
  (exists after,
     _inject_hidden_text_lines
       [ {| mediabox := (PyFloat.of_Z 0, PyFloat.of_Z 0,
                         PyFloat.of_Z 595, PyFloat.of_Z 3000);
            hidden_text := [] |} ]
       (repeat (cps "DESIGN CODE") 400) = Ok (after, 180))
  /\ (exists after,
        _inject_hidden_text_lines
          [ {| mediabox := (PyFloat.of_Z 0, PyFloat.of_Z 0,
                            PyFloat.of_Z 595, PyFloat.of_Z 30);
               hidden_text := [] |} ]
          (repeat (cps "DESIGN CODE") 400) = Ok (after, 3))
  /\ _inject_hidden_text_lines
       [ {| mediabox := (PyFloat.of_Z 0, PyFloat.of_Z 0,
                         PyFloat.of_Z 595, PyFloat.of_Z 20000);
            hidden_text := [] |} ]
       (repeat (cps "DESIGN CODE") 400) = Raise ValueError.
Proof.
  split; [|split].
  - eexists. vm_compute. reflexivity.
  - eexists. vm_compute. reflexivity.
  - vm_compute. reflexivity.
Qed.

(** ** Overlay preparation *)

Section OverlayFacts.

Variable isspace : N -> bool.

Lemma insert_ranked_perm (box : WordBox) (ranked : list WordBox) :
  Permutation (insert_ranked box ranked) (box :: ranked).
Proof.
  induction ranked as [|other ranked IH]; simpl.
  - apply Permutation_refl.
  - destruct (PyFloat.ltb _ _).
    + eapply perm_trans; [apply perm_skip, IH|apply perm_swap].
    + apply Permutation_refl.
Qed.

(** Ranking permutes the boxes. *)
Lemma ranked_by_conf_perm (boxes : list WordBox) :
  Permutation (ranked_by_conf boxes) boxes.
Proof.
  induction boxes as [|box boxes IH]; simpl.
  - apply Permutation_refl.
  - eapply perm_trans; [apply insert_ranked_perm|apply perm_skip, IH].
Qed.

Lemma int_times_in_range (n : Z) (x : PyFloat.float) :
  Z.abs n < PyFloat.overflow_threshold ->
  int_times n x = Ok (PyFloat.mul (PyFloat.of_Z n) x).
Proof.
  intros Hn. unfold int_times, PyFloat.of_int.
  destruct (Z.leb_spec PyFloat.overflow_threshold (Z.abs n)); [lia|reflexivity].
Qed.

Lemma overlay_word_in_range (page_height scale_x scale_y : PyFloat.float)
    (box : WordBox) (normalized : str) :
  box_in_range box ->
  exists word, overlay_word page_height scale_x scale_y box normalized = Ok word.
Proof.
  destruct box as [[[[[left_ top] width] height] text] conf].
  intros (Hl & Hth & Hw & Hh). unfold overlay_word.
  rewrite !int_times_in_range by assumption. cbn [bind]. eauto.
Qed.

(** Whatever the loop returns extends [selected] by words of confident
    boxes, and stays within 3500 words. *)
Lemma select_words_sound (page_height scale_x scale_y : PyFloat.float)
    (ranked : list WordBox) :
  forall (selected : list OverlayWord) (seen : list box_key)
         (words : list OverlayWord),
    select_words isspace page_height scale_x scale_y ranked selected seen
    = Ok words ->
    exists added,
      words = selected ++ added
      /\ ((List.length selected < 3500)%nat -> (List.length words <= 3500)%nat)
      /\ forall word, In word added ->
           exists box, In box ranked
                       /\ originates_from isspace page_height box word.
Proof.
  induction ranked as [|box ranked IH]; intros selected seen words;
    cbn [select_words].
  - intros [= <-]. exists []. rewrite app_nil_r.
    repeat split; [lia|intros ? []].
  - destruct box as [[[[[left_ top] width] height] text] conf].
    assert (Hskip : forall sel' seen',
              select_words isspace page_height scale_x scale_y ranked sel' seen'
              = Ok words ->
              sel' = selected ->
              exists added,
                words = selected ++ added
                /\ ((List.length selected < 3500)%nat ->
                    (List.length words <= 3500)%nat)
                /\ forall word, In word added ->
                     exists box,
                       In box ((left_, top, width, height, text, conf) :: ranked)
                       /\ originates_from isspace page_height box word).
    { intros sel' seen' Hrun ->.
      destruct (IH _ _ _ Hrun) as (added & Heq & Hcap & Hfrom).
      exists added. repeat split; try assumption.
      intros word Hin. destruct (Hfrom word Hin) as (b & Hb & Hob).
      exists b. split; [now right|exact Hob]. }
    destruct (PyFloat.ltb conf (PyFloat.of_Z 15)) eqn:Hconf;
      [intros Hrun; now apply (Hskip _ _ Hrun)|].
    destruct (_normalize_overlay_token isspace text) as [|c normalized] eqn:Hnorm;
      [intros Hrun; now apply (Hskip _ _ Hrun)|].
    destruct (existsb _ seen);
      [intros Hrun; now apply (Hskip _ _ Hrun)|].
    destruct (overlay_word _ _ _ _ _) as [word|e] eqn:Hword;
      cbn [bind]; [|discriminate].
    assert (Horigin : originates_from isspace page_height
                        (left_, top, width, height, text, conf) word).
    { split; [exact Hconf|]. exists scale_x, scale_y.
      cbn [text_of]. rewrite Hnorm. exact Hword. }
    destruct (Nat.leb_spec 3500 (List.length (selected ++ [word])))
      as [Hfull|Hroom].
    + intros [= <-]. exists [word]. repeat split.
      * rewrite length_app. simpl. lia.
      * intros w [<-|[]]. eexists. split; [now left|exact Horigin].
    + intros Hrun. destruct (IH _ _ _ Hrun) as (added & Heq & Hcap & Hfrom).
      exists (word :: added). rewrite Heq, <- app_assoc. repeat split.
      * intros _. rewrite Heq, <- app_assoc in Hcap. apply Hcap, Hroom.
      * intros w [<-|Hin].
        -- eexists. split; [now left|exact Horigin].
        -- destruct (Hfrom w Hin) as (b & Hb & Hob).
           exists b. split; [now right|exact Hob].
Qed.

(** The loop returns when the integers of the boxes are in range. *)
Lemma select_words_returns (page_height scale_x scale_y : PyFloat.float)
    (ranked : list WordBox) :
  Forall box_in_range ranked ->
  forall (selected : list OverlayWord) (seen : list box_key),
    exists words,
      select_words isspace page_height scale_x scale_y ranked selected seen
      = Ok words.
Proof.
  induction 1 as [|box ranked Hbox _ IH]; intros selected seen;
    cbn [select_words].
  - eauto.
  - destruct box as [[[[[left_ top] width] height] text] conf].
    destruct (PyFloat.ltb conf _); [apply IH|].
    destruct (_normalize_overlay_token isspace text) as [|c normalized];
      [apply IH|].
    destruct (existsb _ seen); [apply IH|].
    destruct (overlay_word_in_range page_height scale_x scale_y
                (left_, top, width, height, text, conf) (c :: normalized) Hbox)
      as [word Hword].
    rewrite Hword. cbn [bind].
    destruct (3500 <=? _)%nat; [eauto|apply IH].
Qed.

(** C8.  Whatever [_prepare_overlay_words] returns has at most 3500
    overlay words, each of them the overlay word of an input box whose
    confidence is not below 15; and it does return, for all page and
    image dimensions, when the integers it converts to floats are within
    the range of the floats. *)
Theorem prepare_overlay_words_bounded
    (boxes : list WordBox) (page_width page_height : PyFloat.float)
    (image_width image_height : Z) :
  (forall words,
     _prepare_overlay_words isspace boxes page_width page_height
       image_width image_height = Ok words ->
     (List.length words <= 3500)%nat
     /\ forall word, In word words ->
          exists box, In box boxes
                      /\ originates_from isspace page_height box word)
  /\ (Z.abs image_width < PyFloat.overflow_threshold ->
      Z.abs image_height < PyFloat.overflow_threshold ->
      Forall box_in_range boxes ->
      exists words,
        _prepare_overlay_words isspace boxes page_width page_height
          image_width image_height = Ok words).
Proof.
  unfold _prepare_overlay_words. split.
  - intros words.
    destruct (_ || _).
    + intros [= <-]. split; [simpl; lia|intros ? []].
    + destruct (PyFloat.of_int image_width) as [iw|]; [|discriminate].
      destruct (PyFloat.of_int image_height) as [ih|]; [|discriminate].
      cbn [lift bind]. intros Hrun.
      destruct (select_words_sound _ _ _ _ _ _ _ Hrun)
        as (added & -> & Hcap & Hfrom).
      split; [apply Hcap; simpl; lia|].
      intros word Hin. destruct (Hfrom word Hin) as (box & Hbox & Horigin).
      exists box. split; [|exact Horigin].
      eapply Permutation_in; [apply ranked_by_conf_perm|exact Hbox].
  - intros Hw Hh Hboxes.
    destruct (_ || _); [eauto|].
    unfold PyFloat.of_int.
    destruct (Z.leb_spec PyFloat.overflow_threshold (Z.abs image_width));
      [lia|].
    destruct (Z.leb_spec PyFloat.overflow_threshold (Z.abs image_height));
      [lia|].
    cbn [lift bind]. apply select_words_returns.
    eapply Permutation_Forall; [|exact Hboxes].
    apply Permutation_sym, ranked_by_conf_perm.
Qed.

End OverlayFacts.

Lemma prepare_overlay_words_bounded_witness :
  exists words,
    _prepare_overlay_words sample_isspace sample_overlay_boxes
      (PyFloat.of_Z 100) (PyFloat.of_Z 200) 50 100 = Ok words
    /\ (List.length words <= 3500)%nat.
Proof.
  destruct (prepare_overlay_words_bounded sample_isspace sample_overlay_boxes
              (PyFloat.of_Z 100) (PyFloat.of_Z 200) 50 100)
    as [Hsound Hreturns].
  destruct Hreturns as [words Hwords].
  - vm_compute. reflexivity.
  - vm_compute. reflexivity.
  - repeat constructor; vm_compute; reflexivity.
  - exists words. split; [exact Hwords|apply (Hsound words Hwords)].
Defined.

(** The repository's test: the two [TAG-101] boxes share a key, the
    punctuation box normalizes to nothing, and one word is left. *)
Example prepare_overlay_words_test :
  match _prepare_overlay_words sample_isspace sample_overlay_boxes
          (PyFloat.of_Z 100) (PyFloat.of_Z 200) 50 100 with
  | Ok [word] => line_of word = cps "TAG-101"
  | _ => False
  end.
Proof. vm_compute. reflexivity. Qed.

(** ** Float arithmetic

    What the vertical scan needs of [int(mapped_width * 1.15)]: the
    conversion of the width is exact, the product is rounded once to 53
    bits, and the truncation of the rounded product stays within one unit
    of the exact [23 * mapped_width / 20] without exceeding it. *)

Lemma digits2_pos_bounds (p : positive) :
  2 ^ (Zpos (digits2_pos p) - 1) <= Zpos p < 2 ^ Zpos (digits2_pos p).
Proof.
  induction p as [p IH|p IH|]; cbn [digits2_pos].
  - rewrite Pos2Z.inj_succ.
    replace (Z.succ (Zpos (digits2_pos p)) - 1) with (Z.succ (Zpos (digits2_pos p) - 1)) by lia.
    rewrite !Z.pow_succ_r by lia. lia.
  - rewrite Pos2Z.inj_succ.
    replace (Z.succ (Zpos (digits2_pos p)) - 1) with (Z.succ (Zpos (digits2_pos p) - 1)) by lia.
    rewrite !Z.pow_succ_r by lia. lia.
  - simpl. lia.
Qed.

Lemma digits2_pos_unique (p : positive) (d : Z) :
  2 ^ (d - 1) <= Zpos p < 2 ^ d -> Zpos (digits2_pos p) = d.
Proof.
  intros [Hlo Hhi]. pose proof (digits2_pos_bounds p) as [Hlo' Hhi'].
  assert (0 < d).
  { destruct (Z.ltb_spec 0 d); [assumption|].
    rewrite Z.pow_neg_r in Hlo by lia.
    destruct (Z.eq_dec d 0) as [->|]; [simpl in Hhi; lia|].
    rewrite Z.pow_neg_r in Hhi by lia. lia. }
  destruct (Z.lt_trichotomy (Zpos (digits2_pos p)) d) as [Hlt|[Heq|Hgt]].
  - assert (2 ^ Zpos (digits2_pos p) <= 2 ^ (d - 1)) by (apply Z.pow_le_mono_r; lia).
    lia.
  - exact Heq.
  - assert (2 ^ d <= 2 ^ (Zpos (digits2_pos p) - 1)) by (apply Z.pow_le_mono_r; lia).
    lia.
Qed.

Lemma iter_xO (n : positive) (p : positive) :
  Zpos (Pos.iter xO p n) = Zpos p * 2 ^ Zpos n.
Proof.
  revert p. induction n as [|n IH] using Pos.peano_ind; intros p.
  - simpl. lia.
  - rewrite Pos.iter_succ, Pos2Z.inj_succ, Z.pow_succ_r by lia.
    rewrite Pos2Z.inj_xO, IH. lia.
Qed.

Lemma shr_1_m (mrs : shr_record) :
  0 <= shr_m mrs -> shr_m (shr_1 mrs) = shr_m mrs / 2.
Proof.
  destruct mrs as [m r s]. cbn [shr_m]. intros Hm.
  destruct m as [|[p|p|]|p]; cbn [shr_1 shr_m]; try lia.
  - reflexivity.
  - apply Z.div_unique with (r := 1); lia.
  - apply Z.div_unique with (r := 0); lia.
  - reflexivity.
Qed.

Lemma iter_shr_1_m (n : positive) :
  forall mrs, 0 <= shr_m mrs ->
    shr_m (iter_pos shr_1 n mrs) = shr_m mrs / 2 ^ Zpos n.
Proof.
  induction n as [n IH|n IH|]; intros mrs Hm; cbn [iter_pos].
  - assert (H1 : 0 <= shr_m (shr_1 mrs)).
    { rewrite shr_1_m by assumption. apply Z.div_pos; lia. }
    assert (H2 : 0 <= shr_m (iter_pos shr_1 n (shr_1 mrs))).
    { rewrite IH by assumption. apply Z.div_pos; lia. }
    rewrite IH, IH, shr_1_m by assumption.
    rewrite !Z.div_div by lia. f_equal.
    replace (Zpos n~1) with (Zpos n + Zpos n + 1) by lia.
    rewrite !Z.pow_add_r by lia. ring.
  - assert (H2 : 0 <= shr_m (iter_pos shr_1 n mrs)).
    { rewrite IH by assumption. apply Z.div_pos; lia. }
    rewrite IH, IH by assumption.
    rewrite !Z.div_div by lia. f_equal.
    replace (Zpos n~0) with (Zpos n + Zpos n) by lia.
    rewrite !Z.pow_add_r by lia. ring.
  - rewrite shr_1_m by assumption. reflexivity.
Qed.

Lemma round_nearest_even_bounds (m : Z) (l : location) :
  m <= round_nearest_even m l <= m + 1.
Proof.
  destruct l as [|[| |]]; cbn [round_nearest_even]; try lia.
  destruct (Z.even m); lia.
Qed.

Lemma shr_fexp_by_digits (m : positive) (e : Z) (l : location) :
  -1074 <= Zpos (digits2_pos m) + e - 53 ->
  shr_fexp PyFloat.prec PyFloat.emax (Zpos m) e l
  = shr (shr_record_of_loc (Zpos m) l) e (Zpos (digits2_pos m) - 53).
Proof.
  intros Hmin. unfold shr_fexp, fexp, emin, PyFloat.prec, PyFloat.emax.
  cbn [Zdigits2]. f_equal. lia.
Qed.

(** A 53-bit mantissa with an exponent in range is a float as it is. *)
Lemma binary_round_aux_normal (m : positive) (e : Z) :
  Zpos (digits2_pos m) = 53 -> -1074 <= e <= 971 ->
  binary_round_aux PyFloat.prec PyFloat.emax false (Zpos m) e loc_Exact
  = S754_finite false m e.
Proof.
  intros Hd He. unfold binary_round_aux.
  rewrite shr_fexp_by_digits by lia. rewrite Hd. cbn [Z.sub Z.add Z.opp Z.pos_sub shr].
  simpl shr. cbn [shr_record_of_loc shr_m loc_of_shr_record round_nearest_even].
  rewrite shr_fexp_by_digits by lia. rewrite Hd. simpl shr.
  cbn [shr_record_of_loc shr_m].
  unfold PyFloat.prec, PyFloat.emax.
  destruct (Z.leb_spec e (1024 - 53)); [reflexivity|lia].
Qed.

(** The float of a positive integer below [2^52]: the integer itself,
    shifted to a 53-bit mantissa. *)
Lemma of_Z_small (p : positive) :
  Zpos (digits2_pos p) <= 52 ->
  exists m,
    PyFloat.of_Z (Zpos p) = S754_finite false m (Zpos (digits2_pos p) - 53)
    /\ Zpos m = Zpos p * 2 ^ (53 - Zpos (digits2_pos p))
    /\ Zpos (digits2_pos m) = 53.
Proof.
  intros Hd. pose proof (digits2_pos_bounds p) as [Hlo Hhi].
  unfold PyFloat.of_Z, binary_normalize, binary_round.
  assert (Hfexp : fexp PyFloat.prec PyFloat.emax (Zpos (digits2_pos p) + 0)
                  = Zpos (digits2_pos p) - 53)
    by (unfold fexp, emin, PyFloat.prec, PyFloat.emax; lia).
  rewrite Hfexp. clear Hfexp.
  assert (Hd1 : 1 <= Zpos (digits2_pos p)) by lia.
  remember (Zpos (digits2_pos p)) as d eqn:Hdef. clear Hdef.
  unfold shl_align.
  destruct (d - 53 - 0) as [|k|k] eqn:Hk; try lia.
  assert (Hshift : Zpos k = 53 - d) by lia.
  exists (Pos.iter xO p k).
  assert (Hm : Zpos (Pos.iter xO p k) = Zpos p * 2 ^ (53 - d)).
  { rewrite iter_xO, Hshift. reflexivity. }
  assert (Hdm : Zpos (digits2_pos (Pos.iter xO p k)) = 53).
  { apply digits2_pos_unique. rewrite Hm.
    replace (2 ^ (53 - 1)) with (2 ^ (d - 1) * 2 ^ (53 - d))
      by (rewrite <- Z.pow_add_r by lia; f_equal; lia).
    replace (2 ^ 53) with (2 ^ d * 2 ^ (53 - d))
      by (rewrite <- Z.pow_add_r by lia; f_equal; lia).
    assert (0 < 2 ^ (53 - d)) by (apply Z.pow_pos_nonneg; lia).
    split; [apply Z.mul_le_mono_nonneg_r; lia|apply Z.mul_lt_mono_pos_r; lia]. }
  split; [|split; [exact Hm|exact Hdm]].
  apply binary_round_aux_normal; [exact Hdm|lia].
Qed.

(** [int()] of a finite float with a negative exponent. *)
Lemma to_int_negative_exponent (m : positive) (e : Z) :
  e < 0 ->
  PyFloat.to_int (S754_finite false m e) = Some (Zpos m / 2 ^ (- e)).
Proof.
  intros He. destruct e as [|k|k]; try lia. reflexivity.
Qed.

(** Rounding a long mantissa to 53 bits and truncating the result to an
    integer: the outcome lies between the truncations of the shifted
    mantissa and of its successor. *)
Lemma to_int_rounded (M : positive) (E : Z) :
  54 <= Zpos (digits2_pos M) ->
  -1074 <= E + (Zpos (digits2_pos M) - 53) <= -2 ->
  exists t,
    PyFloat.to_int
      (binary_round_aux PyFloat.prec PyFloat.emax false (Zpos M) E loc_Exact)
    = Some t
    /\ Zpos M / 2 ^ (Zpos (digits2_pos M) - 53)
         / 2 ^ (- (E + (Zpos (digits2_pos M) - 53))) <= t
    /\ t <= (Zpos M / 2 ^ (Zpos (digits2_pos M) - 53) + 1)
              / 2 ^ (- (E + (Zpos (digits2_pos M) - 53))).
Proof.
  intros HD He. pose proof (digits2_pos_bounds M) as [Hlo Hhi].
  unfold binary_round_aux. rewrite shr_fexp_by_digits by lia.
  remember (Zpos (digits2_pos M)) as D eqn:HeqD. clear HeqD.
  destruct (D - 53) as [|n|n] eqn:Hn; try lia.
  cbn [shr shr_record_of_loc].
  set (mrs := iter_pos shr_1 n _).
  assert (Hq : shr_m mrs = Zpos M / 2 ^ Zpos n).
  { unfold mrs. rewrite iter_shr_1_m; [reflexivity|cbn; lia]. }
  assert (Hpow : 2 ^ Zpos n * 2 ^ 52 = 2 ^ (D - 1)).
  { rewrite <- Z.pow_add_r by lia. f_equal. lia. }
  assert (Hpow' : 2 ^ Zpos n * 2 ^ 53 = 2 ^ D).
  { rewrite <- Z.pow_add_r by lia. f_equal. lia. }
  assert (Hn0 : 0 < 2 ^ Zpos n) by (apply Z.pow_pos_nonneg; lia).
  assert (Hqlo : 2 ^ 52 <= shr_m mrs).
  { rewrite Hq. apply Z.div_le_lower_bound; lia. }
  assert (Hqhi : shr_m mrs < 2 ^ 53).
  { rewrite Hq. apply Z.div_lt_upper_bound; lia. }
  pose proof (round_nearest_even_bounds (shr_m mrs) (loc_of_shr_record mrs))
    as [Hrlo Hrhi].
  rewrite <- Hq.
  remember (round_nearest_even (shr_m mrs) (loc_of_shr_record mrs)) as m1.
  remember (shr_m mrs) as q. clear Heqm1 Heqq Hq mrs.
  remember (E + Zpos n) as e1.
  assert (He1 : 0 < 2 ^ (- e1)) by (apply Z.pow_pos_nonneg; lia).
  destruct m1 as [|m1|m1]; try lia.
  destruct (Z.ltb_spec (Zpos m1) (2 ^ 53)) as [Hnormal|Hcarry].
  - (* the rounded mantissa still has 53 bits *)
    assert (Hd1 : Zpos (digits2_pos m1) = 53)
      by (apply digits2_pos_unique; lia).
    rewrite shr_fexp_by_digits by lia. rewrite Hd1.
    cbn [Z.sub Z.add Z.opp Z.pos_sub]. simpl shr.
    cbn [shr_record_of_loc shr_m fst snd].
    destruct (Z.leb_spec e1 (PyFloat.emax - PyFloat.prec));
      [|unfold PyFloat.emax, PyFloat.prec in *; lia].
    rewrite to_int_negative_exponent by lia.
    eexists. split; [reflexivity|].
    split; apply Z.div_le_mono; lia.
  - (* the rounding carried into a 54th bit *)
    assert (Hm1 : Zpos m1 = 2 ^ 53) by lia.
    assert (Hd1 : Zpos (digits2_pos m1) = 54)
      by (apply digits2_pos_unique; rewrite Hm1; simpl; lia).
    rewrite shr_fexp_by_digits by lia. rewrite Hd1.
    assert (Hm1' : m1 = 9007199254740992%positive)
      by (apply Pos2Z.inj; rewrite Hm1; reflexivity).
    subst m1. simpl.
    destruct (Z.leb_spec (e1 + 1) 971); [|lia].
    rewrite to_int_negative_exponent by lia.
    eexists. split; [reflexivity|].
    assert (Hhalf : 2 ^ (- e1) = 2 * 2 ^ (- (e1 + 1))).
    { rewrite <- Z.pow_succ_r by lia. f_equal. lia. }
    assert (Heq : 4503599627370496 / 2 ^ (- (e1 + 1))
                  = 9007199254740992 / 2 ^ (- e1)).
    { rewrite Hhalf. change 9007199254740992 with (2 * 4503599627370496).
      rewrite Z.div_mul_cancel_l; [reflexivity| |lia].
      apply Z.pow_nonzero; lia. }
    rewrite Heq. change (2 ^ 53) with 9007199254740992 in *.
    split; apply Z.div_le_mono; lia.
Qed.

Lemma lit_115_100 :
  PyFloat.lit 115 100 = S754_finite false 5179139571476070 (-52).
Proof. vm_compute. reflexivity. Qed.

(** [int(w * 1.15)] for a width below [2^40]: the float product is within
    one unit of [23 * w / 20] and never above it. *)
Lemma int_of_scaled_width (w : Z) :
  1 <= w < 2 ^ 40 ->
  exists t,
    PyFloat.to_int (PyFloat.mul (PyFloat.of_Z w) (PyFloat.lit 115 100)) = Some t
    /\ 23 * w / 20 - 1 <= t <= 23 * w / 20.
Proof.
  intros [Hw1 Hw40]. destruct w as [|p|p]; try lia.
  pose proof (digits2_pos_bounds p) as [Hplo Hphi].
  assert (Hd40 : Zpos (digits2_pos p) <= 40).
  { destruct (Z.leb_spec (Zpos (digits2_pos p)) 40) as [|Hbig]; [assumption|].
    assert (2 ^ 40 <= 2 ^ (Zpos (digits2_pos p) - 1))
      by (apply Z.pow_le_mono_r; lia).
    lia. }
  destruct (of_Z_small p ltac:(lia)) as (m & Hof & Hm & Hdm).
  rewrite Hof, lit_115_100. unfold PyFloat.mul, SFmul. cbn [xorb].
  assert (Hd1 : 1 <= Zpos (digits2_pos p)) by lia.
  remember (Zpos (digits2_pos p)) as d eqn:Hd. clear Hd.
  pose proof (digits2_pos_bounds m) as [Hmlo Hmhi]. rewrite Hdm in Hmlo, Hmhi.
  change (2 ^ (53 - 1)) with 4503599627370496 in Hmlo.
  change (2 ^ 53) with 9007199254740992 in Hmhi.
  set (M := (m * 5179139571476070)%positive).
  assert (HM : Zpos M = Zpos m * 5179139571476070) by reflexivity.
  assert (HD : Zpos (digits2_pos M) = 105 \/ Zpos (digits2_pos M) = 106).
  { destruct (Z.ltb_spec (Zpos M) (2 ^ 105)).
    - left. apply digits2_pos_unique. split; [|assumption].
      change (2 ^ (105 - 1)) with (4503599627370496 * 4503599627370496). nia.
    - right. apply digits2_pos_unique. split; [assumption|].
      change (2 ^ 106) with (9007199254740992 * 9007199254740992). nia. }
  destruct (to_int_rounded M (d - 53 + -52) ltac:(lia) ltac:(lia))
    as (t & Ht & Htlo & Hthi).
  exists t. split; [exact Ht|].
  remember (Zpos (digits2_pos M)) as D eqn:HeqD. clear HeqD.
  replace (- (d - 53 + -52 + (D - 53))) with (158 - d - D) in * by lia.
  set (S := 2 ^ (53 - d)) in *.
  assert (HS13 : 2 ^ 13 <= S) by (apply Z.pow_le_mono_r; lia).
  assert (HS0 : 0 < S) by (apply Z.pow_pos_nonneg; lia).
  assert (Hn0 : 0 < 2 ^ (D - 53)) by (apply Z.pow_pos_nonneg; lia).
  assert (Hk0 : 0 < 2 ^ (158 - d - D)) by (apply Z.pow_pos_nonneg; lia).
  assert (Hnk : 2 ^ (D - 53) * 2 ^ (158 - d - D) = 4503599627370496 * S).
  { unfold S. change 4503599627370496 with (2 ^ 52).
    rewrite <- !Z.pow_add_r by lia. f_equal. lia. }
  assert (Hn53 : 2 ^ (D - 53) <= 2 ^ 53) by (apply Z.pow_le_mono_r; lia).
  change (2 ^ 53) with 9007199254740992 in Hn53.
  change (2 ^ 13) with 8192 in HS13.
  pose proof (Z.mul_div_le (23 * Zpos p) 20 ltac:(lia)) as HFlo.
  pose proof (Z.mul_succ_div_gt (23 * Zpos p) 20 ltac:(lia)) as HFhi.
  remember (23 * Zpos p / 20) as F eqn:HeqF. clear HeqF.
  change (2 ^ 40) with 1099511627776 in Hw40.
  split.
  - (* the truncated exact product is at least F - 1 *)
    eapply Z.le_trans; [|exact Htlo].
    rewrite Z.div_div by lia. rewrite Hnk, HM, Hm. fold S.
    replace (Zpos p * S * 5179139571476070)
      with (Zpos p * 5179139571476070 * S) by ring.
    rewrite Z.div_mul_cancel_r by lia.
    apply Z.div_le_lower_bound; lia.
  - (* the successor of the shifted mantissa does not reach F + 1 *)
    eapply Z.le_trans; [exact Hthi|].
    apply Z.lt_succ_r. apply Z.div_lt_upper_bound; [lia|].
    pose proof (Z.mul_div_le (Zpos M) (2 ^ (D - 53)) ltac:(lia)) as Hq.
    remember (Zpos M / 2 ^ (D - 53)) as q eqn:Heqq. clear Heqq.
    rewrite HM, Hm in Hq. fold S in Hq.
    remember (2 ^ (D - 53)) as A. remember (2 ^ (158 - d - D)) as B.
    set (X := 4503599627370496 * (F + 1) - Zpos p * 5179139571476070).
    assert (HX : 140737488355328 <= X) by (unfold X; lia).
    assert (HSX : 8192 * 140737488355328 <= S * X)
      by (apply Z.mul_le_mono_nonneg; lia).
    destruct (Z.lt_ge_cases (q + 1) (B * Z.succ F)) as [|Hge]; [assumption|].
    exfalso.
    assert (H1 : A * (B * Z.succ F) <= A * (q + 1))
      by (apply Z.mul_le_mono_nonneg_l; lia).
    replace (A * (B * Z.succ F)) with (4503599627370496 * S * (F + 1)) in H1
      by (rewrite Z.mul_assoc, Hnk; unfold Z.succ; ring).
    replace (S * X) with
      (4503599627370496 * S * (F + 1) - Zpos p * S * 5179139571476070) in HSX
      by (unfold X; ring).
    lia.
Qed.

(** ** The vertical-text scan *)

Lemma map_rotated_boxes_spec (W H angle : Z) (rotated_boxes : list WordBox) :
  thresholds_computable W H angle rotated_boxes ->
  forall mapped_boxes,
    exists kept,
      map_rotated_boxes true W H angle rotated_boxes mapped_boxes
      = Ok (mapped_boxes ++ kept)
      /\ forall mapped_box,
           In mapped_box kept
           <-> kept_as_vertical W H angle rotated_boxes mapped_box.
Proof.
  induction rotated_boxes as [|box rest IH]; intros Hcomp mapped_boxes;
    cbn [map_rotated_boxes].
  - exists []. rewrite app_nil_r. split; [reflexivity|].
    intros m. split; [intros []|intros (b & t & [] & _)].
  - assert (Hrest : thresholds_computable W H angle rest).
    { intros b m Hb. apply Hcomp. now right. }
    specialize (IH Hrest).
    assert (Hlater : forall m, kept_as_vertical W H angle rest m ->
                               kept_as_vertical W H angle (box :: rest) m).
    { intros m (b & t & Hb & Hrest'). exists b, t. split; [now right|exact Hrest']. }
    pose proof (Hcomp box) as Hbox. specialize (Hbox) with (1 := or_introl eq_refl).
    destruct box as [[[[[left_ top] width] height] text] conf].
    unfold map_box in Hbox at 1.
    assert (Hhead : forall m,
              kept_as_vertical W H angle
                ((left_, top, width, height, text, conf) :: rest) m ->
              (exists t,
                 _map_rotated_box_to_original left_ top width height text conf
                   W H angle = Some m
                 /\ vertical_threshold (width_of m) = Ok t
                 /\ t <= height_of m)
              \/ kept_as_vertical W H angle rest m).
    { intros m (b & t & [<-|Hb] & Hm & Ht & Hle).
      - left. exists t. repeat split; assumption.
      - right. exists b, t. repeat split; assumption. }
    destruct (_map_rotated_box_to_original left_ top width height text conf
                W H angle) as [mapped|] eqn:Hmap.
    + destruct (Hbox mapped eq_refl) as [threshold Hthreshold].
      destruct mapped as [[[[[ml mt] mw] mh] mtext] mconf].
      cbn [width_of] in Hthreshold. rewrite Hthreshold. cbn [bind].
      destruct (Z.ltb_spec mh threshold) as [Hbelow|Hreach].
      * destruct (IH mapped_boxes) as (kept & Hrun & Hkept).
        exists kept. split; [exact Hrun|]. intros m. rewrite Hkept. split.
        -- apply Hlater.
        -- intros Hm. destruct (Hhead m Hm) as [(t & [= <-] & Ht & Hle)|Hm'];
             [|exact Hm'].
           cbn [width_of height_of] in Ht, Hle. rewrite Hthreshold in Ht.
           injection Ht as <-. lia.
      * destruct (IH (mapped_boxes ++ [(ml, mt, mw, mh, mtext, mconf)]))
          as (kept & Hrun & Hkept).
        exists ((ml, mt, mw, mh, mtext, mconf) :: kept).
        split; [etransitivity; [exact Hrun|now rewrite <- app_assoc]|].
        intros m. simpl. rewrite Hkept. split.
        -- intros [<-|Hm]; [|now apply Hlater].
           exists (left_, top, width, height, text, conf), threshold.
           repeat split; [now left|exact Hmap|exact Hthreshold|exact Hreach].
        -- intros Hm. destruct (Hhead m Hm) as [(t & [= <-] & _)|Hm'];
             [now left|now right].
    + destruct (IH mapped_boxes) as (kept & Hrun & Hkept).
      exists kept. split; [exact Hrun|]. intros m. rewrite Hkept. split.
      * apply Hlater.
      * intros Hm. destruct (Hhead m Hm) as [(t & Habs & _)|Hm'];
          [discriminate|exact Hm'].
Qed.

(** When the loop returns, every threshold on its way was computed. *)
Lemma map_rotated_boxes_returns (W H angle : Z) (rotated_boxes : list WordBox) :
  forall mapped_boxes result,
    map_rotated_boxes true W H angle rotated_boxes mapped_boxes = Ok result ->
    thresholds_computable W H angle rotated_boxes.
Proof.
  induction rotated_boxes as [|box rest IH]; intros mapped_boxes result;
    cbn [map_rotated_boxes].
  - intros _ b m [].
  - destruct box as [[[[[left_ top] width] height] text] conf].
    destruct (_map_rotated_box_to_original left_ top width height text conf
                W H angle) as [mapped|] eqn:Hmap.
    + destruct mapped as [[[[[ml mt] mw] mh] mtext] mconf].
      destruct (vertical_threshold mw) as [threshold|e] eqn:Hthreshold;
        cbn [bind]; [|discriminate].
      intros Hrun b m [<-|Hb] Hm.
      * unfold map_box in Hm. rewrite Hmap in Hm. injection Hm as <-.
        exists threshold. exact Hthreshold.
      * destruct (mh <? threshold); eapply IH; eassumption.
    + intros Hrun b m [<-|Hb] Hm.
      * unfold map_box in Hm. rewrite Hmap in Hm. discriminate.
      * eapply IH; eassumption.
Qed.

(** The mapped width lies between 1 and the width of the image. *)
Lemma mapped_width_bounds (W H angle : Z) (box mapped_box : WordBox) :
  map_box W H angle box = Some mapped_box ->
  1 <= width_of mapped_box <= Z.max 1 W.
Proof.
  destruct box as [[[[[left_ top] width] height] text] conf].
  unfold map_box, _map_rotated_box_to_original.
  destruct (angle =? 90); [|destruct (angle =? 270); [|discriminate]];
    intros [= <-]; cbn [width_of]; lia.
Qed.

Lemma vertical_threshold_bounds (w : Z) :
  1 <= w < 2 ^ 40 ->
  exists threshold,
    vertical_threshold w = Ok threshold
    /\ 23 * w / 20 - 1 <= threshold <= 23 * w / 20.
Proof.
  intros Hw. destruct (int_of_scaled_width w Hw) as (t & Ht & Hbounds).
  exists t. split; [|exact Hbounds].
  unfold vertical_threshold, PyFloat.of_int.
  assert (Hrange : 2 ^ 40 < PyFloat.overflow_threshold)
    by (vm_compute; reflexivity).
  destruct (Z.leb_spec PyFloat.overflow_threshold (Z.abs w)); [lia|].
  cbn [lift bind]. unfold int_of_float.
  destruct (PyFloat.mul _ _); try discriminate; rewrite Ht; reflexivity.
Qed.

Lemma thresholds_computable_narrow (W H angle : Z)
    (rotated_boxes : list WordBox) :
  W < 2 ^ 40 -> thresholds_computable W H angle rotated_boxes.
Proof.
  intros HW box mapped _ Hmap.
  pose proof (mapped_width_bounds _ _ _ _ _ Hmap) as Hwidth.
  destruct (vertical_threshold_bounds (width_of mapped)) as (t & Ht & _).
  - change (2 ^ 40) with 1099511627776 in *. lia.
  - exists t. exact Ht.
Qed.

(** The threshold against the ratio, on widths below [2^40]: a mapped
    box at least 1.15 times as high as wide reaches the threshold, and a
    box that reaches the threshold is less than two pixels short of that
    height. *)
Lemma threshold_against_ratio (w h : Z) :
  1 <= w < 2 ^ 40 ->
  exists threshold,
    vertical_threshold w = Ok threshold
    /\ (115 * w <= 100 * h -> threshold <= h)
    /\ (threshold <= h -> 115 * w < 100 * h + 200).
Proof.
  intros Hw. destruct (vertical_threshold_bounds w Hw) as (t & Ht & Hlo & Hhi).
  exists t. split; [exact Ht|].
  pose proof (Z.mul_div_le (23 * w) 20 ltac:(lia)).
  pose proof (Z.mul_succ_div_gt (23 * w) 20 ltac:(lia)).
  split; lia.
Qed.

(** C7, as amended.  The vertical scan of a rotation by 90 or 270 degrees
    keeps a mapped box if and only if its mapped height is at least
    [int(mapped_width * 1.15)], the product of the mapped width and 1.15
    truncated to an integer.  On an image less than [2^40] pixels wide,
    where no conversion can overflow, the scan returns, it keeps every
    mapped box that is at least 1.15 times as high as wide, and every
    box it keeps is less than two pixels short of that height. *)
Theorem vertical_scan_keeps_boxes_reaching_threshold
    (W H angle : Z) (rotated_boxes : list WordBox) :
  angle = 90 \/ angle = 270 ->
  (forall kept,
     _extract_word_boxes_rotated (W, H) rotated_boxes angle true = Ok kept ->
     forall mapped_box,
       In mapped_box kept
       <-> kept_as_vertical W H angle rotated_boxes mapped_box)
  /\ (W < 2 ^ 40 ->
      exists kept,
        _extract_word_boxes_rotated (W, H) rotated_boxes angle true = Ok kept
        /\ (forall box mapped_box,
              In box rotated_boxes ->
              map_box W H angle box = Some mapped_box ->
              115 * width_of mapped_box <= 100 * height_of mapped_box ->
              In mapped_box kept)
        /\ (forall mapped_box,
              In mapped_box kept ->
              115 * width_of mapped_box
              < 100 * height_of mapped_box + 200)).
Proof.
  intros Hangle. unfold _extract_word_boxes_rotated.
  replace (negb ((angle =? 90) || (angle =? 270))) with false
    by (destruct Hangle as [-> | ->]; reflexivity).
  split.
  - intros kept Hrun.
    pose proof (map_rotated_boxes_returns _ _ _ _ _ _ Hrun) as Hcomp.
    destruct (map_rotated_boxes_spec W H angle rotated_boxes Hcomp [])
      as (kept' & Hrun' & Hkept).
    rewrite Hrun in Hrun'. injection Hrun' as ->. exact Hkept.
  - intros HW.
    destruct (map_rotated_boxes_spec W H angle rotated_boxes
                (thresholds_computable_narrow W H angle rotated_boxes HW) [])
      as (kept & Hrun & Hkept).
    assert (Hwidth : forall box mapped_box,
              map_box W H angle box = Some mapped_box ->
              1 <= width_of mapped_box < 2 ^ 40).
    { intros box mapped_box Hmap.
      pose proof (mapped_width_bounds _ _ _ _ _ Hmap) as Hbounds.
      change (2 ^ 40) with 1099511627776 in *. lia. }
    exists kept. split; [exact Hrun|]. split.
    + intros box mapped_box Hin Hmap Hratio. apply Hkept.
      destruct (threshold_against_ratio (width_of mapped_box)
                  (height_of mapped_box) (Hwidth box mapped_box Hmap))
        as (threshold & Hthreshold & Hreached & _).
      exists box, threshold. repeat split; try assumption.
      now apply Hreached.
    + intros mapped_box Hin. apply Hkept in Hin.
      destruct Hin as (box & reached & _ & Hmap & Hreached & Hheight).
      destruct (threshold_against_ratio (width_of mapped_box)
                  (height_of mapped_box) (Hwidth box mapped_box Hmap))
        as (threshold & Hthreshold & _ & Hshort).
      rewrite Hthreshold in Hreached. injection Hreached as ->.
      now apply Hshort.
Qed.

Lemma vertical_scan_keeps_boxes_reaching_threshold_witness :
  exists kept,
    _extract_word_boxes_rotated (200, 100) sample_rotated_boxes 90 true
    = Ok kept
    /\ (forall mapped_box,
          In mapped_box kept
          <-> kept_as_vertical 200 100 90 sample_rotated_boxes mapped_box)
    /\ (forall box mapped_box,
          In box sample_rotated_boxes ->
          map_box 200 100 90 box = Some mapped_box ->
          115 * width_of mapped_box <= 100 * height_of mapped_box ->
          In mapped_box kept)
    /\ (forall mapped_box,
          In mapped_box kept ->
          115 * width_of mapped_box < 100 * height_of mapped_box + 200).
Proof.
  destruct (vertical_scan_keeps_boxes_reaching_threshold
              200 100 90 sample_rotated_boxes) as [Hsound Hreturns].
  - left. reflexivity.
  - destruct Hreturns as (kept & Hkept & Hratio & Hshort).
    + reflexivity.
    + exists kept. split; [exact Hkept|]. split; [exact (Hsound kept Hkept)|].
      split; [exact Hratio|exact Hshort].
Defined.

(** The image of the second sample box is 10 wide and 11 high: less than
    1.15 times as high as wide, and kept all the same, because
    [int(10 * 1.15)] is 11. *)
Lemma vertical_scan_keeps_box_below_ratio :
  _extract_word_boxes_rotated (200, 100) sample_rotated_boxes 90 true
  = Ok [ (190, 0, 10, 11, cps "A", PyFloat.of_Z 50) ]
  /\ 100 * height_of (190, 0, 10, 11, cps "A", PyFloat.of_Z 50)
     < 115 * width_of (190, 0, 10, 11, cps "A", PyFloat.of_Z 50).
Proof. split; [vm_compute; reflexivity|simpl; lia]. Qed.

(** * Further properties *)

(** ** Rotation mapping: clamping *)

(** X1.  On an image of at least one pixel in each direction the mapping
    answers exactly for the angles 90 and 270, and whatever box it is
    given, inside the rotated frame or not, the box it returns lies
    inside the original image, is at least one pixel wide and high, and
    carries the text and the confidence of the given box. *)
Theorem mapped_box_inside_image (W H angle : Z) (box : WordBox) :
  1 <= W -> 1 <= H ->
  match map_box W H angle box with
  | Some mapped =>
      (angle = 90 \/ angle = 270)
      /\ inside_image W H mapped
      /\ text_of mapped = text_of box /\ conf_of mapped = conf_of box
  | None => angle <> 90 /\ angle <> 270
  end.
Proof.
  intros HW HH. destruct box as [[[[[left_ top] width] height] text] conf].
  unfold map_box, _map_rotated_box_to_original.
  destruct (Z.eqb_spec angle 90) as [->|H90].
  - cbn [inside_image text_of conf_of]. repeat split; try lia; now left.
  - destruct (Z.eqb_spec angle 270) as [->|H270].
    + cbn [inside_image text_of conf_of]. repeat split; try lia; now right.
    + split; assumption.
Qed.

Lemma mapped_box_inside_image_witness :
  match map_box 200 100 90 (150, 190, 80, 40, cps "EDGE", PyFloat.of_Z 60) with
  | Some mapped =>
      (90 = 90 \/ 90 = 270)
      /\ inside_image 200 100 mapped
      /\ text_of mapped
         = text_of (150, 190, 80, 40, cps "EDGE", PyFloat.of_Z 60)
      /\ conf_of mapped
         = conf_of (150, 190, 80, 40, cps "EDGE", PyFloat.of_Z 60)
  | None => 90 <> 90 /\ 90 <> 270
  end.
Proof.
  apply (mapped_box_inside_image 200 100 90
           (150, 190, 80, 40, cps "EDGE", PyFloat.of_Z 60)); lia.
Defined.

(** ** Selection score *)

Section SelectionFacts.

Variable isalnum : N -> bool.
Variable isdecimal : N -> bool.
Variable extract_text : Path -> str.

(** X2.  For the analysis of any candidate the selection score of drawing
    mode is at least that of standard mode, which is at least the plain
    score; the difference between the two modes is
    [45 * eng_token_count + 22 * numeric_token_count + 2 * token_count]. *)
Theorem drawing_selection_dominates (pdf_path : Path) :
  let analysis := _analyze_ocr_pdf isalnum isdecimal extract_text pdf_path in
  score analysis <= _candidate_selection_score analysis false
  /\ _candidate_selection_score analysis false
     <= _candidate_selection_score analysis true
  /\ _candidate_selection_score analysis true
     - _candidate_selection_score analysis false
     = 45 * eng_token_count analysis + 22 * numeric_token_count analysis
       + 2 * token_count analysis.
Proof.
  cbv zeta.
  pose proof (analyze_nonneg isalnum isdecimal extract_text pdf_path) as H.
  cbv zeta in H. unfold _candidate_selection_score. lia.
Qed.

End SelectionFacts.

(** ** Deduplication: what the result contains *)

Section DictMoreFacts.

Variables K V : Type.
Variable eqb : K -> K -> bool.
Hypothesis eqb_eq : forall a b, eqb a b = true <-> a = b.

Lemma dict_set_keeps_others (d : dict K V) (k : K) (v : V) (k' : K) (v' : V) :
  In (k', v') d -> k' <> k -> In (k', v') (dict_set eqb d k v).
Proof.
  induction d as [|[k0 v0] d IH]; simpl; [tauto|].
  intros [[= -> ->]|Hin] Hne.
  - destruct (eqb k k') eqn:E.
    + apply eqb_eq in E. congruence.
    + now left.
  - destruct (eqb k k0); right; [exact Hin|now apply IH].
Qed.

Lemma dict_set_stores (d : dict K V) (k : K) (v : V) :
  In (k, v) (dict_set eqb d k v).
Proof.
  induction d as [|[k0 v0] d IH]; simpl; [now left|].
  destruct (eqb k k0) eqn:E.
  - apply eqb_eq in E. subst. now left.
  - now right.
Qed.

Lemma dict_key_unique (d : dict K V) (k : K) (a b : V) :
  NoDup (List.map fst d) -> In (k, a) d -> In (k, b) d -> a = b.
Proof.
  induction d as [|[k0 v0] d IH]; simpl; [tauto|].
  intros Hnd. inversion Hnd as [|? ? Hout Hnd']; subst.
  intros [[= -> ->]|Ha] [[= <-]|Hb]; try reflexivity.
  - elim Hout. apply in_map_iff. now exists (k, b).
  - elim Hout. apply in_map_iff. now exists (k0, a).
  - now apply IH.
Qed.

End DictMoreFacts.

Lemma represents_step (done : list WordBox) (dedup : dict box_key WordBox)
    (box : WordBox) :
  well_keyed dedup -> represents done dedup ->
  represents (done ++ [box]) (dedupe_step dedup box).
Proof.
  intros [Hnd Hkeys] [Hfrom Hrep]. rewrite dedupe_step_by_key.
  assert (Hold : forall b, In b done -> In b (done ++ [box]))
    by (intros; apply in_or_app; now left).
  assert (Hnew : In box (done ++ [box]))
    by (apply in_or_app; right; now left).
  destruct (key_of box) as [key|] eqn:Hkey.
  - destruct (dict_get box_key_eqb dedup key) as [existing|] eqn:Hget.
    + pose proof (dict_get_Some _ _ _ box_key_eqb_eq _ _ _ Hget) as Hexisting.
      destruct (PyFloat.ltb (conf_of existing) (conf_of box)) eqn:Hless.
      * (* the box replaces the stored one *)
        split.
        -- intros k b Hin.
           destruct (dict_set_In _ _ _ box_key_eqb_eq _ _ _ _ _ Hin)
             as [[= -> ->]|Hin']; [exact Hnew|].
           apply Hold. eapply Hfrom, Hin'.
        -- intros b k Hb Hk. apply in_app_or in Hb.
           destruct Hb as [Hb|[<-|[]]].
           ++ destruct (Hrep b k Hb Hk) as (kept & Hkept & Hconf).
              destruct (box_key_eq_dec k key) as [->|Hne].
              ** exists box. split; [apply dict_set_stores, box_key_eqb_eq|].
                 assert (kept = existing)
                   by (eapply dict_key_unique; eassumption).
                 subst kept.
                 destruct (PyFloat.ltb (conf_of box) (conf_of b)) eqn:Hbelow;
                   [|reflexivity].
                 rewrite (float_ltb_trans _ _ _ Hless Hbelow) in Hconf.
                 discriminate.
              ** exists kept. split; [|exact Hconf].
                 apply dict_set_keeps_others;
                   [exact box_key_eqb_eq|exact Hkept|exact Hne].
           ++ assert (k = key) by congruence. subst k.
              exists box. split; [apply dict_set_stores, box_key_eqb_eq|].
              apply float_ltb_irrefl.
      * (* the stored box stays *)
        split.
        -- intros k b Hin. apply Hold. eapply Hfrom, Hin.
        -- intros b k Hb Hk. apply in_app_or in Hb.
           destruct Hb as [Hb|[<-|[]]]; [now apply Hrep|].
           assert (k = key) by congruence. subst k.
           exists existing. split; [exact Hexisting|exact Hless].
    + (* a new key *)
      pose proof (proj1 (dict_get_None _ _ _ box_key_eqb_eq _ _) Hget) as Hfresh.
      rewrite (dict_set_fresh _ _ _ box_key_eqb_eq _ _ _ Hfresh).
      split.
      * intros k b Hin. apply in_app_or in Hin.
        destruct Hin as [Hin|[[= <- <-]|[]]]; [|exact Hnew].
        apply Hold. eapply Hfrom, Hin.
      * intros b k Hb Hk. apply in_app_or in Hb.
        destruct Hb as [Hb|[<-|[]]].
        -- destruct (Hrep b k Hb Hk) as (kept & Hkept & Hconf).
           exists kept. split; [apply in_or_app; now left|exact Hconf].
        -- assert (k = key) by congruence. subst k.
           exists box. split; [apply in_or_app; right; now left|].
           apply float_ltb_irrefl.
  - (* a box without a key is skipped *)
    split.
    + intros k b Hin. apply Hold. eapply Hfrom, Hin.
    + intros b k Hb Hk. apply in_app_or in Hb.
      destruct Hb as [Hb|[<-|[]]]; [now apply Hrep|congruence].
Qed.

Lemma represents_fold (boxes : list WordBox) :
  forall done dedup,
    well_keyed dedup -> represents done dedup ->
    represents (done ++ boxes) (fold_left dedupe_step boxes dedup).
Proof.
  induction boxes as [|box boxes IH]; intros done dedup Hwf Hrep; simpl.
  - now rewrite app_nil_r.
  - replace (done ++ box :: boxes) with ((done ++ [box]) ++ boxes)
      by (now rewrite <- app_assoc).
    apply IH; [now apply well_keyed_step|now apply represents_step].
Qed.

Lemma dedupe_represents (boxes : list WordBox) :
  well_keyed (fold_left dedupe_step boxes [])
  /\ represents boxes (fold_left dedupe_step boxes []).
Proof.
  split; [apply well_keyed_fold, well_keyed_nil|].
  apply (represents_fold boxes [] []); [apply well_keyed_nil|].
  split; [intros ? ? []|intros ? ? []].
Qed.

Lemma dedupe_keys (boxes : list WordBox) :
  List.map key_of (_dedupe_word_boxes boxes)
  = List.map Some (List.map fst (fold_left dedupe_step boxes [])).
Proof.
  destruct (dedupe_represents boxes) as [[_ Hkeys] _].
  unfold _dedupe_word_boxes, dict_values.
  induction (fold_left dedupe_step boxes []) as [|[key box] d IH]; simpl.
  - reflexivity.
  - rewrite (Hkeys key box (or_introl eq_refl)). f_equal.
    apply IH. intros k b Hin. apply Hkeys. now right.
Qed.

(** X3.  The result of a deduplication consists of boxes of the input,
    each with a non-empty normalized text, and no two of them share the
    key (normalized text, left // 6, top // 6); so it is no longer than
    the input. *)
Theorem dedupe_result_distinct_input_boxes (boxes : list WordBox) :
  (forall box, In box (_dedupe_word_boxes boxes) ->
     In box boxes /\ key_of box <> None)
  /\ NoDup (List.map key_of (_dedupe_word_boxes boxes))
  /\ (List.length (_dedupe_word_boxes boxes) <= List.length boxes)%nat.
Proof.
  destruct (dedupe_represents boxes) as [[Hnd Hkeys] [Hfrom _]].
  assert (Hmember : forall box, In box (_dedupe_word_boxes boxes) ->
                      In box boxes /\ key_of box <> None).
  { intros box Hin. unfold _dedupe_word_boxes, dict_values in Hin.
    apply in_map_iff in Hin. destruct Hin as ([key b] & Heq & Hin).
    simpl in Heq. subst b. split; [eapply Hfrom, Hin|].
    rewrite (Hkeys key box Hin). discriminate. }
  assert (Hdistinct : NoDup (List.map key_of (_dedupe_word_boxes boxes))).
  { rewrite dedupe_keys.
    apply Finite.Injective_map_NoDup; [|exact Hnd]. intros a b [= ->].
    reflexivity. }
  split; [exact Hmember|]. split; [exact Hdistinct|].
  apply NoDup_incl_length.
  - eapply NoDup_map_inv, Hdistinct.
  - intros box Hin. apply Hmember, Hin.
Qed.

(** X4.  Every input box with a non-empty normalized text is represented
    in the result: the result has a box with the same key, and that box
    is not less confident than the input box. *)
Theorem dedupe_keeps_most_confident
    (boxes : list WordBox) (box : WordBox) (key : box_key) :
  In box boxes -> key_of box = Some key ->
  exists kept,
    In kept (_dedupe_word_boxes boxes)
    /\ key_of kept = Some key
    /\ PyFloat.ltb (conf_of kept) (conf_of box) = false.
Proof.
  intros Hin Hkey.
  destruct (dedupe_represents boxes) as [[_ Hkeys] [_ Hrep]].
  destruct (Hrep box key Hin Hkey) as (kept & Hkept & Hconf).
  exists kept. repeat split.
  - unfold _dedupe_word_boxes, dict_values. apply in_map_iff.
    now exists (key, kept).
  - now apply Hkeys.
  - exact Hconf.
Qed.

Lemma dedupe_keeps_most_confident_witness :
  exists kept,
    In kept (_dedupe_word_boxes sample_overlay_boxes)
    /\ key_of kept = Some (cps "TAG101", 1, 1)
    /\ PyFloat.ltb (conf_of kept)
         (conf_of (11, 10, 20, 10, cps "TAG-101", PyFloat.of_Z 80)) = false.
Proof.
  apply (dedupe_keeps_most_confident sample_overlay_boxes
           (11, 10, 20, 10, cps "TAG-101", PyFloat.of_Z 80)).
  - right. left. reflexivity.
  - reflexivity.
Defined.

(** ** Finding a free port *)

Section PortFacts.

Variable _is_port_free : string -> Z -> bool.

Lemma first_free_port_spec (host : string) (count : nat) :
  forall port,
    match first_free_port _is_port_free host port count with
    | Some found =>
        port <= found < port + Z.of_nat count
        /\ _is_port_free host found = true
        /\ forall q, port <= q < found -> _is_port_free host q = false
    | None =>
        forall q, port <= q < port + Z.of_nat count ->
                  _is_port_free host q = false
    end.
Proof.
  induction count as [|count IH]; intros port; cbn [first_free_port].
  - intros q Hq. lia.
  - destruct (_is_port_free host port) eqn:Hfree.
    + repeat split; try lia. exact Hfree.
    + specialize (IH (port + 1)).
      destruct (first_free_port _is_port_free host (port + 1) count)
        as [found|].
      * destruct IH as (Hrange & Hfound & Hbelow). repeat split; try lia.
        -- exact Hfound.
        -- intros q Hq. destruct (Z.eq_dec q port) as [->|Hne];
             [exact Hfree|apply Hbelow; lia].
      * intros q Hq. destruct (Z.eq_dec q port) as [->|Hne];
          [exact Hfree|apply IH; lia].
Qed.

(** X5.  [_find_free_port] returns the lowest free port of the range: the
    port is within the range and free, and every lower port of the range
    is busy.  It raises [RuntimeError] exactly when the range is valid
    and all its ports are busy, and [ValueError] exactly when a bound is
    outside 1..65535 or the range is empty. *)
Theorem find_free_port_lowest_free (host : string) (start_port end_port : Z) :
  match _find_free_port _is_port_free host start_port end_port with
  | Ok port =>
      1 <= start_port <= port /\ port <= end_port <= 65535
      /\ _is_port_free host port = true
      /\ forall q, start_port <= q < port -> _is_port_free host q = false
  | Raise RuntimeError =>
      1 <= start_port <= end_port /\ end_port <= 65535
      /\ forall q, start_port <= q <= end_port -> _is_port_free host q = false
  | Raise ValueError =>
      ~ (1 <= start_port <= 65535 /\ 1 <= end_port <= 65535
         /\ start_port <= end_port)
  | Raise _ => False
  end.
Proof.
  unfold _find_free_port.
  destruct (Z.leb_spec 1 start_port); cbn [andb negb]; [|lia].
  destruct (Z.leb_spec start_port 65535); cbn [negb]; [|lia].
  destruct (Z.leb_spec 1 end_port); cbn [andb negb]; [|lia].
  destruct (Z.leb_spec end_port 65535); cbn [negb]; [|lia].
  destruct (Z.ltb_spec end_port start_port); [lia|].
  pose proof (first_free_port_spec host
                (Z.to_nat (end_port + 1 - start_port)) start_port) as Hscan.
  destruct (first_free_port _ _ _ _) as [found|].
  - destruct Hscan as (Hrange & Hfound & Hbelow). repeat split; try lia.
    + exact Hfound.
    + exact Hbelow.
  - repeat split; try lia. intros q Hq. apply Hscan. lia.
Qed.

End PortFacts.

(** ** Escaping *)

Lemma read_escaped (text rest : str) :
  read_pdf_literal (_escape_pdf_text text ++ 41%N :: rest) = Some (text, rest).
Proof.
  unfold _escape_pdf_text, replace_char.
  induction text as [|c text IH].
  - reflexivity.
  - cbn [flat_map].
    destruct (N.eqb_spec c 92) as [->|H92].
    + cbn. cbn in IH. rewrite IH. reflexivity.
    + cbn [app flat_map]. destruct (N.eqb_spec c 40) as [->|H40].
      * cbn. cbn in IH. rewrite IH. reflexivity.
      * cbn [app flat_map]. destruct (N.eqb_spec c 41) as [->|H41].
        -- cbn. cbn in IH. rewrite IH. reflexivity.
        -- cbn [app read_pdf_literal].
           destruct (N.eqb_spec c 41); [contradiction|].
           destruct (N.eqb_spec c 92); [contradiction|].
           cbn in IH. rewrite IH. reflexivity.
Qed.

(** X6.  A text escaped by [_escape_pdf_text] and closed by a parenthesis
    reads back as the text itself, whatever backslashes and parentheses
    it holds, and the reader stops exactly at the closing parenthesis. *)
Theorem escape_pdf_text_reads_back (text rest : str) :
  read_pdf_literal (_escape_pdf_text text ++ cps ")" ++ rest)
  = Some (text, rest).
Proof. exact (read_escaped text rest). Qed.

(** ** Text operations of the overlay *)

Lemma float_ltb_leb (a b : PyFloat.float) :
  PyFloat.ltb a b = true -> PyFloat.leb a b = true.
Proof.
  unfold PyFloat.ltb, PyFloat.leb, SFltb, SFleb.
  destruct (SFcompare a b) as [[| |]|]; (discriminate || reflexivity).
Qed.

(** [max(lo, min(hi, x))] lies between [lo] and [hi] for every [x], a NaN
    or an infinity included. *)
Lemma clamp_between (lo hi x : PyFloat.float) :
  PyFloat.leb lo lo = true -> PyFloat.leb hi hi = true ->
  PyFloat.leb lo hi = true ->
  float_between lo hi (PyFloat.max lo (PyFloat.min hi x)).
Proof.
  intros Hlo Hhi Hlohi. unfold float_between, PyFloat.max, PyFloat.min.
  destruct (PyFloat.ltb x hi) eqn:Hx.
  - destruct (PyFloat.ltb lo x) eqn:Hl.
    + split; now apply float_ltb_leb.
    + split; assumption.
  - destruct (PyFloat.ltb lo hi) eqn:Hl; split; assumption.
Qed.

Lemma replace_char_length (src : N) (dst : str) (s : str) :
  dst <> [] -> (List.length s <= List.length (replace_char src dst s))%nat.
Proof.
  intros Hdst. unfold replace_char. induction s as [|c s IH]; simpl; [lia|].
  rewrite length_app. destruct (N.eqb c src); simpl; [|lia].
  destruct dst; [contradiction|simpl; lia].
Qed.

Lemma escape_pdf_text_length (text : str) :
  (List.length text <= List.length (_escape_pdf_text text))%nat.
Proof.
  unfold _escape_pdf_text.
  etransitivity; [|apply replace_char_length; discriminate].
  etransitivity; [|apply replace_char_length; discriminate].
  apply replace_char_length. discriminate.
Qed.

(** Encoding as ASCII and escaping can be done in either order: the
    characters that are escaped, and the backslash put before them, are
    ASCII. *)
Lemma encode_ascii_replace_char (src : N) (dst s : str) :
  (src <? 128)%N = true -> encode_ascii dst = dst ->
  encode_ascii (replace_char src dst s) = replace_char src dst (encode_ascii s).
Proof.
  intros Hsrc Hdst. unfold replace_char.
  induction s as [|c s IH]; cbn [flat_map]; [reflexivity|].
  unfold encode_ascii in *. rewrite filter_app, IH. cbn [filter].
  destruct (N.eqb_spec c src) as [->|Hne].
  - rewrite Hsrc, Hdst. cbn [flat_map]. now rewrite N.eqb_refl.
  - cbn [filter]. destruct (c <? 128)%N; [|reflexivity].
    cbn [flat_map app]. destruct (N.eqb_spec c src); [contradiction|].
    reflexivity.
Qed.

Lemma encode_ascii_escape (text : str) :
  encode_ascii (_escape_pdf_text text) = _escape_pdf_text (encode_ascii text).
Proof.
  unfold _escape_pdf_text.
  now rewrite !encode_ascii_replace_char.
Qed.

Lemma encode_ascii_same (text : str) :
  (forall c, In c text -> (c < 128)%N) -> encode_ascii text = text.
Proof.
  intros Hascii. unfold encode_ascii. induction text as [|c text IH];
    cbn [filter]; [reflexivity|].
  destruct (N.ltb_spec c 128) as [_|Hhigh].
  - f_equal. apply IH. intros c' Hin. apply Hascii. now right.
  - specialize (Hascii c (or_introl eq_refl)). lia.
Qed.

Lemma text_operation_spec (word : OverlayWord) (operation : option TextOperation) :
  text_operation word = Ok operation ->
  exists op,
    operation = Some op
    /\ op_text op = _escape_pdf_text (encode_ascii (line_of word) ++ cps " ")
    /\ float_between (PyFloat.of_Z 4) (PyFloat.of_Z 30) (op_font_size op)
    /\ float_between (PyFloat.of_Z 35) (PyFloat.of_Z 280)
         (op_horizontal_scale op).
Proof.
  destruct word as [[[[x y] box_width] box_height] text].
  unfold text_operation. cbn [line_of].
  pose proof (escape_pdf_text_length (text ++ cps " ")) as Hlen.
  rewrite length_app in Hlen.
  change (List.length (cps " ")) with 1%nat in Hlen.
  destruct (_escape_pdf_text (text ++ cps " ")) as [|c escaped] eqn:Hesc;
    [simpl in Hlen; lia|].
  destruct (int_times _ _) as [scaled|e]; cbn [bind]; [|discriminate].
  intros [= <-]. eexists. split; [reflexivity|].
  cbn [op_text op_font_size op_horizontal_scale].
  split.
  - change (if (c <? 128)%N then c :: encode_ascii escaped
            else encode_ascii escaped)
      with (encode_ascii (c :: escaped)).
    rewrite <- Hesc, encode_ascii_escape. f_equal.
    unfold encode_ascii. now rewrite filter_app.
  - split; apply clamp_between; reflexivity.
Qed.

(** X7.  Whenever the operations of an overlay stream are computed, there
    is one per word and in the order of the words; its text is what the
    ASCII encoding of the line leaves of the escaped word and the space
    after it, which is the escaped text of the ASCII characters of the
    word followed by a space, and the whole escaped word when the word
    is ASCII; its font size lies between 4 and 30 and its horizontal
    scale between 35 and 280, whatever the box measures are, infinite or
    NaN included. *)
Theorem stream_operations_clamped (words : list OverlayWord) :
  forall ops,
    stream_operations words = Ok ops ->
    List.map op_text ops
    = List.map (fun word =>
                  _escape_pdf_text (encode_ascii (line_of word) ++ cps " "))
               words
    /\ ((forall word c, In word words -> In c (line_of word) -> (c < 128)%N) ->
        List.map op_text ops
        = List.map (fun word => _escape_pdf_text (line_of word ++ cps " "))
                   words)
    /\ forall op, In op ops ->
         float_between (PyFloat.of_Z 4) (PyFloat.of_Z 30) (op_font_size op)
         /\ float_between (PyFloat.of_Z 35) (PyFloat.of_Z 280)
              (op_horizontal_scale op).
Proof.
  induction words as [|word words IH]; intros ops; cbn [stream_operations].
  - intros [= <-]. split; [reflexivity|]. split; [reflexivity|intros ? []].
  - destruct (text_operation word) as [operation|e] eqn:Hop;
      cbn [bind]; [|discriminate].
    destruct (text_operation_spec word operation Hop)
      as (op & -> & Htext & Hfont & Hscale).
    destruct (stream_operations words) as [later|e]; cbn [bind];
      [|discriminate].
    intros [= <-]. destruct (IH later eq_refl) as (Htexts & Hascii & Hlater).
    split; [|split].
    + cbn [List.map]. now rewrite Htext, Htexts.
    + intros Hwords. cbn [List.map]. rewrite Htext, Hascii.
      * rewrite encode_ascii_same; [reflexivity|].
        intros c Hc. apply (Hwords word c); [now left|exact Hc].
      * intros w c Hw Hc. apply (Hwords w c); [now right|exact Hc].
    + intros op' [<-|Hin]; [split; assumption|now apply Hlater].
Qed.

Lemma stream_operations_clamped_witness :
  exists ops,
    stream_operations
      [ (PyFloat.of_Z 20, PyFloat.of_Z 160, PyFloat.of_Z 40, PyFloat.of_Z 200,
         cps "TAG-101(A)");
        (PyFloat.of_Z 8, PyFloat.of_Z 8, S754_nan, S754_infinity false,
         [1058; 1045; 1043; 45; 49]%N) ] = Ok ops
    /\ List.map op_text ops = [ cps "TAG-101\(A\) "; cps "-1 " ]
    /\ forall op, In op ops ->
         float_between (PyFloat.of_Z 4) (PyFloat.of_Z 30) (op_font_size op)
         /\ float_between (PyFloat.of_Z 35) (PyFloat.of_Z 280)
              (op_horizontal_scale op).
Proof.
  eexists. split; [vm_compute; reflexivity|].
  split; [vm_compute; reflexivity|].
  apply (stream_operations_clamped
           [ (PyFloat.of_Z 20, PyFloat.of_Z 160, PyFloat.of_Z 40,
              PyFloat.of_Z 200, cps "TAG-101(A)");
             (PyFloat.of_Z 8, PyFloat.of_Z 8, S754_nan, S754_infinity false,
              [1058; 1045; 1043; 45; 49]%N) ]).
  vm_compute. reflexivity.
Defined.

(** ** Word detection *)

Section WordDetectionFacts.

Variable isspace : N -> bool.
Variable parse_float : str -> option PyFloat.float.
Variable parse_int : str -> option Z.

Lemma word_of_line_spec (min_conf : PyFloat.float) (line : str) (box : WordBox) :
  word_of_line isspace parse_float parse_int min_conf line = Some box ->
  1 <= width_of box /\ 1 <= height_of box /\ text_of box <> []
  /\ PyFloat.ltb (conf_of box) min_conf = false.
Proof.
  unfold word_of_line.
  destruct (_ <? 12)%nat; [discriminate|].
  destruct (strip isspace _) as [|c text]; [discriminate|].
  destruct (parse_float _) as [conf|]; [|discriminate].
  destruct (parse_int _) as [left_|]; [|discriminate].
  destruct (parse_int _) as [top|]; [|discriminate].
  destruct (parse_int _) as [width|]; [|discriminate].
  destruct (parse_int _) as [height|]; [|discriminate].
  destruct (PyFloat.ltb conf min_conf) eqn:Hconf; [discriminate|].
  destruct (Z.leb_spec width 0); [discriminate|].
  destruct (Z.leb_spec height 0); [discriminate|].
  intros [= <-]. cbn [width_of height_of text_of conf_of].
  repeat split; try lia; [discriminate|exact Hconf].
Qed.

(** X8.  Every box that [_extract_word_boxes] returns has a width and a
    height of at least one pixel, a text that is not empty, and a
    confidence that is not below [min_conf]; there is at most one box per
    line after the header, hence none when the detector prints the header
    alone or nothing. *)
Theorem extract_word_boxes_well_formed
    (lines : list str) (min_conf : PyFloat.float) :
  let boxes := _extract_word_boxes isspace parse_float parse_int lines min_conf in
  (forall box, In box boxes ->
     1 <= width_of box /\ 1 <= height_of box /\ text_of box <> []
     /\ PyFloat.ltb (conf_of box) min_conf = false)
  /\ (List.length boxes <= List.length lines - 1)%nat.
Proof.
  cbv zeta. unfold _extract_word_boxes.
  destruct (Nat.leb_spec (List.length lines) 1) as [Hshort|Hlong].
  - split; [intros ? []|simpl; lia].
  - split.
    + intros box Hin. apply in_flat_map in Hin.
      destruct Hin as (line & _ & Hin).
      destruct (word_of_line _ _ _ _ line) as [b|] eqn:Hline; [|destruct Hin].
      destruct Hin as [<-|[]]. eapply word_of_line_spec, Hline.
    + destruct lines as [|header rest]; [simpl in Hlong; lia|].
      cbn [tl List.length]. rewrite Nat.sub_succ, Nat.sub_0_r.
      clear Hlong. induction rest as [|line rest IH]; simpl; [lia|].
      rewrite length_app.
      destruct (word_of_line _ _ _ _ line); simpl; lia.
Qed.

End WordDetectionFacts.

(** ** Tiles *)

Lemma tile_at_inside (width height step_x step_y overlap_x overlap_y
                      shift_x shift_y row col : Z) (tile : Tile) :
  tile_at width height step_x step_y overlap_x overlap_y shift_x shift_y
    row col = Some tile ->
  tile_inside width height tile.
Proof.
  unfold tile_at.
  destruct (Z.ltb_spec (Z.min width (shift_x + (col + 1) * step_x + overlap_x)
                        - Z.max 0 (shift_x + col * step_x - overlap_x)) 8);
    [discriminate|].
  destruct (Z.ltb_spec (Z.min height (shift_y + (row + 1) * step_y + overlap_y)
                        - Z.max 0 (shift_y + row * step_y - overlap_y)) 8);
    [discriminate|].
  intros [= <-]. unfold tile_inside. lia.
Qed.

Lemma range_length (n : Z) : List.length (range n) = Z.to_nat n.
Proof. unfold range. now rewrite length_map, length_seq. Qed.

Lemma flat_map_length_le {A B : Type} (f : A -> list B) (bound : nat)
    (l : list A) :
  (forall a, List.length (f a) <= bound)%nat ->
  (List.length (flat_map f l) <= List.length l * bound)%nat.
Proof.
  intros Hf. induction l as [|a l IH]; simpl; [lia|].
  rewrite length_app. specialize (Hf a). lia.
Qed.

(** What [_build_tiles] does, for every outcome. *)
Lemma build_tiles_outcome (width height rows cols : Z)
    (overlap_ratio offset_x_frac offset_y_frac : PyFloat.float) :
  match _build_tiles width height rows cols
          overlap_ratio offset_x_frac offset_y_frac with
  | Return tiles =>
      rows <> 0 /\ cols <> 0
      /\ (forall tile, In tile tiles -> tile_inside width height tile)
      /\ (List.length tiles <= Z.to_nat rows * Z.to_nat cols)%nat
  | Fail ZeroDivisionError => rows = 0 \/ cols = 0
  | Fail (Builtin _) => rows <> 0 /\ cols <> 0
  end.
Proof.
  unfold _build_tiles, floordiv.
  destruct (Z.eqb_spec cols 0) as [->|Hcols]; cbn [and_then]; [now right|].
  destruct (Z.eqb_spec rows 0) as [->|Hrows]; cbn [and_then]; [now left|].
  destruct (int_scaled _ overlap_ratio) as [scaled_x|e];
    cbn [of_result and_then]; [|now split].
  destruct (int_scaled _ overlap_ratio) as [scaled_y|e];
    cbn [of_result and_then]; [|now split].
  destruct (int_scaled _ offset_x_frac) as [shift_x|e];
    cbn [of_result and_then]; [|now split].
  destruct (int_scaled _ offset_y_frac) as [shift_y|e];
    cbn [of_result and_then]; [|now split].
  repeat split; try assumption.
  - intros tile Hin. apply in_flat_map in Hin. destruct Hin as (row & _ & Hin).
    apply in_flat_map in Hin. destruct Hin as (col & _ & Hin).
    destruct (tile_at _ _ _ _ _ _ _ _ row col) as [t|] eqn:Htile;
      [|destruct Hin].
    destruct Hin as [<-|[]]. eapply tile_at_inside, Htile.
  - rewrite <- (range_length rows), <- (range_length cols).
    apply flat_map_length_le. intros row.
    rewrite <- (Nat.mul_1_r (List.length (range cols))).
    apply flat_map_length_le. intros col.
    destruct (tile_at _ _ _ _ _ _ _ _ row col); simpl; lia.
Qed.

(** X9.  Every tile that [_build_tiles] returns lies inside the image and
    is at least 8 pixels wide and high, whatever the overlap ratio and
    the offsets are; there are at most [rows * cols] tiles; and the call
    raises [ZeroDivisionError] for no rows or no columns. *)
Theorem build_tiles_inside_image (width height rows cols : Z)
    (overlap_ratio offset_x_frac offset_y_frac : PyFloat.float) :
  match _build_tiles width height rows cols
          overlap_ratio offset_x_frac offset_y_frac with
  | Return tiles =>
      rows <> 0 /\ cols <> 0
      /\ (forall tile, In tile tiles -> tile_inside width height tile)
      /\ (List.length tiles <= Z.to_nat rows * Z.to_nat cols)%nat
  | Fail ZeroDivisionError => rows = 0 \/ cols = 0
  | Fail (Builtin _) => rows <> 0 /\ cols <> 0
  end.
Proof.
  apply build_tiles_outcome.
Qed.

Section TiledFacts.

Variable detect_in_tile : Tile -> result (list WordBox).

Lemma merge_tiles_members (tiles : list Tile) :
  forall merged tile,
    In tile (merge_tiles tiles merged) -> In tile merged \/ In tile tiles.
Proof.
  induction tiles as [|t tiles IH]; intros merged tile; cbn [merge_tiles].
  - now left.
  - destruct (existsb (tile_eqb t) merged); intros Hin;
      destruct (IH _ _ Hin) as [Hm|Ht].
    + now left.
    + right. now right.
    + apply in_app_or in Hm. destruct Hm as [Hm|[<-|[]]];
        [now left|right; now left].
    + right. now right.
Qed.

Lemma shift_box_inside (width height : Z) (tile : Tile) (box : WordBox) :
  tile_inside width height tile ->
  (let '(left_, top, right_, bottom) := tile in
   inside_image (right_ - left_) (bottom - top) box) ->
  inside_image width height (shift_box tile box).
Proof.
  destruct tile as [[[left_ top] right_] bottom].
  destruct box as [[[[[box_left box_top] bw] bh] text] conf].
  unfold tile_inside, inside_image, shift_box. lia.
Qed.

Lemma scan_tiles_inside (width height : Z) (merged_tiles : list Tile) :
  detects_inside_crop detect_in_tile ->
  Forall (tile_inside width height) merged_tiles ->
  forall boxes result,
    Forall (inside_image width height) boxes ->
    scan_tiles detect_in_tile merged_tiles boxes = Return result ->
    Forall (inside_image width height) result.
Proof.
  intros Hdetect Htiles. induction Htiles as [|tile rest Htile _ IH];
    intros boxes result Hboxes; cbn [scan_tiles].
  - now intros [= <-].
  - destruct (detect_in_tile tile) as [tile_boxes|e] eqn:Hfound;
      cbn [of_result and_then]; [|discriminate].
    apply IH. apply Forall_app. split; [exact Hboxes|].
    apply Forall_forall. intros shifted Hin. apply in_map_iff in Hin.
    destruct Hin as (box & <- & Hin).
    apply shift_box_inside; [exact Htile|].
    exact (Hdetect tile tile_boxes box Hfound Hin).
Qed.

(** X10.  When the detector finds its boxes inside the crop it is given,
    every box that the tiled scan returns, moved by the origin of its
    tile, lies inside the image. *)
Theorem tiled_boxes_inside_image (width height : Z) (dense : bool)
    (boxes : list WordBox) :
  detects_inside_crop detect_in_tile ->
  _extract_word_boxes_tiled detect_in_tile (width, height) dense
  = Return boxes ->
  forall box, In box boxes -> inside_image width height box.
Proof.
  intros Hdetect. unfold _extract_word_boxes_tiled.
  pose proof (build_tiles_outcome width height 3 3 default_overlap_ratio
                (PyFloat.of_Z 0) (PyFloat.of_Z 0)) as Hcoarse.
  destruct (_build_tiles width height 3 3 _ _ _) as [coarse|e];
    cbn [and_then]; [|discriminate].
  destruct Hcoarse as (_ & _ & Hcoarse & _).
  assert (Hsets : forall tile_sets,
            (forall tile, In tile (List.concat tile_sets) ->
                          tile_inside width height tile) ->
            scan_tiles detect_in_tile (merge_tiles (List.concat tile_sets) []) []
            = Return boxes ->
            forall box, In box boxes -> inside_image width height box).
  { intros tile_sets Hall Hscan. apply Forall_forall.
    eapply scan_tiles_inside; [exact Hdetect| |constructor|exact Hscan].
    apply Forall_forall. intros tile Hin.
    destruct (merge_tiles_members _ _ _ Hin) as [[]|Hin']. now apply Hall. }
  destruct dense.
  - pose proof (build_tiles_outcome width height 4 4 default_overlap_ratio
                  (PyFloat.of_Z 0) (PyFloat.of_Z 0)) as Hfine.
    destruct (_build_tiles width height 4 4 _ (PyFloat.of_Z 0) _) as [fine|e];
      cbn [and_then]; [|discriminate].
    destruct Hfine as (_ & _ & Hfine & _).
    pose proof (build_tiles_outcome width height 4 4 default_overlap_ratio
                  (PyFloat.lit 5 10) (PyFloat.lit 5 10)) as Hshifted.
    destruct (_build_tiles width height 4 4 _ (PyFloat.lit 5 10) _)
      as [shifted|e]; cbn [and_then]; [|discriminate].
    destruct Hshifted as (_ & _ & Hshifted & _).
    apply Hsets. intros tile Hin. cbn [List.concat] in Hin.
    rewrite app_nil_r in Hin.
    apply in_app_or in Hin. destruct Hin as [Hin|Hin]; [now apply Hcoarse|].
    apply in_app_or in Hin. destruct Hin as [Hin|Hin];
      [now apply Hfine|now apply Hshifted].
  - cbn [and_then]. apply Hsets. intros tile Hin. cbn [List.concat] in Hin.
    rewrite app_nil_r in Hin. now apply Hcoarse.
Qed.

End TiledFacts.

Lemma sample_detects_inside_crop : detects_inside_crop sample_detect_in_tile.
Proof.
  intros [[[left_ top] right_] bottom] boxes box Hfound Hin.
  unfold sample_detect_in_tile in Hfound.
  destruct (Z.leb_spec 2 (right_ - left_)), (Z.leb_spec 2 (bottom - top));
    cbn [andb] in Hfound; injection Hfound as <-; simpl in Hin;
    try contradiction.
  destruct Hin as [<-|[]]. unfold inside_image. lia.
Qed.

Lemma tiled_boxes_inside_image_witness :
  exists boxes,
    _extract_word_boxes_tiled sample_detect_in_tile (100, 60) true
    = Return boxes
    /\ forall box, In box boxes -> inside_image 100 60 box.
Proof.
  eexists. split; [vm_compute; reflexivity|].
  apply (tiled_boxes_inside_image sample_detect_in_tile 100 60 true).
  - exact sample_detects_inside_crop.
  - vm_compute. reflexivity.
Defined.

(** ** Plain-text rescue lines *)

Lemma firstn_members {A : Type} (n : nat) (l : list A) (a : A) :
  In a (firstn n l) -> In a l.
Proof.
  revert l. induction n as [|n IH]; intros [|x l]; simpl; try tauto.
  intros [->|Hin]; [now left|right; now apply IH].
Qed.

Section RescueLineFacts.

Variable isspace : N -> bool.
Variable upper : str -> str.

(** X11.  A normalized rescue line has at most 120 characters, all of
    them of [A-Z0-9./:%()\- +], whatever the raw line and whatever the
    upper-case and whitespace tables are. *)
Theorem normalize_rescue_line_shape (raw_line : str) :
  (List.length (_normalize_rescue_line isspace upper raw_line) <= 120)%nat
  /\ forall c, In c (_normalize_rescue_line isspace upper raw_line) ->
               rescue_char c = true.
Proof.
  unfold _normalize_rescue_line.
  destruct (_ <? 4)%nat; [split; [simpl; lia|intros ? []]|].
  destruct (negb _); [split; [simpl; lia|intros ? []]|].
  split.
  - rewrite length_firstn. lia.
  - intros c Hin. apply firstn_members in Hin.
    apply filter_In in Hin. tauto.
Qed.

Lemma existsb_str_eqb (key : str) (seen : list str) :
  existsb (str_eqb key) seen = true <-> In key seen.
Proof.
  rewrite existsb_exists. split.
  - intros (k & Hin & Heq). apply str_eqb_eq in Heq. now subst.
  - intros Hin. exists key. split; [exact Hin|now apply str_eqb_eq].
Qed.

Lemma dedupe_rescue_loop_spec (limit : Z) (lines : list str) :
  forall deduped seen,
    seen_agrees upper deduped seen ->
    NoDup (List.map (rescue_key upper) deduped) ->
    exists added,
      dedupe_rescue_loop upper lines limit deduped seen = deduped ++ added
      /\ (forall line, In line added ->
            In line lines /\ (4 <= List.length (rescue_key upper line))%nat)
      /\ NoDup (List.map (rescue_key upper) (deduped ++ added))
      /\ Z.of_nat (List.length (deduped ++ added))
         <= Z.max limit (Z.of_nat (List.length deduped) + 1)
      /\ (limit <= Z.of_nat (List.length (deduped ++ added))
          \/ forall line, In line lines ->
               (4 <= List.length (rescue_key upper line))%nat ->
               In (rescue_key upper line)
                  (List.map (rescue_key upper) (deduped ++ added)))
      /\ (forall i line,
            nth_error lines i = Some line ->
            Z.of_nat (List.length deduped) + Z.of_nat i < limit ->
            (4 <= List.length (rescue_key upper line))%nat ->
            In (rescue_key upper line)
               (List.map (rescue_key upper) (deduped ++ added))).
Proof.
  induction lines as [|line rest IH]; intros deduped seen Hseen Hnd;
    cbn [dedupe_rescue_loop].
  - exists []. rewrite app_nil_r.
    split; [reflexivity|]. split; [intros ? []|]. split; [exact Hnd|].
    split; [lia|]. split; [right; intros ? []|].
    intros [|i] l Hnth; discriminate.
  - assert (Hpass :
      (forall key, key = rescue_key upper line ->
         (List.length key < 4)%nat
         \/ In key (List.map (rescue_key upper) deduped)) ->
      exists added,
        dedupe_rescue_loop upper rest limit deduped seen = deduped ++ added
        /\ (forall l, In l added ->
              In l (line :: rest)
              /\ (4 <= List.length (rescue_key upper l))%nat)
        /\ NoDup (List.map (rescue_key upper) (deduped ++ added))
        /\ Z.of_nat (List.length (deduped ++ added))
           <= Z.max limit (Z.of_nat (List.length deduped) + 1)
        /\ (limit <= Z.of_nat (List.length (deduped ++ added))
            \/ forall l, In l (line :: rest) ->
                 (4 <= List.length (rescue_key upper l))%nat ->
                 In (rescue_key upper l)
                    (List.map (rescue_key upper) (deduped ++ added)))
        /\ (forall i l,
              nth_error (line :: rest) i = Some l ->
              Z.of_nat (List.length deduped) + Z.of_nat i < limit ->
              (4 <= List.length (rescue_key upper l))%nat ->
              In (rescue_key upper l)
                 (List.map (rescue_key upper) (deduped ++ added)))).
    { intros Hline.
      destruct (IH deduped seen Hseen Hnd)
        as (added & Heq & Hfrom & Hnd' & Hbound & Hall & Hpos).
      assert (Hhead : (4 <= List.length (rescue_key upper line))%nat ->
                      In (rescue_key upper line)
                         (List.map (rescue_key upper) (deduped ++ added))).
      { intros Hlong. destruct (Hline _ eq_refl) as [Hshort|Hin]; [lia|].
        rewrite map_app. apply in_or_app. now left. }
      exists added. repeat split; try assumption.
      - right. now apply Hfrom.
      - now apply Hfrom.
      - destruct Hall as [Hfull|Hall]; [now left|right].
        intros l [<-|Hin] Hlong; [now apply Hhead|now apply Hall].
      - intros [|i] l Hnth Hi Hlong.
        + injection Hnth as <-. now apply Hhead.
        + apply (Hpos i l Hnth); [lia|exact Hlong]. }
    destruct (Nat.ltb_spec (List.length (rescue_key upper line)) 4)
      as [Hshort|Hlong].
    { apply Hpass. intros key ->. now left. }
    destruct (existsb (str_eqb (rescue_key upper line)) seen) eqn:Hseenb.
    { apply Hpass. intros key ->. right.
      apply Hseen, existsb_str_eqb, Hseenb. }
    assert (Hnew : ~ In (rescue_key upper line)
                        (List.map (rescue_key upper) deduped)).
    { intros Hin. apply Hseen, existsb_str_eqb in Hin. congruence. }
    assert (Hnd1 : NoDup (List.map (rescue_key upper) (deduped ++ [line]))).
    { rewrite map_app. simpl. apply NoDup_app; [exact Hnd| |].
      - constructor; [intros []|constructor].
      - intros k Hk [<-|[]]. contradiction. }
    assert (Hlen1 : List.length (deduped ++ [line])
                    = S (List.length deduped))
      by (rewrite length_app; simpl; lia).
    destruct (Z.leb_spec limit (Z.of_nat (List.length (deduped ++ [line]))))
      as [Hfull|Hroom].
    + (* the limit is reached *)
      exists [line]. repeat split; try assumption.
      * destruct H as [<-|[]]. now left.
      * destruct H as [<-|[]]. exact Hlong.
      * rewrite Hlen1. lia.
      * now left.
      * intros [|i] l Hnth Hi Hl.
        -- injection Hnth as <-. rewrite map_app. apply in_or_app.
           right. now left.
        -- rewrite Hlen1 in Hfull. lia.
    + (* the loop goes on *)
      assert (Hseen1 : seen_agrees upper (deduped ++ [line])
                         (rescue_key upper line :: seen)).
      { intros key. rewrite map_app. simpl. rewrite in_app_iff. simpl.
        rewrite (Hseen key). tauto. }
      destruct (IH _ _ Hseen1 Hnd1)
        as (added & Heq & Hfrom & Hnd' & Hbound & Hall & Hpos).
      exists (line :: added).
      replace (deduped ++ line :: added) with ((deduped ++ [line]) ++ added)
        by (now rewrite <- app_assoc).
      assert (Hhead : In (rescue_key upper line)
                         (List.map (rescue_key upper)
                            ((deduped ++ [line]) ++ added))).
      { rewrite !map_app. apply in_or_app. left. apply in_or_app.
        right. now left. }
      repeat split; try assumption.
      * destruct H as [<-|Hin]; [now left|right; now apply Hfrom].
      * destruct H as [<-|Hin]; [exact Hlong|now apply Hfrom].
      * rewrite Hlen1 in Hbound, Hroom. lia.
      * destruct Hall as [Hfull|Hall]; [now left|right].
        intros l [<-|Hin] Hl; [exact Hhead|now apply Hall].
      * intros [|i] l Hnth Hi Hl.
        -- injection Hnth as <-. exact Hhead.
        -- apply (Hpos i l Hnth); [rewrite Hlen1; lia|exact Hl].
Qed.

(** X12.  The lines that [_dedupe_rescue_lines] returns are lines of the
    input whose key, the upper-case letters and digits of the line, has
    at least four characters; no two of them have the same key; there
    are at most [limit] of them, or one when [limit] is less than one.
    A line is left out for a short key or for a key that is already
    there, and otherwise only once [limit] lines are returned: the first
    [limit] lines of the input are never cut off. *)
Theorem dedupe_rescue_lines_spec (lines : list str) (limit : Z) :
  let kept := _dedupe_rescue_lines upper lines limit in
  let keys := List.map (rescue_key upper) kept in
  (forall line, In line kept ->
     In line lines /\ (4 <= List.length (rescue_key upper line))%nat)
  /\ NoDup keys
  /\ Z.of_nat (List.length kept) <= Z.max limit 1
  /\ (limit <= Z.of_nat (List.length kept)
      \/ forall line, In line lines ->
           (4 <= List.length (rescue_key upper line))%nat ->
           In (rescue_key upper line) keys)
  /\ (forall i line,
        nth_error lines i = Some line -> Z.of_nat i < limit ->
        (4 <= List.length (rescue_key upper line))%nat ->
        In (rescue_key upper line) keys).
Proof.
  cbv zeta. unfold _dedupe_rescue_lines.
  destruct (dedupe_rescue_loop_spec limit lines [] [])
    as (added & Heq & Hfrom & Hnd & Hbound & Hall & Hpos).
  - intros key. simpl. tauto.
  - constructor.
  - rewrite Heq. cbn [app] in *.
    split; [exact Hfrom|]. split; [exact Hnd|].
    split; [simpl in Hbound; lia|]. split; [exact Hall|].
    intros i line Hnth Hi Hlong. apply (Hpos i line Hnth); [simpl; lia|exact Hlong].
Qed.

End RescueLineFacts.

(** ** The plain-text rescue scan *)

Lemma all_rescue_chars_literal (line : str) :
  forallb rescue_char line = true -> all_rescue_chars line.
Proof. intros H c Hc. exact (proj1 (forallb_forall _ _) H c Hc). Qed.

Lemma replace_from_chars (P : N -> Prop) (src dst : str) (s : str) :
  (forall c, In c dst -> P c) ->
  forall skip,
    (forall c, In c s -> P c) ->
    forall c, In c (replace_from src dst s skip) -> P c.
Proof.
  intros Hdst. induction s as [|x s IH]; intros skip Hs c; cbn [replace_from].
  - intros [].
  - assert (Hrest : forall c', In c' s -> P c') by (intros; apply Hs; now right).
    destruct skip as [|n]; [|intros Hin; exact (IH _ Hrest _ Hin)].
    destruct (starts_with src (x :: s)).
    + intros Hin. apply in_app_or in Hin.
      destruct Hin as [Hin|Hin]; [now apply Hdst|exact (IH _ Hrest _ Hin)].
    + intros [<-|Hin]; [apply Hs; now left|exact (IH _ Hrest _ Hin)].
Qed.

Lemma str_replace_chars (P : N -> Prop) (src dst s : str) :
  (forall c, In c dst -> P c) -> (forall c, In c s -> P c) ->
  forall c, In c (str_replace src dst s) -> P c.
Proof.
  intros Hdst Hs c. unfold str_replace. destruct src as [|x src].
  - intros Hin. apply in_app_or in Hin. destruct Hin as [Hin|Hin];
      [now apply Hdst|].
    apply in_flat_map in Hin. destruct Hin as (y & Hy & [<-|Hin]);
      [now apply Hs|now apply Hdst].
  - now apply replace_from_chars.
Qed.

Lemma corrected_line_chars (line : str) :
  all_rescue_chars line -> all_rescue_chars (corrected_line line).
Proof.
  unfold corrected_line.
  assert (Htable : forallb (fun '(_, replacement) =>
                              forallb rescue_char (cps replacement))
                     _RESCUE_PHRASE_REPLACEMENTS = true)
    by (vm_compute; reflexivity).
  revert line Htable.
  induction _RESCUE_PHRASE_REPLACEMENTS as [|[source replacement] table IH];
    intros line Htable Hline; cbn [fold_left]; [exact Hline|].
  cbn [forallb] in Htable. apply andb_true_iff in Htable.
  destruct Htable as [Hreplacement Htable].
  apply IH; [exact Htable|].
  intros c.
  apply (str_replace_chars (fun c => rescue_char c = true)); [|exact Hline].
  now apply all_rescue_chars_literal.
Qed.

Section RescueScanFacts.

Variable isspace : N -> bool.
Variable upper : str -> str.
Variable recognize_lines : str -> Z -> result (list str).

Lemma normalize_rescue_line_chars (raw_line : str) :
  all_rescue_chars (_normalize_rescue_line isspace upper raw_line).
Proof.
  unfold _normalize_rescue_line, all_rescue_chars.
  destruct (_ <? 4)%nat; [intros ? []|].
  destruct (negb _); [intros ? []|].
  intros c Hin. apply firstn_members in Hin. apply filter_In in Hin. tauto.
Qed.

Lemma collect_rescue_lines_chars (scans : list (str * Z)) :
  forall collected lines,
    Forall all_rescue_chars collected ->
    collect_rescue_lines isspace upper recognize_lines scans collected
    = Ok lines ->
    Forall all_rescue_chars lines.
Proof.
  induction scans as [|[scan_lang psm] scans IH]; intros collected lines Hc;
    cbn [collect_rescue_lines].
  - now intros [= <-].
  - destruct (recognize_lines scan_lang psm) as [raw_lines|e]; cbn [bind];
      [|discriminate].
    apply IH. apply Forall_app. split; [exact Hc|].
    apply Forall_forall. intros line Hin. apply filter_In in Hin.
    destruct Hin as [Hin _]. apply in_map_iff in Hin.
    destruct Hin as (raw & <- & _). apply normalize_rescue_line_chars.
Qed.

Lemma priority_lines_chars (corrected : list str) :
  Forall all_rescue_chars (priority_lines_of upper corrected).
Proof.
  unfold priority_lines_of. cbv beta zeta.
  match goal with |- Forall _ (?table_lines ++ _) =>
    assert (Htable_lines : Forall all_rescue_chars table_lines);
    [|revert Htable_lines; generalize table_lines;
      intros from_table Hfrom_table;
      repeat (apply Forall_app; split); [exact Hfrom_table|..]]
  end.
  - apply Forall_forall. intros line Hin. apply in_flat_map in Hin.
    destruct Hin as ([source phrase] & Htable & Hin).
    assert (Hphrases : forallb (fun '(_, phrase) =>
                                  forallb rescue_char (cps phrase))
                         _ENGINEERING_TOKEN_SPLITS = true)
      by (vm_compute; reflexivity).
    pose proof (proj1 (forallb_forall _ _) Hphrases _ Htable) as Hphrase.
    cbv beta iota in Hphrase.
    destruct (filter upper_alnum (cps phrase)); [destruct Hin|].
    destruct (contains _ _); [|destruct Hin].
    destruct Hin as [<-|[]]. now apply all_rescue_chars_literal.
  - destruct (_ && _); repeat constructor.
    apply all_rescue_chars_literal. reflexivity.
  - destruct (_ && _); repeat constructor.
    apply all_rescue_chars_literal. reflexivity.
  - destruct (_ || _); repeat constructor.
    apply all_rescue_chars_literal. reflexivity.
  - destruct (_ && _); repeat constructor.
    apply all_rescue_chars_literal. reflexivity.
  - destruct (contains _ _); repeat constructor.
    apply all_rescue_chars_literal. reflexivity.
  - destruct (_ && _); repeat constructor.
    apply all_rescue_chars_literal. reflexivity.
  - destruct (_ && _); repeat constructor.
    apply all_rescue_chars_literal. reflexivity.
  - destruct (contains _ _); repeat constructor;
      apply all_rescue_chars_literal; reflexivity.
Qed.

(** X13.  Whenever the plain-text rescue scan returns, it returns at most
    180 lines, which is what [_inject_hidden_text_lines] can place, and
    every line is made of characters of [A-Z0-9./:%()\- +] alone, so that
    the ASCII encoding of the overlay stream drops none of them. *)
Theorem plain_text_rescue_lines_bounded (lang : str) (lines : list str) :
  _extract_plain_text_rescue isspace upper recognize_lines lang = Ok lines ->
  (List.length lines <= 180)%nat
  /\ forall line, In line lines -> all_rescue_chars line.
Proof.
  unfold _extract_plain_text_rescue.
  destruct (collect_rescue_lines _ _ _ _ _) as [collected|e] eqn:Hcollect;
    cbn [bind]; [|discriminate].
  intros [= <-].
  pose proof (collect_rescue_lines_chars _ _ _ (Forall_nil _) Hcollect)
    as Hcollected.
  unfold _dedupe_rescue_lines.
  match goal with |- context [dedupe_rescue_loop upper ?input 180 [] []] =>
    destruct (dedupe_rescue_loop_spec upper 180 input [] [])
      as (added & Heq & Hfrom & _ & Hbound & _)
  end.
  - intros key. simpl. tauto.
  - constructor.
  - rewrite Heq. cbn [app] in *. split; [simpl in Hbound; lia|].
    intros line Hin. destruct (Hfrom line Hin) as [Hinput _].
    apply in_app_or in Hinput. destruct Hinput as [Hp|Hc].
    + exact (proj1 (Forall_forall _ _) (priority_lines_chars _) line Hp).
    + apply in_map_iff in Hc. destruct Hc as (raw & <- & Hraw).
      apply corrected_line_chars.
      exact (proj1 (Forall_forall _ _) Hcollected raw Hraw).
Qed.

End RescueScanFacts.

Lemma plain_text_rescue_lines_bounded_witness :
  exists lines,
    _extract_plain_text_rescue sample_isspace sample_upper
      sample_recognize_lines (cps "rus+eng") = Ok lines
    /\ (List.length lines <= 180)%nat
    /\ forall line, In line lines -> all_rescue_chars line.
Proof.
  eexists. split; [vm_compute; reflexivity|].
  apply (plain_text_rescue_lines_bounded sample_isspace sample_upper
           sample_recognize_lines (cps "rus+eng")).
  vm_compute. reflexivity.
Defined.


(** ** The job registry *)

Lemma insort_In (x : Z) (l : list Z) (p : Z) :
  In p (insort x l) <-> p = x \/ In p l.
Proof.
  induction l as [|y l IH]; simpl.
  - intuition.
  - destruct (x <? y); simpl; [intuition|]. rewrite IH. intuition.
Qed.

Lemma list_sort_In (l : list Z) (p : Z) : In p (list_sort l) <-> In p l.
Proof.
  induction l as [|x l IH]; simpl; [tauto|].
  rewrite insort_In, IH. intuition.
Qed.

Lemma insort_sorted (x : Z) (l : list Z) :
  StronglySorted Z.lt l -> ~ In x l -> StronglySorted Z.lt (insort x l).
Proof.
  induction l as [|y l IH]; simpl; intros Hs Hout.
  - repeat constructor.
  - inversion Hs as [|? ? Hs' Hall]; subst.
    destruct (Z.ltb_spec x y) as [Hlt|Hge].
    + constructor; [exact Hs|]. constructor; [exact Hlt|].
      rewrite Forall_forall in *. intros z Hz. specialize (Hall z Hz). lia.
    + constructor; [apply IH; tauto|].
      rewrite Forall_forall in *. intros z Hz. apply insort_In in Hz.
      destruct Hz as [->|Hz]; [|now apply Hall].
      assert (x <> y) by (intros ->; apply Hout; now left). lia.
Qed.

Lemma list_sort_sorted (l : list Z) :
  NoDup l -> StronglySorted Z.lt (list_sort l).
Proof.
  induction 1 as [|x l Hout Hnd IH]; simpl; [constructor|].
  apply insort_sorted; [exact IH|]. now rewrite list_sort_In.
Qed.

Lemma strictly_sorted_NoDup (l : list Z) : StronglySorted Z.lt l -> NoDup l.
Proof.
  induction 1 as [|x l Hs IH Hall]; constructor; [|exact IH].
  intros Hin. rewrite Forall_forall in Hall. specialize (Hall x Hin). lia.
Qed.

Lemma strictly_sorted_ext (a b : list Z) :
  StronglySorted Z.lt a -> StronglySorted Z.lt b ->
  (forall p, In p a <-> In p b) -> a = b.
Proof.
  intros Ha. revert b. induction Ha as [|x a Ha IH Hxa]; intros b Hb Hsame.
  - destruct b as [|y b]; [reflexivity|]. destruct (proj2 (Hsame y)). now left.
  - destruct Hb as [|y b Hb Hyb].
    + destruct (proj1 (Hsame x)). now left.
    + rewrite Forall_forall in Hxa, Hyb.
      assert (x = y) as <-.
      { destruct (proj1 (Hsame x) (or_introl eq_refl)) as [Hxy|Hxb];
          [now symmetry|].
        destruct (proj2 (Hsame y) (or_introl eq_refl)) as [Hyx|Hya];
          [exact Hyx|].
        specialize (Hxa y Hya). specialize (Hyb x Hxb). lia. }
      f_equal. apply IH; [exact Hb|]. intros p. split; intros Hp.
      * destruct (proj1 (Hsame p) (or_intror Hp)) as [<-|Hpb]; [|exact Hpb].
        specialize (Hxa x Hp). lia.
      * destruct (proj2 (Hsame p) (or_intror Hp)) as [<-|Hpa]; [|exact Hpa].
        specialize (Hyb x Hp). lia.
Qed.

Lemma string_eqb_eq (a b : string) : String.eqb a b = true <-> a = b.
Proof. apply String.eqb_eq. Qed.

Lemma dict_get_set_same {V : Type} (d : dict string V) (k : string) (v : V) :
  dict_get String.eqb (dict_set String.eqb d k v) k = Some v.
Proof.
  induction d as [|[k0 v0] d IH]; simpl.
  - now rewrite String.eqb_refl.
  - destruct (String.eqb k k0) eqn:E; simpl; rewrite E; [reflexivity|exact IH].
Qed.

Lemma dict_get_set_other {V : Type} (d : dict string V) (k k' : string) (v : V) :
  k' <> k ->
  dict_get String.eqb (dict_set String.eqb d k v) k'
  = dict_get String.eqb d k'.
Proof.
  intros Hne. induction d as [|[k0 v0] d IH]; simpl.
  - destruct (String.eqb k' k) eqn:E; [|reflexivity].
    apply String.eqb_eq in E. contradiction.
  - destruct (String.eqb k k0) eqn:E; simpl.
    + apply String.eqb_eq in E. subst k0.
      destruct (String.eqb k' k) eqn:E'; [|reflexivity].
      apply String.eqb_eq in E'. contradiction.
    + now rewrite IH.
Qed.

(** What marking a sequence of pages does to a job whose completed pages
    are in strictly increasing order. *)
Lemma mark_pages_completed_spec (page_numbers : list Z) :
  forall (jobs : Jobs) (id : string) (job : JobState),
    dict_get String.eqb jobs id = Some job ->
    StronglySorted Z.lt (completed_pages job) ->
    exists pages,
      dict_get String.eqb (mark_pages_completed jobs id page_numbers) id
      = Some (with_completed_pages job pages)
      /\ StronglySorted Z.lt pages
      /\ (forall p, In p pages <-> In p (completed_pages job) \/ In p page_numbers)
      /\ forall other, other <> id ->
           dict_get String.eqb (mark_pages_completed jobs id page_numbers) other
           = dict_get String.eqb jobs other.
Proof.
  unfold mark_pages_completed.
  induction page_numbers as [|page_number rest IH]; intros jobs id job Hjob Hs;
    cbn [fold_left].
  - exists (completed_pages job). split; [|split; [exact Hs|split]].
    + rewrite Hjob. now destruct job.
    + intros p. simpl. tauto.
    + reflexivity.
  - unfold _mark_page_completed at 2 4. rewrite Hjob.
    destruct (existsb (Z.eqb page_number) (completed_pages job)) eqn:Hseen;
      cbn [negb].
    + apply existsb_exists in Hseen. destruct Hseen as (q & Hq & Heq).
      apply Z.eqb_eq in Heq. subst q.
      destruct (IH jobs id job Hjob Hs) as (pages & Hget & Hs' & Hin & Hother).
      exists pages. split; [exact Hget|]. split; [exact Hs'|].
      split; [|exact Hother].
      intros p. rewrite Hin. simpl. intuition (subst; auto).
    + set (marked := list_sort (completed_pages job ++ [page_number])).
      assert (Hout : ~ In page_number (completed_pages job)).
      { intros Hin.
        assert (existsb (Z.eqb page_number) (completed_pages job) = true)
          as Hthere; [|congruence].
        apply existsb_exists. exists page_number.
        split; [exact Hin|apply Z.eqb_refl]. }
      assert (Hmarked : StronglySorted Z.lt marked).
      { apply list_sort_sorted, NoDup_app.
        - now apply strictly_sorted_NoDup.
        - repeat constructor. intros [].
        - intros p Hp [<-|[]]. contradiction. }
      destruct (IH (dict_set String.eqb jobs id (with_completed_pages job marked))
                   id (with_completed_pages job marked))
        as (pages & Hget & Hs' & Hin & Hother).
      * apply dict_get_set_same.
      * exact Hmarked.
      * exists pages. split; [exact Hget|]. split; [exact Hs'|]. split.
        -- intros p. rewrite Hin. cbn [completed_pages with_completed_pages].
           unfold marked. rewrite list_sort_In, in_app_iff. simpl. tauto.
        -- intros other Hne. rewrite (Hother other Hne).
           now apply dict_get_set_other.
Qed.

(** X14.  Marking pages as completed, in any order and any number of
    times, keeps the completed pages of the job in strictly increasing
    order, hence free of duplicates, and makes them the pages that were
    completed before or are marked now; the other fields of the job and
    the other jobs of the registry are left as they are, and the order
    in which the pages are marked makes no difference. *)
Theorem mark_page_completed_sorted_set (jobs : Jobs) (id : string)
    (job : JobState) (page_numbers : list Z) :
  dict_get String.eqb jobs id = Some job ->
  StronglySorted Z.lt (completed_pages job) ->
  exists pages,
    dict_get String.eqb (mark_pages_completed jobs id page_numbers) id
    = Some (with_completed_pages job pages)
    /\ StronglySorted Z.lt pages
    /\ (forall p, In p pages <-> In p (completed_pages job) \/ In p page_numbers)
    /\ (forall other, other <> id ->
          dict_get String.eqb (mark_pages_completed jobs id page_numbers) other
          = dict_get String.eqb jobs other)
    /\ forall reordered,
         (forall p, In p reordered <-> In p page_numbers) ->
         dict_get String.eqb (mark_pages_completed jobs id reordered) id
         = Some (with_completed_pages job pages).
Proof.
  intros Hjob Hs.
  destruct (mark_pages_completed_spec page_numbers jobs id job Hjob Hs)
    as (pages & Hget & Hs' & Hin & Hother).
  exists pages. split; [exact Hget|]. split; [exact Hs'|].
  split; [exact Hin|]. split; [exact Hother|].
  intros reordered Hsame.
  destruct (mark_pages_completed_spec reordered jobs id job Hjob Hs)
    as (pages' & Hget' & Hs'' & Hin' & _).
  rewrite Hget'. do 2 f_equal.
  apply strictly_sorted_ext; [exact Hs''|exact Hs'|].
  intros p. rewrite Hin, Hin', Hsame. tauto.
Qed.

Lemma mark_page_completed_sorted_set_witness :
  exists pages,
    dict_get String.eqb
      (mark_pages_completed [("a"%string, sample_job)] "a"%string [3; 1; 3; 2]) "a"%string
    = Some (with_completed_pages sample_job pages)
    /\ StronglySorted Z.lt pages
    /\ (forall p, In p pages
                  <-> In p (completed_pages sample_job) \/ In p [3; 1; 3; 2])
    /\ (forall other, other <> "a"%string ->
          dict_get String.eqb
            (mark_pages_completed [("a"%string, sample_job)] "a"%string [3; 1; 3; 2])
            other
          = dict_get String.eqb [("a"%string, sample_job)] other)
    /\ forall reordered,
         (forall p, In p reordered <-> In p [3; 1; 3; 2]) ->
         dict_get String.eqb
           (mark_pages_completed [("a"%string, sample_job)] "a"%string reordered) "a"%string
         = Some (with_completed_pages sample_job pages).
Proof.
  apply (mark_page_completed_sorted_set [("a"%string, sample_job)] "a"%string
           sample_job [3; 1; 3; 2]).
  - reflexivity.
  - simpl. constructor.
Defined.


(** ** The coverage scan of a page *)

Lemma dedupe_distinct_keys (boxes : list WordBox) :
  distinct_keys (_dedupe_word_boxes boxes).
Proof.
  destruct (dedupe_represents boxes) as [[Hnd Hkeys] _]. split.
  - rewrite dedupe_keys.
    apply Finite.Injective_map_NoDup; [|exact Hnd]. now intros a b [= ->].
  - intros box Hin. unfold _dedupe_word_boxes, dict_values in Hin.
    apply in_map_iff in Hin. destruct Hin as ([key b] & Heq & Hin).
    simpl in Heq. subst b. rewrite (Hkeys key box Hin). discriminate.
Qed.

Lemma dedupe_members (boxes : list WordBox) (box : WordBox) :
  In box (_dedupe_word_boxes boxes) -> In box boxes.
Proof.
  destruct (dedupe_represents boxes) as [_ [Hfrom _]].
  unfold _dedupe_word_boxes, dict_values. intros Hin.
  apply in_map_iff in Hin. destruct Hin as ([key b] & Heq & Hin).
  simpl in Heq. subst b. eapply Hfrom, Hin.
Qed.

Lemma dedupe_length_le (boxes : list WordBox) :
  len (_dedupe_word_boxes boxes) <= len boxes.
Proof.
  unfold len. apply inj_le, NoDup_incl_length.
  - eapply NoDup_map_inv, (proj1 (dedupe_distinct_keys boxes)).
  - intros box. apply dedupe_members.
Qed.

(** A deduplicated part of the input takes as many places in the result
    as it has boxes. *)
Lemma dedupe_at_least (part boxes : list WordBox) :
  distinct_keys part -> incl part boxes ->
  len part <= len (_dedupe_word_boxes boxes).
Proof.
  intros [Hnd Hkeyed] Hincl. unfold len. apply inj_le.
  rewrite <- (length_map key_of part),
          <- (length_map key_of (_dedupe_word_boxes boxes)).
  apply NoDup_incl_length; [exact Hnd|].
  intros key Hin. apply in_map_iff in Hin. destruct Hin as (box & <- & Hin).
  destruct (key_of box) as [key|] eqn:Hkey; [|now elim (Hkeyed box Hin)].
  destruct (dedupe_represents boxes) as [[_ Hkeys] [_ Hrep]].
  destruct (Hrep box key (Hincl box Hin) Hkey) as (kept & Hkept & _).
  apply in_map_iff. exists kept. split; [now apply Hkeys|].
  unfold _dedupe_word_boxes, dict_values. apply in_map_iff.
  now exists (key, kept).
Qed.

Lemma dedupe_fixed (boxes : list WordBox) :
  _dedupe_word_boxes (_dedupe_word_boxes boxes) = _dedupe_word_boxes boxes.
Proof.
  unfold _dedupe_word_boxes.
  rewrite (dedupe_rebuilds (fold_left dedupe_step boxes []) []).
  - reflexivity.
  - apply well_keyed_fold, well_keyed_nil.
Qed.

Lemma len_app {A : Type} (a b : list A) : len (a ++ b) = len a + len b.
Proof. unfold len. rewrite length_app. lia. Qed.

Section CoverageScanFacts.

Variable extract_word_boxes : str -> Z -> Z -> result (list WordBox).
Variable extract_word_boxes_rotated : str -> Z -> Z -> Z -> result (list WordBox).
Variable extract_word_boxes_tiled : str -> Z -> Z -> bool -> result (list WordBox).
Variable extract_design_table_value_boxes
  : list WordBox -> str -> result (list WordBox).

(** The counts of a scan whose three parts are deduplicated lists. *)
Lemma combined_counts (full_boxes tile_boxes vertical_boxes table_boxes
                       : list WordBox) :
  distinct_keys full_boxes -> distinct_keys tile_boxes ->
  distinct_keys vertical_boxes ->
  let combined :=
    _dedupe_word_boxes (full_boxes ++ tile_boxes ++ vertical_boxes) in
  let boxes := _dedupe_word_boxes (combined ++ table_boxes) in
  len full_boxes <= len boxes /\ len tile_boxes <= len boxes
  /\ len vertical_boxes <= len boxes
  /\ len boxes
     <= len full_boxes + len tile_boxes + len vertical_boxes + len table_boxes.
Proof.
  intros Hfull Htile Hvertical combined boxes.
  assert (Hcombined : len combined <= len boxes).
  { apply dedupe_at_least; [apply dedupe_distinct_keys|].
    intros box Hin. apply in_or_app. now left. }
  assert (Hf : len full_boxes <= len combined).
  { apply dedupe_at_least; [exact Hfull|].
    intros box Hin. apply in_or_app. now left. }
  assert (Ht : len tile_boxes <= len combined).
  { apply dedupe_at_least; [exact Htile|].
    intros box Hin. apply in_or_app. right. apply in_or_app. now left. }
  assert (Hv : len vertical_boxes <= len combined).
  { apply dedupe_at_least; [exact Hvertical|].
    intros box Hin. apply in_or_app. right. apply in_or_app. now right. }
  pose proof (dedupe_length_le (combined ++ table_boxes)) as Hb.
  pose proof (dedupe_length_le (full_boxes ++ tile_boxes ++ vertical_boxes))
    as Hc.
  fold combined in Hc. fold boxes in Hb. rewrite !len_app in *. lia.
Qed.

(** X15.  Whenever the coverage scan returns, its counts fit together:
    the combined words are the boxes it returns, no two of which have
    the same key; they are at least the words of the full page, of the
    tiles and of the vertical scan, each taken alone, and at most their
    sum with the table words.  The gain ratio is 0.0 unless the tiles
    gave more words than the full page.  In standard mode there are no
    tile, vertical or table words, and the combined words are the words
    of the full page. *)
Theorem scan_page_coverage_counts (lang : str) (drawing_mode : bool)
    (scan : Scan) :
  _scan_page_coverage extract_word_boxes extract_word_boxes_rotated
    extract_word_boxes_tiled extract_design_table_value_boxes
    lang drawing_mode = Ok scan ->
  scan_combined_words scan = len (scan_boxes scan)
  /\ distinct_keys (scan_boxes scan)
  /\ scan_full_words scan <= scan_combined_words scan
  /\ scan_tile_words scan <= scan_combined_words scan
  /\ scan_vertical_words scan <= scan_combined_words scan
  /\ scan_combined_words scan
     <= scan_full_words scan + scan_tile_words scan
        + scan_vertical_words scan + scan_table_words scan
  /\ (scan_tile_words scan <= scan_full_words scan ->
      scan_gain_ratio scan = PyFloat.of_Z 0)
  /\ (drawing_mode = false ->
      scan_tile_words scan = 0 /\ scan_vertical_words scan = 0
      /\ scan_table_words scan = 0
      /\ scan_combined_words scan = scan_full_words scan
      /\ scan_gain_ratio scan = PyFloat.of_Z 0).
Proof.
  unfold _scan_page_coverage.
  match goal with |- bind ?parts _ = _ -> _ =>
    assert (Hparts : forall full_boxes tile_boxes vertical_boxes,
              parts = Ok (full_boxes, tile_boxes, vertical_boxes) ->
              distinct_keys full_boxes /\ distinct_keys tile_boxes
              /\ distinct_keys vertical_boxes
              /\ (drawing_mode = false ->
                  full_boxes = _dedupe_word_boxes full_boxes
                  /\ tile_boxes = [] /\ vertical_boxes = []));
    [|destruct parts as [[[full_boxes tile_boxes] vertical_boxes]|e];
      cbn [bind]; [|discriminate];
      specialize (Hparts full_boxes tile_boxes vertical_boxes eq_refl)]
  end.
  { intros full_boxes tile_boxes vertical_boxes.
    destruct drawing_mode.
    - cbv zeta.
      repeat match goal with
             | |- bind (if _ then _ else _) _ = _ -> _ => fail 1
             | |- bind ?r _ = _ -> _ => destruct r; cbn [bind]; [|discriminate]
             end.
      match goal with |- bind (if ?c then _ else _) _ = _ -> _ =>
        destruct c
      end.
      + repeat match goal with
               | |- bind (bind ?r _) _ = _ -> _ =>
                   destruct r; cbn [bind]; [|discriminate]
               end.
        intros [= <- <- <-].
        repeat split; try apply dedupe_distinct_keys; discriminate.
      + cbn [bind]. intros [= <- <- <-].
        repeat split; try apply dedupe_distinct_keys; discriminate.
    - destruct (extract_word_boxes lang 6 40); cbn [bind]; [|discriminate].
      intros [= <- <- <-]. split; [apply dedupe_distinct_keys|].
      split; [split; [constructor|intros ? []]|].
      split; [split; [constructor|intros ? []]|].
      intros _. now rewrite dedupe_fixed. }
  destruct Hparts as (Hfull & Htile & Hvertical & Hstandard).
  match goal with |- bind ?table _ = _ -> _ =>
    assert (Htable : forall table_boxes combined_boxes,
              table = Ok (table_boxes, combined_boxes) ->
              combined_boxes
              = _dedupe_word_boxes
                  (_dedupe_word_boxes
                     (full_boxes ++ tile_boxes ++ vertical_boxes)
                   ++ table_boxes)
              /\ (drawing_mode = false -> table_boxes = []));
    [|destruct table as [[table_boxes combined_boxes]|e];
      cbn [bind]; [|discriminate];
      specialize (Htable table_boxes combined_boxes eq_refl)]
  end.
  { intros table_boxes combined_boxes. destruct drawing_mode.
    - destruct (extract_design_table_value_boxes _ lang); cbn [bind];
        [|discriminate].
      intros [= <- <-]. split; [reflexivity|discriminate].
    - intros [= <- <-]. split; [|reflexivity].
      now rewrite app_nil_r, dedupe_fixed. }
  destruct Htable as [-> Htable]. intros [= <-].
  cbn [scan_full_words scan_tile_words scan_combined_words scan_gain_ratio
       scan_vertical_words scan_table_words scan_boxes].
  pose proof (combined_counts full_boxes tile_boxes vertical_boxes table_boxes
                Hfull Htile Hvertical) as Hcounts.
  cbv zeta in Hcounts. destruct Hcounts as (Hf & Ht & Hv & Hsum).
  split; [reflexivity|]. split; [apply dedupe_distinct_keys|].
  split; [exact Hf|]. split; [exact Ht|]. split; [exact Hv|].
  split; [exact Hsum|]. split.
  - intros Hle. unfold gain_ratio_of.
    destruct (Z.ltb_spec (len full_boxes) (len tile_boxes)); [lia|reflexivity].
  - intros Hmode. destruct (Hstandard Hmode) as (Hfixed & -> & ->).
    rewrite (Htable Hmode). cbn [app]. rewrite !app_nil_r.
    split; [reflexivity|]. split; [reflexivity|]. split; [reflexivity|].
    split.
    + rewrite dedupe_fixed. now rewrite <- Hfixed.
    + unfold gain_ratio_of.
      destruct (Z.ltb_spec (len full_boxes) (len (@nil WordBox)));
        [|reflexivity].
      unfold len in *. simpl in *. lia.
Qed.

End CoverageScanFacts.

Lemma scan_page_coverage_counts_witness :
  exists scan,
    _scan_page_coverage sample_extract_word_boxes
      sample_extract_word_boxes_rotated sample_extract_word_boxes_tiled
      sample_extract_design_table_value_boxes (cps "rus+eng") true = Ok scan
    /\ scan_full_words scan = 1 /\ scan_tile_words scan = 2
    /\ scan_combined_words scan = len (scan_boxes scan)
    /\ distinct_keys (scan_boxes scan)
    /\ scan_full_words scan <= scan_combined_words scan
    /\ scan_tile_words scan <= scan_combined_words scan
    /\ scan_vertical_words scan <= scan_combined_words scan
    /\ scan_combined_words scan
       <= scan_full_words scan + scan_tile_words scan
          + scan_vertical_words scan + scan_table_words scan
    /\ (scan_tile_words scan <= scan_full_words scan ->
        scan_gain_ratio scan = PyFloat.of_Z 0)
    /\ (true = false ->
        scan_tile_words scan = 0 /\ scan_vertical_words scan = 0
        /\ scan_table_words scan = 0
        /\ scan_combined_words scan = scan_full_words scan
        /\ scan_gain_ratio scan = PyFloat.of_Z 0).
Proof.
  eexists. split; [vm_compute; reflexivity|].
  split; [reflexivity|]. split; [reflexivity|].
  apply (scan_page_coverage_counts sample_extract_word_boxes
           sample_extract_word_boxes_rotated sample_extract_word_boxes_tiled
           sample_extract_design_table_value_boxes (cps "rus+eng") true).
  vm_compute. reflexivity.
Defined.


(** ** Verifying a page *)

Lemma initial_selection_bounds (best_analysis : Analysis)
    (attempts : list AttemptInfo) (settings : Settings) :
  _candidate_selection_score best_analysis (drawing_mode settings)
  <= initial_selection best_analysis attempts settings
  /\ forall item, In item attempts ->
       info_selection_score item
       <= initial_selection best_analysis attempts settings.
Proof.
  unfold initial_selection.
  generalize (_candidate_selection_score best_analysis (drawing_mode settings)).
  induction attempts as [|first rest IH]; intros start; cbn [fold_left].
  - split; [lia|intros ? []].
  - destruct (Z.ltb_spec start (info_selection_score first)) as [Hlt|Hge].
    + destruct (IH (info_selection_score first)) as [Hstart Hrest].
      split; [lia|]. intros item [<-|Hin]; [exact Hstart|now apply Hrest].
    + destruct (IH start) as [Hstart Hrest].
      split; [exact Hstart|]. intros item [<-|Hin]; [lia|now apply Hrest].
Qed.

Lemma kept_or_improved_refl (passes : nat) (st : Best) :
  kept_or_improved passes st st.
Proof.
  exists []. rewrite app_nil_r. split; [reflexivity|].
  split; [simpl; lia|]. split; [lia|]. split; [intros ? []|].
  left. repeat split.
Qed.

Lemma kept_or_improved_trans (n m : nat) (a b c : Best) :
  kept_or_improved n a b -> kept_or_improved m b c ->
  kept_or_improved (n + m) a c.
Proof.
  intros (added & Hhist & Hlen & Hle & Hall & Hbest)
         (added' & Hhist' & Hlen' & Hle' & Hall' & Hbest').
  exists (added ++ added'). split; [now rewrite Hhist', Hhist, app_assoc|].
  split; [rewrite length_app; lia|]. split; [lia|]. split.
  - intros item Hin. apply in_app_or in Hin. destruct Hin as [Hin|Hin].
    + specialize (Hall item Hin). lia.
    + now apply Hall'.
  - destruct Hbest' as [(Hc & Hp & Ha & Hs)|(item & Hin & Hp & Ha & Hs & Hlt)].
    + destruct Hbest as [(Hc0 & Hp0 & Ha0 & Hs0)
                        |(item & Hin & Hp0 & Ha0 & Hs0 & Hlt)].
      * left. repeat split; congruence.
      * right. exists item. split; [apply in_or_app; now left|].
        rewrite Hp, Ha, Hs. repeat split; try assumption.
    + right. exists item. split; [apply in_or_app; now right|].
      repeat split; try assumption. lia.
Qed.

Section VerifyPageFacts.

Variable scan_directory : effect unit.
Variable render_pdf_to_png : Z -> effect unit.
Variable scan_page_coverage : string -> bool -> effect Scan.
Variable extract_plain_text_rescue : string -> effect (list str).
Variable run_ocr : Candidate -> Profile -> effect unit.
Variable analyze_ocr_pdf : Candidate -> Analysis.
Variable write_review_overlay : list WordBox -> effect string.
Variable copyfile : Candidate -> effect unit.
Variable inject_invisible_text_from_boxes : list WordBox -> effect Z.
Variable inject_hidden_text_lines : list str -> effect Z.

Lemma rescue_pass_spec (settings : Settings) (st st' : Best)
    (candidate : Candidate) (profile : Profile) :
  rescue_pass run_ocr analyze_ocr_pdf settings st candidate profile = Done st' ->
  kept_or_improved 1 st st'.
Proof.
  unfold rescue_pass.
  destruct (run_ocr candidate profile) as [[]|e]; cbn [effect_bind];
    [|discriminate].
  cbv zeta.
  destruct (Z.ltb_spec (best_selection st)
              (_candidate_selection_score (analyze_ocr_pdf candidate)
                 (drawing_mode settings))) as [Hlt|Hge];
    intros [= <-]; eexists; cbn [attempts_local best_selection
      best_candidate_local best_profile_local best_analysis_local];
    (split; [reflexivity|]); (split; [simpl; lia|]).
  - split; [lia|]. split.
    + intros item [<-|[]]. cbn [info_selection_score]. lia.
    + right. eexists. split; [now left|]. repeat split. exact Hlt.
  - split; [lia|]. split.
    + intros item [<-|[]]. cbn [info_selection_score]. lia.
    + left. repeat split.
Qed.

(** The worker, call by call. *)
Lemma verify_page_worker_spec (best_candidate : Path) (best_profile : Profile)
    (best_analysis : Analysis) (attempts : list AttemptInfo)
    (settings : Settings) (report : PageReport) :
  _verify_page_worker scan_directory render_pdf_to_png scan_page_coverage
    extract_plain_text_rescue run_ocr analyze_ocr_pdf write_review_overlay
    copyfile inject_invisible_text_from_boxes inject_hidden_text_lines
    best_candidate best_profile best_analysis attempts settings
  = Done report ->
  let st0 :=
    {| attempts_local := attempts;
       best_selection := initial_selection best_analysis attempts settings;
       best_candidate_local := attempt_candidate best_candidate;
       best_profile_local := best_profile;
       best_analysis_local := best_analysis |} in
  exists coverage st augmented_words fallback_lines,
    kept_or_improved 2 st0 st
    /\ reports st report
    /\ (deep_verify settings = false ->
        st = st0 /\ coverage = no_scan
        /\ augmented_words = 0 /\ fallback_lines = 0)
    /\ (deep_verify settings = true ->
        scan_page_coverage (lang settings) (drawing_mode settings)
        = Done coverage)
    /\ page_scan_full_words report = scan_full_words coverage
    /\ page_scan_tile_words report = scan_tile_words coverage
    /\ page_scan_vertical_words report = scan_vertical_words coverage
    /\ page_table_rescue_words report = scan_table_words coverage
    /\ page_augmented_words report = augmented_words
    /\ page_fallback_lines report = fallback_lines
    /\ page_needs_review report
       = review_flag settings (best_analysis_local st) coverage
           augmented_words fallback_lines.
Proof.
  unfold _verify_page_worker. cbv zeta.
  set (st0 := {| attempts_local := attempts;
                 best_selection := _;
                 best_candidate_local := _;
                 best_profile_local := _;
                 best_analysis_local := _ |}).
  destruct scan_directory as [[]|e]; cbn [effect_bind]; [|discriminate].
  destruct (render_pdf_to_png _) as [[]|e]; cbn [effect_bind]; [|discriminate].
  match goal with |- effect_bind ?rendered _ = _ -> _ =>
    destruct rendered as [[]|e]; cbn [effect_bind]; [|discriminate]
  end.
  match goal with |- effect_bind ?deep _ = _ -> _ =>
    assert (Hdeep : forall coverage rescue_lines st,
              deep = Done (coverage, rescue_lines, st) ->
              kept_or_improved 1 st0 st
              /\ (deep_verify settings = false ->
                  st = st0 /\ coverage = no_scan /\ rescue_lines = [])
              /\ (deep_verify settings = true ->
                  scan_page_coverage (lang settings) (drawing_mode settings)
                  = Done coverage));
    [|destruct deep as [[[coverage rescue_lines] st1]|e];
      cbn [effect_bind]; [|discriminate];
      specialize (Hdeep coverage rescue_lines st1 eq_refl)]
  end.
  { intros coverage rescue_lines st. destruct (deep_verify settings).
    - destruct (scan_page_coverage _ _) as [scanned|e]; cbn [effect_bind];
        [|discriminate].
      match goal with |- effect_bind ?rescued _ = _ -> _ =>
        destruct rescued as [lines|e]; cbn [effect_bind]; [|discriminate]
      end.
      match goal with |- effect_bind ?pass _ = _ -> _ =>
        assert (Hpass : forall st', pass = Done st' ->
                                    kept_or_improved 1 st0 st');
        [|destruct pass as [st'|e]; cbn [effect_bind]; [|discriminate];
          specialize (Hpass st' eq_refl)]
      end.
      { intros st'. destruct (_should_run_rescue_pass _ _ _).
        - apply rescue_pass_spec.
        - intros [= <-]. apply kept_or_improved_refl. }
      intros [= <- <- <-]. split; [exact Hpass|].
      split; [discriminate|reflexivity].
    - intros [= <- <- <-]. split; [apply kept_or_improved_refl|].
      split; [repeat split|discriminate]. }
  destruct Hdeep as (Hfirst & Hshallow & Hscan).
  cbv beta iota.
  match goal with |- effect_bind ?second _ = _ -> _ =>
    assert (Hsecond : forall st, second = Done st ->
                        kept_or_improved 1 st1 st
                        /\ (deep_verify settings = false -> st = st1));
    [|destruct second as [st2|e]; cbn [effect_bind]; [|discriminate];
      specialize (Hsecond st2 eq_refl)]
  end.
  { intros st. destruct (deep_verify settings); cbn [andb].
    - match goal with |- (if ?c then _ else _) = _ -> _ => destruct c end.
      + intros Hpass. split; [eapply rescue_pass_spec, Hpass|discriminate].
      + intros [= <-]. split; [apply kept_or_improved_refl|discriminate].
    - intros [= <-]. split; [apply kept_or_improved_refl|reflexivity]. }
  destruct Hsecond as [Hsecond Hsame].
  destruct (try_except (write_review_overlay _) _ _) as [review_path|e];
    cbn [effect_bind]; [|discriminate].
  destruct (copyfile _) as [[]|e]; cbn [effect_bind]; [|discriminate].
  match goal with |- effect_bind ?augmented _ = _ -> _ =>
    assert (Haugmented : forall n, augmented = Done n ->
                           deep_verify settings = false -> n = 0);
    [|destruct augmented as [augmented_words|e]; cbn [effect_bind];
      [|discriminate]; specialize (Haugmented augmented_words eq_refl)]
  end.
  { intros n Hn Hoff. rewrite Hoff in Hn. cbn [andb] in Hn. congruence. }
  match goal with |- effect_bind ?fallback _ = _ -> _ =>
    assert (Hfallback : forall n, fallback = Done n ->
                          deep_verify settings = false -> n = 0);
    [|destruct fallback as [fallback_lines|e]; cbn [effect_bind];
      [|discriminate]; specialize (Hfallback fallback_lines eq_refl)]
  end.
  { intros n Hn Hoff. rewrite Hoff in Hn. cbn [andb] in Hn. congruence. }
  intros [= <-]. exists coverage, st2, augmented_words, fallback_lines.
  split; [exact (kept_or_improved_trans 1 1 _ _ _ Hfirst Hsecond)|].
  split; [repeat split|].
  split.
  { intros Hoff. destruct (Hshallow Hoff) as (-> & -> & _).
    rewrite (Hsame Hoff). auto. }
  split; [exact Hscan|].
  repeat (split; [reflexivity|]). reflexivity.
Qed.

(** X16.  Whenever the worker returns, its attempt history is that of
    the attempts followed by at most two rescue attempts, and by none
    without deep verification; the best selection score it reports is
    not below the selection score of any attempt of the history nor
    below that of the analysis it was given; and the best profile and
    score it reports are those it was given, or those of a rescue
    attempt whose selection score is the reported one and is greater
    than that of every attempt before it. *)
Theorem verify_page_worker_best_selection
    (best_candidate : Path) (best_profile : Profile)
    (best_analysis : Analysis) (attempts : list AttemptInfo)
    (settings : Settings) (report : PageReport) :
  _verify_page_worker scan_directory render_pdf_to_png scan_page_coverage
    extract_plain_text_rescue run_ocr analyze_ocr_pdf write_review_overlay
    copyfile inject_invisible_text_from_boxes inject_hidden_text_lines
    best_candidate best_profile best_analysis attempts settings
  = Done report ->
  exists added,
    page_attempt_history report = attempts ++ added
    /\ (List.length added <= 2)%nat
    /\ (deep_verify settings = false -> added = [])
    /\ page_attempts_done report = len attempts + len added
    /\ page_attempts_total report = page_attempts_done report
    /\ (forall item, In item (page_attempt_history report) ->
          info_selection_score item <= page_best_selection_score report)
    /\ _candidate_selection_score best_analysis (drawing_mode settings)
       <= page_best_selection_score report
    /\ ((page_best_profile report = name best_profile
         /\ page_best_score report = score best_analysis)
        \/ (exists item,
              In item added
              /\ info_profile item = page_best_profile report
              /\ info_score item = page_best_score report
              /\ info_selection_score item = page_best_selection_score report
              /\ forall earlier, In earlier attempts ->
                   info_selection_score earlier
                   < page_best_selection_score report)).
Proof.
  intros Hreport.
  destruct (verify_page_worker_spec _ _ _ _ _ _ Hreport)
    as (coverage & st & augmented_words & fallback_lines
        & (added & Hhist & Hlen & Hle & Hall & Hbest)
        & (Hdone & Htotal & Hscore & Hselection & Hprofile & Hhistory)
        & Hshallow & _).
  cbn [attempts_local best_selection best_candidate_local best_profile_local
       best_analysis_local] in *.
  destruct (initial_selection_bounds best_analysis attempts settings)
    as [Hstart Hattempts].
  exists added. rewrite Hhistory, Hdone, Htotal, Hselection, Hprofile, Hscore.
  split; [exact Hhist|]. split; [exact Hlen|]. split.
  { intros Hoff. destruct (Hshallow Hoff) as (-> & _).
    cbn [attempts_local] in Hhist.
    rewrite <- (app_nil_r attempts) in Hhist at 1.
    now apply app_inv_head in Hhist. }
  split; [rewrite Hhist; apply len_app|]. split; [reflexivity|]. split.
  { intros item Hin. rewrite Hhist in Hin. apply in_app_or in Hin.
    destruct Hin as [Hin|Hin]; [|now apply Hall].
    specialize (Hattempts item Hin). lia. }
  split; [lia|].
  destruct Hbest as [(_ & -> & -> & _)|(item & Hin & Hp & Ha & Hs & Hlt)].
  - left. split; reflexivity.
  - right. exists item. repeat split; try assumption.
    intros earlier Hearlier. specialize (Hattempts earlier Hearlier). lia.
Qed.

(** X17.  Whenever the worker returns: in standard mode the page is
    marked for review exactly when the best score it reports is below
    120; in drawing mode a page is left unmarked only after a deep
    verification whose coverage scan found at least 40 combined words,
    so that without deep verification every page of a drawing is marked;
    and without deep verification nothing is scanned or injected. *)
Theorem verify_page_worker_review
    (best_candidate : Path) (best_profile : Profile)
    (best_analysis : Analysis) (attempts : list AttemptInfo)
    (settings : Settings) (report : PageReport) :
  _verify_page_worker scan_directory render_pdf_to_png scan_page_coverage
    extract_plain_text_rescue run_ocr analyze_ocr_pdf write_review_overlay
    copyfile inject_invisible_text_from_boxes inject_hidden_text_lines
    best_candidate best_profile best_analysis attempts settings
  = Done report ->
  (drawing_mode settings = false ->
   page_needs_review report = (page_best_score report <? 120))
  /\ (drawing_mode settings = true -> page_needs_review report = false ->
      deep_verify settings = true
      /\ exists coverage,
           scan_page_coverage (lang settings) true = Done coverage
           /\ 40 <= scan_combined_words coverage)
  /\ (deep_verify settings = false ->
      page_scan_full_words report = 0 /\ page_scan_tile_words report = 0
      /\ page_scan_vertical_words report = 0
      /\ page_table_rescue_words report = 0
      /\ page_augmented_words report = 0 /\ page_fallback_lines report = 0).
Proof.
  intros Hreport.
  destruct (verify_page_worker_spec _ _ _ _ _ _ Hreport)
    as (coverage & st & augmented_words & fallback_lines & _
        & (_ & _ & Hscore & _) & Hshallow & Hscan
        & Hfull & Htile & Hvertical & Htable & Haugmented & Hfallback
        & Hreview).
  split; [|split].
  - intros Hmode. rewrite Hreview, Hscore.
    unfold review_flag, _needs_manual_review. now rewrite Hmode.
  - intros Hmode Hok. rewrite Hreview in Hok.
    unfold review_flag, _needs_manual_review in Hok.
    rewrite Hmode in Hok. cbn [coverage_of tile_words combined_words get] in Hok.
    destruct (deep_verify settings) eqn:Hdeep.
    + split; [reflexivity|]. exists coverage.
      rewrite <- Hmode. split; [now apply Hscan|].
      destruct (Z.leb_spec 20 fallback_lines),
               (Z.leb_spec 80 (scan_combined_words coverage));
        cbn [andb] in Hok; try lia;
        destruct (Z.leb_spec 120 augmented_words),
                 (Z.leb_spec 120 (scan_combined_words coverage));
        cbn [andb] in Hok; try lia;
        destruct (score (best_analysis_local st) <? 260); try discriminate;
        destruct (_ && _); try discriminate;
        destruct (Z.ltb_spec (scan_combined_words coverage) 40);
        try discriminate; lia.
    + destruct (Hshallow eq_refl) as (_ & -> & -> & ->).
      cbn in Hok.
      destruct (score (best_analysis_local st) <? 260); try discriminate.
      destruct (eng_token_count (best_analysis_local st) <? 6);
        discriminate.
  - intros Hoff. destruct (Hshallow Hoff) as (_ & -> & -> & ->).
    rewrite Hfull, Htile, Hvertical, Htable, Haugmented, Hfallback.
    repeat split.
Qed.

End VerifyPageFacts.

Lemma verify_page_worker_best_selection_witness :
  exists report,
    sample_verify_page sample_drawing_settings = Done report
    /\ page_best_profile report = "draw-rescue"%string
    /\ exists added,
         page_attempt_history report = sample_attempts ++ added
         /\ (List.length added <= 2)%nat
         /\ (deep_verify sample_drawing_settings = false -> added = [])
         /\ page_attempts_done report = len sample_attempts + len added
         /\ page_attempts_total report = page_attempts_done report
         /\ (forall item, In item (page_attempt_history report) ->
               info_selection_score item <= page_best_selection_score report)
         /\ _candidate_selection_score sample_best_analysis
              (drawing_mode sample_drawing_settings)
            <= page_best_selection_score report
         /\ ((page_best_profile report = name sample_best_profile
              /\ page_best_score report = score sample_best_analysis)
             \/ (exists item,
                   In item added
                   /\ info_profile item = page_best_profile report
                   /\ info_score item = page_best_score report
                   /\ info_selection_score item
                      = page_best_selection_score report
                   /\ forall earlier, In earlier sample_attempts ->
                        info_selection_score earlier
                        < page_best_selection_score report)).
Proof.
  eexists. split; [vm_compute; reflexivity|]. split; [reflexivity|].
  eapply (verify_page_worker_best_selection (Done tt) (fun dpi => Done tt)
            sample_scan_page_coverage
            (fun scan_lang => Done [cps "DESIGN CODE"])
            (fun candidate profile => Done tt)
            sample_analyze_ocr_pdf
            (fun boxes => Raised Py.OSError)
            (fun candidate => Done tt)
            (fun boxes => Done (len boxes))
            (fun lines => Done (len lines))
            (ocr_page_try 1) sample_best_profile sample_best_analysis
            sample_attempts
            sample_drawing_settings).
  vm_compute. reflexivity.
Defined.

Lemma verify_page_worker_review_witness :
  exists report,
    sample_verify_page sample_drawing_settings = Done report
    /\ page_needs_review report = true
    /\ (drawing_mode sample_drawing_settings = false ->
        page_needs_review report = (page_best_score report <? 120))
    /\ (drawing_mode sample_drawing_settings = true ->
        page_needs_review report = false ->
        deep_verify sample_drawing_settings = true
        /\ exists coverage,
             sample_scan_page_coverage (lang sample_drawing_settings) true
             = Done coverage
             /\ 40 <= scan_combined_words coverage)
    /\ (deep_verify sample_drawing_settings = false ->
        page_scan_full_words report = 0 /\ page_scan_tile_words report = 0
        /\ page_scan_vertical_words report = 0
        /\ page_table_rescue_words report = 0
        /\ page_augmented_words report = 0 /\ page_fallback_lines report = 0).
Proof.
  eexists. split; [vm_compute; reflexivity|]. split; [reflexivity|].
  eapply (verify_page_worker_review (Done tt) (fun dpi => Done tt)
            sample_scan_page_coverage
            (fun scan_lang => Done [cps "DESIGN CODE"])
            (fun candidate profile => Done tt)
            sample_analyze_ocr_pdf
            (fun boxes => Raised Py.OSError)
            (fun candidate => Done tt)
            (fun boxes => Done (len boxes))
            (fun lines => Done (len lines))
            (ocr_page_try 1) sample_best_profile sample_best_analysis
            sample_attempts
            sample_drawing_settings).
  vm_compute. reflexivity.
Defined.


(** ** Overlay tokens *)

Lemma drop_while_keeps (p : N -> bool) (s : str) (c : N) :
  In c s -> p c = false -> In c (drop_while p s).
Proof.
  induction s as [|x s IH]; simpl; [tauto|].
  intros [->|Hin] Hc.
  - rewrite Hc. now left.
  - destruct (p x); [now apply IH|now right].
Qed.

Lemma replace_char_keeps (src : N) (dst s : str) (c : N) :
  In c s -> c <> src -> In c (replace_char src dst s).
Proof.
  intros Hin Hne. unfold replace_char. apply in_flat_map. exists c.
  split; [exact Hin|]. destruct (N.eqb_spec c src); [contradiction|now left].
Qed.

Section OverlayTokenFacts.

Variable isspace : N -> bool.

Lemma strip_keeps (text : str) (c : N) :
  In c text -> isspace c = false -> In c (strip isspace text).
Proof.
  intros Hin Hc. unfold strip. apply -> in_rev.
  apply drop_while_keeps; [|exact Hc]. apply -> in_rev.
  now apply drop_while_keeps.
Qed.

(** X18.  An overlay token has at most 96 characters, each of them of
    [A-Za-z0-9./:_+\-#%()] or, in a split engineering phrase, a space;
    and a text with an ASCII letter or digit that is not whitespace
    always gives a token: only texts without any are dropped. *)
Theorem normalize_overlay_token_shape (text : str) :
  let token := _normalize_overlay_token isspace text in
  (List.length token <= 96)%nat
  /\ (forall c, In c token -> overlay_char c = true \/ c = 32%N)
  /\ (forall c, In c text -> ascii_alnum c = true -> isspace c = false ->
                token <> []).
Proof.
  cbv zeta. unfold _normalize_overlay_token.
  assert (Hphrases :
            forallb (fun '(_, replacement) =>
                       (List.length (cps replacement) <=? 96)%nat
                       && nonempty (cps replacement)
                       && forallb (fun c => overlay_char c || (c =? 32)%N)
                                  (cps replacement))
                    _ENGINEERING_TOKEN_SPLITS = true)
    by (vm_compute; reflexivity).
  rewrite forallb_forall in Hphrases.
  destruct (strip isspace text) as [|first rest] eqn:Hstrip.
  { split; [simpl; lia|]. split; [intros ? []|].
    intros c Hin _ Hc. pose proof (strip_keeps text c Hin Hc) as Hkept.
    rewrite Hstrip in Hkept. destruct Hkept. }
  cbv beta iota zeta.
  match goal with
  | |- context [fold_left ?f overlay_replacements (first :: rest)] =>
      set (replaced := fold_left f overlay_replacements (first :: rest))
  end.
  set (cleaned := filter overlay_char
                    (filter (fun c => negb (isspace c)) replaced)).
  assert (Hkept : forall c, In c text -> ascii_alnum c = true ->
                            isspace c = false -> In c cleaned).
  { intros c Hin Halnum Hc. unfold cleaned.
    apply filter_In. split; [|unfold overlay_char; now rewrite Halnum].
    apply filter_In. split; [|now rewrite Hc].
    pose proof (strip_keeps text c Hin Hc) as Hstripped.
    rewrite Hstrip in Hstripped. unfold replaced.
    assert (Hsources : forallb (fun '(src, _) => negb (ascii_alnum src))
                         overlay_replacements = true) by reflexivity.
    rewrite forallb_forall in Hsources.
    revert Hstripped Hsources. generalize (first :: rest).
    induction overlay_replacements as [|[src dst] table IH];
      intros s Hs Hsources; cbn [fold_left]; [exact Hs|].
    apply IH; [|intros pair Hpair; apply Hsources; now right].
    apply replace_char_keeps; [exact Hs|]. intros ->.
    specialize (Hsources (src, dst) (or_introl eq_refl)). cbn in Hsources.
    rewrite Halnum in Hsources. discriminate. }
  destruct (existsb ascii_alnum cleaned) eqn:Hany; cbn [negb].
  - destruct (find _ _ENGINEERING_TOKEN_SPLITS) as [[source replacement]|]
      eqn:Hfind.
    + apply find_some in Hfind. destruct Hfind as [Hin _].
      specialize (Hphrases _ Hin). cbn beta iota in Hphrases.
      apply andb_true_iff in Hphrases. destruct Hphrases as [Hphrases Hchars].
      apply andb_true_iff in Hphrases. destruct Hphrases as [Hlen Hsome].
      split; [now apply Nat.leb_le|]. split.
      * intros c Hc. rewrite forallb_forall in Hchars.
        specialize (Hchars c Hc). apply orb_true_iff in Hchars.
        destruct Hchars as [Hchar|Hspace]; [now left|].
        right. now apply N.eqb_eq.
      * intros _ _ _ _ Hempty. rewrite Hempty in Hsome. discriminate.
    + split; [rewrite length_firstn; lia|]. split.
      * intros c Hc. apply firstn_members in Hc. unfold cleaned in Hc.
        apply filter_In in Hc. now left.
      * intros c Hin Halnum Hc. specialize (Hkept c Hin Halnum Hc).
        destruct cleaned as [|x cleaned']; [destruct Hkept|discriminate].
  - split; [simpl; lia|]. split; [intros ? []|].
    intros c Hin Halnum Hc _. specialize (Hkept c Hin Halnum Hc).
    assert (existsb ascii_alnum cleaned = true); [|congruence].
    apply existsb_exists. now exists c.
Qed.

End OverlayTokenFacts.


(** ** From the attempts to the verification *)

Lemma bar_unchanged (history : list AttemptInfo) :
  forall bar,
    (forall item, In item history -> info_selection_score item <= bar) ->
    fold_left
      (fun best item =>
         if best <? info_selection_score item
         then info_selection_score item else best)
      history bar
    = bar.
Proof.
  induction history as [|first rest IH]; intros bar Hbar; cbn [fold_left];
    [reflexivity|].
  destruct (Z.ltb_spec bar (info_selection_score first)) as [Hlt|Hge].
  - specialize (Hbar first (or_introl eq_refl)). lia.
  - apply IH. intros item Hin. apply Hbar. now right.
Qed.

Section HandOverFacts.

Variable isalnum : N -> bool.
Variable isdecimal : N -> bool.
Variable extract_text : Path -> str.
Variable run_ocr : Path -> Profile -> bool.

Lemma attempt_step_agrees (settings : Settings) (st st' : AttemptsState)
    (attempt_idx : Z) (profile : Profile) :
  attempts_agree settings st ->
  attempt_step isalnum isdecimal extract_text run_ocr settings st
    attempt_idx profile = Ok st' ->
  attempts_agree settings st'
  /\ List.length (attempts st') = S (List.length (attempts st)).
Proof.
  intros [Hall Hbest]. unfold attempt_step.
  destruct (run_ocr _ profile); [|discriminate]. cbv zeta.
  match goal with |- (if ?b <? ?s then _ else _) = _ -> _ =>
    destruct (Z.ltb_spec b s) as [Hlt|Hge]
  end; intros [= <-]; unfold attempts_agree;
    cbn [attempts best_candidate best_analysis best_selection_score];
    (split; [split|]).
  - intros item Hin. apply in_app_or in Hin.
    destruct Hin as [Hin|[<-|[]]]; [|cbn [info_selection_score]; lia].
    specialize (Hall item Hin). lia.
  - reflexivity.
  - rewrite length_app. simpl. lia.
  - intros item Hin. apply in_app_or in Hin.
    destruct Hin as [Hin|[<-|[]]]; [now apply Hall|].
    cbn [info_selection_score]. lia.
  - exact Hbest.
  - rewrite length_app. simpl. lia.
Qed.

Lemma attempts_loop_agrees (settings : Settings) (profiles : list Profile) :
  forall (attempt_idx : Z) (st st' : AttemptsState),
    attempts_agree settings st ->
    attempts_loop isalnum isdecimal extract_text run_ocr settings profiles
      attempt_idx st = Ok st' ->
    attempts_agree settings st'
    /\ List.length (attempts st')
       = (List.length (attempts st) + List.length profiles)%nat.
Proof.
  induction profiles as [|profile rest IH]; intros attempt_idx st st' Hst;
    cbn [attempts_loop].
  - intros [= <-]. split; [exact Hst|simpl; lia].
  - destruct (attempt_step _ _ _ _ settings st attempt_idx profile)
      as [st1|e] eqn:Hstep; cbn [bind]; [|discriminate].
    destruct (attempt_step_agrees _ _ _ _ _ Hst Hstep) as [Hst1 Hlen1].
    intros Hloop. destruct (IH _ _ _ Hst1 Hloop) as [Hst' Hlen'].
    split; [exact Hst'|]. rewrite Hlen', Hlen1. simpl. lia.
Qed.

(** X19.  What [_run_ocr_attempts_for_page] returns is what
    [_verify_page_worker] expects: the history has one attempt for each
    profile, none of them with a selection score above that of the best
    analysis, so that the score a rescue candidate has to beat is the
    selection score of the best analysis itself. *)
Theorem attempts_hand_over (settings : Settings) (profiles : list Profile)
    (candidate : Path) (profile : Profile) (analysis : Analysis)
    (history : list AttemptInfo) :
  _run_ocr_attempts_for_page isalnum isdecimal extract_text run_ocr
    settings profiles = Ok (candidate, profile, analysis, history) ->
  List.length history = List.length profiles
  /\ (forall item, In item history ->
        info_selection_score item
        <= _candidate_selection_score analysis (drawing_mode settings))
  /\ initial_selection analysis history settings
     = _candidate_selection_score analysis (drawing_mode settings).
Proof.
  unfold _run_ocr_attempts_for_page.
  destruct (attempts_loop _ _ _ _ settings profiles 1 initial_attempts_state)
    as [st|e] eqn:Hloop; cbn [bind]; [|discriminate].
  destruct (attempts_loop_agrees settings profiles 1 initial_attempts_state st)
    as [[Hall Hbest] Hlen]; [|exact Hloop|].
  { split; [intros ? []|]. intros Hsome. now elim Hsome. }
  destruct (best_candidate st) as [best|] eqn:Hcandidate; [|discriminate].
  destruct (best_profile st) as [best_profile|]; [|discriminate].
  intros [= <- <- <- <-].
  specialize (Hbest ltac:(discriminate)). rewrite Hbest in Hall.
  split; [exact Hlen|]. split; [exact Hall|].
  unfold initial_selection. now apply bar_unchanged.
Qed.

End HandOverFacts.

Lemma attempts_hand_over_witness :
  exists candidate profile analysis history,
    _run_ocr_attempts_for_page (fun c => ascii_alnum c) is_09
      sample_extract_text sample_run_ocr sample_drawing_settings
      (_build_page_profiles sample_drawing_settings)
    = Ok (candidate, profile, analysis, history)
    /\ List.length history
       = List.length (_build_page_profiles sample_drawing_settings)
    /\ (forall item, In item history ->
          info_selection_score item
          <= _candidate_selection_score analysis
               (drawing_mode sample_drawing_settings))
    /\ initial_selection analysis history sample_drawing_settings
       = _candidate_selection_score analysis
           (drawing_mode sample_drawing_settings).
Proof.
  do 4 eexists. split; [vm_compute; reflexivity|].
  eapply (attempts_hand_over (fun c => ascii_alnum c) is_09
            sample_extract_text sample_run_ocr sample_drawing_settings
            (_build_page_profiles sample_drawing_settings)).
  vm_compute. reflexivity.
Defined.
